(** * suitcase.specfile: the SPEC-file serializer, embedded and verified

    The development follows [suitcase/specfile/__init__.py]: the Python
    values the documents are made of, the [datetime] calls of the time
    codec, the four line formatters, and the [Serializer] document router
    as a state machine whose exceptions keep the mutations made before
    the [raise]. *)

From Stdlib Require Import ZArith List String Ascii Bool Lia DecimalString.
From Stdlib Require Import Sorting.Sorted Sorting.Permutation.
From Stdlib Require Import Floats.SpecFloat.
From Stdlib Require Import DecimalPos.
Import ListNotations.
Open Scope string_scope.
Open Scope Z_scope.

(** ** Python values *)

(** Documents are JSON-like: [None], booleans, integers, floats (binary64,
    as [spec_float]), strings (UTF-8 bytes), lists, and dicts with string
    keys.  A dict keeps its insertion order, so it is an association list;
    a well-formed one never repeats a key ([dict_wf]). *)
#[local] Unset Elimination Schemes.
Inductive value : Type :=
| VNone
| VBool (b : bool)
| VInt (z : Z)
| VFloat (f : spec_float)
| VStr (s : string)
| VList (l : list value)
| VDict (d : list (string * value)).
#[local] Set Elimination Schemes.

Definition dict := list (string * value).

(** The exception classes the module and the library calls it makes can
    raise.  [NotImplementedError] is the "not supported" error. *)
Inductive exn : Type :=
| KeyError
| TypeError
| IndexError
| ValueError
| OverflowError
| AttributeError
| NotImplementedError
| OSError
| ModeError
| SuitcaseUtilsValueError.

Inductive result (A : Type) : Type :=
| Ok (a : A)
| Raise (e : exn).
Arguments Ok {A} a.
Arguments Raise {A} e.

Definition rbind {A B} (r : result A) (k : A -> result B) : result B :=
  match r with
  | Ok a => k a
  | Raise e => Raise e
  end.

Notation "x <- c ;; k" := (rbind c (fun x => k))
  (at level 61, c at next level, right associativity).
Notation "' p <- c ;; k" := (rbind c (fun x => let 'p := x in k))
  (at level 61, p pattern, c at next level, right associativity).

Fixpoint rmap {A B} (f : A -> result B) (l : list A) : result (list B) :=
  match l with
  | [] => Ok []
  | a :: l' => b <- f a ;; bs <- rmap f l' ;; Ok (b :: bs)
  end.

(** *** Dict operations *)

Fixpoint lookup (k : string) (d : dict) : option value :=
  match d with
  | [] => None
  | (k', v) :: d' => if String.eqb k k' then Some v else lookup k d'
  end.

Definition keys (d : dict) : list string := map fst d.

Definition dict_wf (d : dict) : Prop := NoDup (keys d).

(** [d[k] = v] on a dict: replaces in place, or appends a new key. *)
Fixpoint dict_set (k : string) (v : value) (d : dict) : dict :=
  match d with
  | [] => [(k, v)]
  | (k', v') :: d' =>
      if String.eqb k k' then (k, v) :: d' else (k', v') :: dict_set k v d'
  end.

(** [d.setdefault(k, v)]: the dict afterwards. *)
Definition setdefault (k : string) (v : value) (d : dict) : dict :=
  match lookup k d with
  | Some _ => d
  | None => dict_set k v d
  end.

Definition is_hashable (v : value) : bool :=
  match v with
  | VList _ | VDict _ => false
  | _ => true
  end.

(** *** Numbers *)

Definition str_of_Z (z : Z) : string := NilZero.string_of_int (Z.to_int z).

(** A finite float [(-1)^s * m * 2^e] against an integer, exactly. *)
Definition signed (s : bool) (m : Z) : Z := if s then - m else m.

Definition cmp_scaled (a ea b eb : Z) : comparison :=
  let e := Z.min ea eb in
  (a * 2 ^ (ea - e) ?= b * 2 ^ (eb - e)).

Definition float_eqb (f g : spec_float) : bool :=
  match f, g with
  | S754_nan, _ | _, S754_nan => false
  | S754_zero _, S754_zero _ => true
  | S754_infinity s, S754_infinity s' => Bool.eqb s s'
  | S754_finite s m e, S754_finite s' m' e' =>
      match cmp_scaled (signed s (Zpos m)) e (signed s' (Zpos m')) e' with
      | Eq => true
      | _ => false
      end
  | _, _ => false
  end.

Definition float_eq_Z (f : spec_float) (z : Z) : bool :=
  match f with
  | S754_zero _ => z =? 0
  | S754_finite s m e =>
      match cmp_scaled (signed s (Zpos m)) e z 0 with
      | Eq => true
      | _ => false
      end
  | _ => false
  end.

(** [math.trunc] of a finite float. *)
Definition float_trunc (s : bool) (m : positive) (e : Z) : Z :=
  signed s (if 0 <=? e then Zpos m * 2 ^ e else Zpos m / 2 ^ (- e)).

(** *** [repr] of a float

    [repr] prints the shortest decimal [k * 10^q] that reads back to the
    same binary64 (the nearest to it when several are as short, the even
    one on a tie).  [shortest] looks for it on coarser grids first, from
    [decimal_bound] down. *)

(** [k * 10^q] against [n * 2^e]. *)
Definition cmp_dec_bin (k q n e : Z) : comparison :=
  (k * 10 ^ Z.max q 0 * 2 ^ Z.max (- e) 0 ?= n * 2 ^ Z.max e 0 * 10 ^ Z.max (- q) 0).

(** The largest [k] with [k * 10^q <= n * 2^e]. *)
Definition floor_dec (q n e : Z) : Z :=
  (n * 2 ^ Z.max e 0 * 10 ^ Z.max (- q) 0) / (10 ^ Z.max q 0 * 2 ^ Z.max (- e) 0).

(** Whether [k * 10^q] rounds to [m * 2^e] when read (round to nearest,
    ties to even): the interval reaches half-way to both neighbours, and the
    lower neighbour is twice as near just above a power of two. *)
Definition rounds_to (m e k q : Z) : bool :=
  let lo := if (m =? 2 ^ 52) && (-1074 <? e) then 4 * m - 1 else 4 * m - 2 in
  let hi := 4 * m + 2 in
  match cmp_dec_bin k q lo (e - 2), cmp_dec_bin k q hi (e - 2) with
  | Gt, Lt => true
  | Eq, Lt | Gt, Eq => Z.even m
  | _, _ => false
  end.

Definition pick (m e k q : Z) : option Z :=
  match (0 <? k) && rounds_to m e k q, rounds_to m e (k + 1) q with
  | false, false => None
  | true, false => Some k
  | false, true => Some (k + 1)
  | true, true =>
      match cmp_dec_bin (2 * k + 1) q (2 * m) e with
      | Lt => Some (k + 1)
      | Gt => Some k
      | Eq => Some (if Z.even k then k else k + 1)
      end
  end.

Fixpoint shortest (fuel : nat) (m e q : Z) : Z * Z :=
  match fuel with
  | O => (m, e)
  | S fuel' =>
      match pick m e (floor_dec q m e) q with
      | Some k => (k, q)
      | None => shortest fuel' m e (q - 1)
      end
  end.

(** A power of ten above [m * 2^e]: no grid coarser than it has a point that
    rounds to the float. *)
Definition decimal_bound (m e : Z) : Z :=
  (Z.log2 m + 1 + e) * 30103 / 100000 + 1.

Definition zeros (n : Z) : string :=
  string_of_list_ascii (repeat "0"%char (Z.to_nat n)).

(** The layout of [repr]: exponent form when the decimal point falls outside
    of [(-4, 16]], else positional with at least one digit after the point. *)
Definition float_layout (digits : string) (decpt : Z) : string :=
  let n := Z.of_nat (String.length digits) in
  if (decpt <=? -4) || (16 <? decpt) then
    let ex := decpt - 1 in
    let mant := match digits with
                | String c EmptyString => String c EmptyString
                | String c rest => String c ("." ++ rest)
                | EmptyString => EmptyString
                end in
    mant ++ "e" ++ (if ex <? 0 then "-" else "+")
         ++ (if Z.abs ex <? 10 then "0" else "") ++ str_of_Z (Z.abs ex)
  else if decpt <=? 0 then "0." ++ zeros (- decpt) ++ digits
  else if n <=? decpt then digits ++ zeros (decpt - n) ++ ".0"
  else substring 0 (Z.to_nat decpt) digits ++ "."
       ++ substring (Z.to_nat decpt) (Z.to_nat (n - decpt)) digits.

(** The mantissa and the exponent of the binary64 that [m * 2^e] is: the
    mantissa has 53 bits, unless the exponent is the least one, -1074. *)
Definition canonical (m e : Z) : Z * Z :=
  let k := Z.max 0 (Z.min (52 - Z.log2 m) (e + 1074)) in
  (m * 2 ^ k, e - k).

Definition float_repr (f : spec_float) : string :=
  match f with
  | S754_nan => "nan"
  | S754_infinity s => if s then "-inf" else "inf"
  | S754_zero s => if s then "-0.0" else "0.0"
  | S754_finite s m e =>
      let '(m, e) := canonical (Zpos m) e in
      let '(k, q) := shortest 700 m e (decimal_bound m e) in
      let digits := str_of_Z k in
      (if s then "-" else "")
        ++ float_layout digits (Z.of_nat (String.length digits) + q)
  end.

(** *** [repr] and [str]

    A string is its UTF-8 bytes; [repr] escapes the ASCII control characters
    and keeps the bytes of a non-ASCII character as they are (such a
    character is taken to be printable). *)

Definition hex_digit (n : N) : ascii :=
  ascii_of_N (if (n <? 10)%N then 48 + n else 87 + n).

Definition double_quote : ascii := ascii_of_N 34.
Definition single_quote : ascii := ascii_of_N 39.
Definition backslash : ascii := ascii_of_N 92.

Fixpoint contains_char (c : ascii) (s : string) : bool :=
  match s with
  | EmptyString => false
  | String c' s' => Ascii.eqb c c' || contains_char c s'
  end.

Fixpoint escape (quote : ascii) (s : string) : string :=
  match s with
  | EmptyString => EmptyString
  | String c s' =>
      let n := N_of_ascii c in
      (if Ascii.eqb c quote || Ascii.eqb c backslash then String backslash (String c EmptyString)
       else if (n =? 9)%N then String backslash "t"
       else if (n =? 10)%N then String backslash "n"
       else if (n =? 13)%N then String backslash "r"
       else if (n <? 32)%N || (n =? 127)%N then
         String backslash
           (String "x" (String (hex_digit (n / 16))
                          (String (hex_digit (n mod 16)) EmptyString)))
       else String c EmptyString) ++ escape quote s'
  end.

Definition str_repr (s : string) : string :=
  let quote := if contains_char single_quote s && negb (contains_char double_quote s)
               then double_quote else single_quote in
  String quote (escape quote s) ++ String quote EmptyString.

Fixpoint py_repr (v : value) : string :=
  match v with
  | VNone => "None"
  | VBool b => if b then "True" else "False"
  | VInt z => str_of_Z z
  | VFloat f => float_repr f
  | VStr s => str_repr s
  | VList l => "[" ++ String.concat ", " (map py_repr l) ++ "]"
  | VDict d =>
      "{" ++ String.concat ", "
               (map (fun kv => let '(k, x) := kv in str_repr k ++ ": " ++ py_repr x) d)
          ++ "}"
  end.

(** [str(v)], which is also what a [{{ v }}] of a template and a [{v}] of
    [str.format] print. *)
Definition py_str (v : value) : string :=
  match v with
  | VStr s => s
  | _ => py_repr v
  end.

(** *** Truth value and equality *)

Definition truthy (v : value) : bool :=
  match v with
  | VNone => false
  | VBool b => b
  | VInt z => negb (z =? 0)
  | VFloat (S754_zero _) => false
  | VFloat _ => true
  | VStr s => negb (String.eqb s "")
  | VList l => match l with [] => false | _ => true end
  | VDict d => match d with [] => false | _ => true end
  end.

Definition Z_of_bool (b : bool) : Z := if b then 1 else 0.

(** [a == b]: numbers compare by value across [bool], [int] and [float];
    lists element by element; dicts as mappings, whatever the order. *)
Fixpoint py_eq (a b : value) : bool :=
  match a, b with
  | VNone, VNone => true
  | VBool x, VBool y => Bool.eqb x y
  | VBool x, VInt z | VInt z, VBool x => Z_of_bool x =? z
  | VBool x, VFloat f | VFloat f, VBool x => float_eq_Z f (Z_of_bool x)
  | VInt x, VInt y => x =? y
  | VInt z, VFloat f | VFloat f, VInt z => float_eq_Z f z
  | VFloat f, VFloat g => float_eqb f g
  | VStr s, VStr t => String.eqb s t
  | VList l1, VList l2 =>
      (fix list_eq (l1 l2 : list value) : bool :=
         match l1, l2 with
         | [], [] => true
         | x :: l1', y :: l2' => py_eq x y && list_eq l1' l2'
         | _, _ => false
         end) l1 l2
  | VDict d1, VDict d2 =>
      (List.length d1 =? List.length d2)%nat
      && (fix sub (d : list (string * value)) : bool :=
            match d with
            | [] => true
            | (k, x) :: d' =>
                match lookup k d2 with
                | Some y => py_eq x y && sub d'
                | None => false
                end
            end) d1
  | _, _ => false
  end.

(** *** Subscripts, [len], [int] *)

(** [l[i]] with Python's negative indices. *)
Definition index {A} (l : list A) (i : Z) : option A :=
  let n := Z.of_nat (List.length l) in
  let j := if i <? 0 then i + n else i in
  if (0 <=? j) && (j <? n) then nth_error l (Z.to_nat j) else None.

(** [v[k]]. *)
Definition getitem (v k : value) : result value :=
  match v with
  | VDict d =>
      match k with
      | VStr s => match lookup s d with Some x => Ok x | None => Raise KeyError end
      | _ => if is_hashable k then Raise KeyError else Raise TypeError
      end
  | VList l =>
      match k with
      | VInt i => match index l i with Some x => Ok x | None => Raise IndexError end
      | VBool b => match index l (Z_of_bool b) with Some x => Ok x | None => Raise IndexError end
      | _ => Raise TypeError
      end
  | VStr s =>
      match k with
      | VInt i =>
          match index (list_ascii_of_string s) i with
          | Some c => Ok (VStr (String c EmptyString))
          | None => Raise IndexError
          end
      | VBool b =>
          match index (list_ascii_of_string s) (Z_of_bool b) with
          | Some c => Ok (VStr (String c EmptyString))
          | None => Raise IndexError
          end
      | _ => Raise TypeError
      end
  | _ => Raise TypeError
  end.

Notation "v .[ k ]" := (getitem v (VStr k)) (at level 1, format "v .[ k ]").

(** [v.get(k, default)]: only a dict has the method. *)
Definition get (v : value) (k : string) (default : value) : result value :=
  match v with
  | VDict d => Ok (match lookup k d with Some x => x | None => default end)
  | _ => Raise AttributeError
  end.

Definition py_len (v : value) : result Z :=
  match v with
  | VStr s => Ok (Z.of_nat (String.length s))
  | VList l => Ok (Z.of_nat (List.length l))
  | VDict d => Ok (Z.of_nat (List.length d))
  | _ => Raise TypeError
  end.

(** The ASCII characters that are white space to [str] and to a pattern. *)
Definition is_space (c : ascii) : bool :=
  let n := N_of_ascii c in
  ((n =? 32) || ((9 <=? n) && (n <=? 13)) || ((28 <=? n) && (n <=? 31)))%N.

(** Of a text of ASCII characters [int] and [float] strip the blanks of C
    at both ends: the space and the characters 9 to 13, not the separators
    28 to 31.  Characters outside ASCII, among which Python knows more
    blanks and more digits, count as neither here. *)
Definition c_isspace (c : ascii) : bool :=
  let n := N_of_ascii c in
  ((n =? 32) || ((9 <=? n) && (n <=? 13)))%N.

Definition digit_val (c : ascii) : option Z :=
  let n := N_of_ascii c in
  if ((48 <=? n) && (n <=? 57))%N then Some (Z.of_N n - 48) else None.

Fixpoint lstrip (l : list ascii) : list ascii :=
  match l with
  | c :: l' => if c_isspace c then lstrip l' else l
  | [] => []
  end.

Definition strip (l : list ascii) : list ascii := rev (lstrip (rev (lstrip l))).

(** The digits of an integer literal; a single underscore may separate two
    digits. *)
Fixpoint digits_value (acc : Z) (after_digit : bool) (l : list ascii) : option Z :=
  match l with
  | [] => if after_digit then Some acc else None
  | c :: l' =>
      match digit_val c with
      | Some d => digits_value (10 * acc + d) true l'
      | None =>
          if Ascii.eqb c "_"%char && after_digit then digits_value acc false l' else None
      end
  end.

Definition int_of_str (s : string) : option Z :=
  match strip (list_ascii_of_string s) with
  | "-"%char :: l => option_map Z.opp (digits_value 0 false l)
  | "+"%char :: l => digits_value 0 false l
  | l => digits_value 0 false l
  end.

(** [int(v)]. *)
Definition py_int (v : value) : result Z :=
  match v with
  | VInt z => Ok z
  | VBool b => Ok (Z_of_bool b)
  | VFloat S754_nan => Raise ValueError
  | VFloat (S754_infinity _) => Raise OverflowError
  | VFloat (S754_zero _) => Ok 0
  | VFloat (S754_finite s m e) => Ok (float_trunc s m e)
  | VStr s => match int_of_str s with Some z => Ok z | None => Raise ValueError end
  | _ => Raise TypeError
  end.

(** ** [datetime]

    A naive [datetime.datetime]; [fold] plays no part in formatting or in
    [==] and is left out. *)
Record datetime : Type := mk_datetime {
  year : Z; month : Z; day : Z;
  hour : Z; minute : Z; second : Z; microsecond : Z
}.

Definition is_leap (y : Z) : bool :=
  (y mod 4 =? 0) && (negb (y mod 100 =? 0) || (y mod 400 =? 0)).

Definition days_before_year (y : Z) : Z :=
  let p := y - 1 in p * 365 + p / 4 - p / 100 + p / 400.

Definition DAYS_IN_MONTH : list Z := [31; 28; 31; 30; 31; 30; 31; 31; 30; 31; 30; 31].

Definition days_in_month_of (leap : bool) (m : Z) : Z :=
  if (m =? 2) && leap then 29 else nth (Z.to_nat (m - 1)) DAYS_IN_MONTH 0.

Definition days_in_month (y m : Z) : Z := days_in_month_of (is_leap y) m.

Definition DAYS_BEFORE_MONTH : list Z :=
  [0; 31; 59; 90; 120; 151; 181; 212; 243; 273; 304; 334].

Definition days_before_month_of (leap : bool) (m : Z) : Z :=
  nth (Z.to_nat (m - 1)) DAYS_BEFORE_MONTH 0 + (if (2 <? m) && leap then 1 else 0).

Definition days_before_month (y m : Z) : Z := days_before_month_of (is_leap y) m.

(** Proleptic Gregorian ordinal, 0001-01-01 being day 1. *)
Definition ymd2ord (y m d : Z) : Z := days_before_year y + days_before_month y m + d.

Definition DI400Y : Z := 146097.
Definition DI100Y : Z := 36524.
Definition DI4Y : Z := 1461.

Definition ord2ymd (n : Z) : Z * Z * Z :=
  let n := n - 1 in
  let n400 := n / DI400Y in
  let n := n mod DI400Y in
  let n100 := n / DI100Y in
  let n := n mod DI100Y in
  let n4 := n / DI4Y in
  let n := n mod DI4Y in
  let n1 := n / 365 in
  let n := n mod 365 in
  let y := n400 * 400 + 1 + n100 * 100 + n4 * 4 + n1 in
  if (n1 =? 4) || (n100 =? 4) then (y - 1, 12, 31)
  else
    let leapyear := (n1 =? 3) && (negb (n4 =? 24) || (n100 =? 3)) in
    let m := Z.shiftr (n + 50) 5 in
    let preceding := days_before_month_of leapyear m in
    if n <? preceding
    then (y, m - 1, n - (preceding - days_in_month_of leapyear (m - 1)) + 1)
    else (y, m, n - preceding + 1).

(** Monday is 0. *)
Definition weekday (d : datetime) : Z := (ymd2ord (year d) (month d) (day d) + 6) mod 7.

(** The checks of the [datetime(...)] constructor. *)
Definition check_fields (d : datetime) : bool :=
  (1 <=? year d) && (year d <=? 9999) && (1 <=? month d) && (month d <=? 12)
  && (1 <=? day d) && (day d <=? days_in_month (year d) (month d))
  && (0 <=? hour d) && (hour d <=? 23) && (0 <=? minute d) && (minute d <=? 59)
  && (0 <=? second d) && (second d <=? 59)
  && (0 <=? microsecond d) && (microsecond d <=? 999999).

Definition new_datetime (y mo d h mi s us : Z) : result datetime :=
  let r := mk_datetime y mo d h mi s us in
  if check_fields r then Ok r else Raise ValueError.

(** *** Reading a timestamp *)

Definition float_1e6 : spec_float := S754_finite false 15625 6.

(** [math.modf]: the integral part and the fractional part, both with the
    sign of the argument. *)
Definition modf (s : bool) (m : positive) (e : Z) : Z * spec_float :=
  if 0 <=? e then (signed s (Zpos m * 2 ^ e), S754_zero s)
  else
    match Zpos m mod 2 ^ (- e) with
    | Zpos r => (float_trunc s m e, S754_finite s r e)
    | _ => (float_trunc s m e, S754_zero s)
    end.

(** Rounding to the nearest integer, a half going to the even one. *)
Definition round_half_even (f : spec_float) : Z :=
  match f with
  | S754_finite s m e =>
      if 0 <=? e then signed s (Zpos m * 2 ^ e)
      else
        let q := Zpos m / 2 ^ (- e) in
        let r := Zpos m mod 2 ^ (- e) in
        signed s (match 2 * r ?= 2 ^ (- e) with
                  | Lt => q
                  | Gt => q + 1
                  | Eq => if Z.even q then q else q + 1
                  end)
  | _ => 0
  end.

(** The seconds and microseconds [fromtimestamp] reads from its argument:
    a float is split and its fraction rounded to microseconds. *)
Definition timestamp_parts (v : value) : result (Z * Z) :=
  match v with
  | VInt z => Ok (z, 0)
  | VBool b => Ok (Z_of_bool b, 0)
  | VFloat S754_nan => Raise ValueError
  | VFloat (S754_infinity _) => Raise OverflowError
  | VFloat (S754_zero _) => Ok (0, 0)
  | VFloat (S754_finite s m e) =>
      let '(intpart, floatpart) := modf s m e in
      let us := round_half_even (SFmul 53 1024 floatpart float_1e6) in
      if 1000000 <=? us then Ok (intpart + 1, us - 1000000)
      else if us <? 0 then Ok (intpart - 1, us + 1000000)
      else Ok (intpart, us)
  | _ => Raise TypeError
  end.

(** *** [strptime]

    A format is a list of directives.  [%a] and [%b] are the names of the C
    locale. *)
Inductive directive : Type :=
| Pa | Pb | Pd | PH | PM | PS | PY
| Lit (c : ascii).

Definition DAY_ABBR : list string := ["Mon"; "Tue"; "Wed"; "Thu"; "Fri"; "Sat"; "Sun"].

Definition MONTH_ABBR : list string :=
  ["Jan"; "Feb"; "Mar"; "Apr"; "May"; "Jun"; "Jul"; "Aug"; "Sep"; "Oct"; "Nov"; "Dec"].

Definition digit_char (n : Z) : ascii := ascii_of_N (48 + Z.to_N n).

Definition two_digits (n : Z) : string :=
  String (digit_char (n / 10)) (String (digit_char (n mod 10)) EmptyString).

Definition four_digits (n : Z) : string :=
  String (digit_char (n / 1000)) (String (digit_char (n / 100 mod 10)) (two_digits (n mod 100))).

(** A directive reads by the alternatives of its regular expression, tried
    in order; an alternative is one range of digits per character. *)
Fixpoint match_digits (cls : list (Z * Z)) (acc : Z) (s : string) : option (Z * string) :=
  match cls with
  | [] => Some (acc, s)
  | (lo, hi) :: cls' =>
      match s with
      | String c s' =>
          match digit_val c with
          | Some d =>
              if (lo <=? d) && (d <=? hi) then match_digits cls' (10 * acc + d) s' else None
          | None => None
          end
      | EmptyString => None
      end
  end.

Fixpoint first_match (alts : list (list (Z * Z))) (s : string) : option (Z * string) :=
  match alts with
  | [] => None
  | a :: alts' =>
      match match_digits a 0 s with
      | Some r => Some r
      | None => first_match alts' s
      end
  end.

Definition lower (c : ascii) : ascii :=
  let n := N_of_ascii c in
  if ((65 <=? n) && (n <=? 90))%N then ascii_of_N (n + 32) else c.

(** [name] as a prefix of [s], whatever the case: what follows it. *)
Fixpoint match_prefix (name s : string) : option string :=
  match name with
  | EmptyString => Some s
  | String c name' =>
      match s with
      | String c' s' => if Ascii.eqb (lower c) (lower c') then match_prefix name' s' else None
      | EmptyString => None
      end
  end.

Fixpoint match_name (names : list string) (i : Z) (s : string) : option (Z * string) :=
  match names with
  | [] => None
  | n :: names' =>
      match match_prefix n s with
      | Some rest => Some (i, rest)
      | None => match_name names' (i + 1) s
      end
  end.

Fixpoint skip_spaces (s : string) : string :=
  match s with
  | String c s' => if is_space c then skip_spaces s' else s
  | EmptyString => EmptyString
  end.

(** What [strptime] has read so far; the defaults are 1900-01-01 00:00:00. *)
Record parsed : Type := mk_parsed {
  p_year : Z; p_month : Z; p_day : Z; p_hour : Z; p_minute : Z; p_second : Z
}.

Definition parsed0 : parsed := mk_parsed 1900 1 1 0 0 0.

Definition strptime1 (p : directive) (acc : parsed) (s : string) : option (parsed * string) :=
  let '(mk_parsed y mo d h mi se) := acc in
  match p with
  | Pa => match match_name DAY_ABBR 0 s with
          | Some (_, r) => Some (acc, r)
          | None => None
          end
  | Pb => match match_name MONTH_ABBR 1 s with
          | Some (n, r) => Some (mk_parsed y n d h mi se, r)
          | None => None
          end
  | Pd =>
      match first_match [[(3, 3); (0, 1)]; [(1, 2); (0, 9)]; [(0, 0); (1, 9)]; [(1, 9)]] s with
      | Some (n, r) => Some (mk_parsed y mo n h mi se, r)
      | None =>
          match s with
          | String " " s' =>
              match match_digits [(1, 9)] 0 s' with
              | Some (n, r) => Some (mk_parsed y mo n h mi se, r)
              | None => None
              end
          | _ => None
          end
      end
  | PH => match first_match [[(2, 2); (0, 3)]; [(0, 1); (0, 9)]; [(0, 9)]] s with
          | Some (n, r) => Some (mk_parsed y mo d n mi se, r)
          | None => None
          end
  | PM => match first_match [[(0, 5); (0, 9)]; [(0, 9)]] s with
          | Some (n, r) => Some (mk_parsed y mo d h n se, r)
          | None => None
          end
  | PS => match first_match [[(6, 6); (0, 1)]; [(0, 5); (0, 9)]; [(0, 9)]] s with
          | Some (n, r) => Some (mk_parsed y mo d h mi n, r)
          | None => None
          end
  | PY => match match_digits [(0, 9); (0, 9); (0, 9); (0, 9)] 0 s with
          | Some (n, r) => Some (mk_parsed n mo d h mi se, r)
          | None => None
          end
  | Lit c =>
      match s with
      | String c' s' =>
          if is_space c then (if is_space c' then Some (acc, skip_spaces s') else None)
          else if Ascii.eqb (lower c) (lower c') then Some (acc, s')
          else None
      | EmptyString => None
      end
  end.

Fixpoint strptime_loop (fmt : list directive) (acc : parsed) (s : string) : option parsed :=
  match fmt with
  | [] => match s with EmptyString => Some acc | _ => None end
  | p :: fmt' =>
      match strptime1 p acc s with
      | Some (acc', s') => strptime_loop fmt' acc' s'
      | None => None
      end
  end.

(** [datetime.strptime(s, fmt)]: a text that does not match, or has more
    after the match, or gives no date, is a [ValueError]. *)
Definition strptime (s : string) (fmt : list directive) : result datetime :=
  match strptime_loop fmt parsed0 s with
  | Some (mk_parsed y mo d h mi se) => new_datetime y mo d h mi se 0
  | None => Raise ValueError
  end.

(** ** Sorting, paths and templates *)

Fixpoint insert_sorted {A} (le : A -> A -> bool) (x : A) (l : list A) : list A :=
  match l with
  | [] => [x]
  | y :: l' => if le x y then x :: l else y :: insert_sorted le x l'
  end.

Definition sort_by {A} (le : A -> A -> bool) (l : list A) : list A :=
  fold_right (insert_sorted le) [] l.

(** [sorted] of a list of strings: code-point order is the order of the
    UTF-8 bytes. *)
Definition sorted (l : list string) : list string := sort_by String.leb l.

(** [sorted(d.items())]: the keys of a dict differ, so they alone order the
    pairs. *)
Definition sorted_items (d : dict) : dict :=
  sort_by (fun a b => String.leb (fst a) (fst b)) d.

Definition dict_keys (v : value) : result (list string) :=
  match v with
  | VDict d => Ok (keys d)
  | _ => Raise AttributeError
  end.

Definition dict_items (v : value) : result dict :=
  match v with
  | VDict d => Ok d
  | _ => Raise AttributeError
  end.

(** Iterating a value: a dict gives its keys, a string its characters. *)
Definition iterate (v : value) : result (list value) :=
  match v with
  | VList l => Ok l
  | VDict d => Ok (map VStr (keys d))
  | VStr s => Ok (map (fun c => VStr (String c EmptyString)) (list_ascii_of_string s))
  | _ => Raise TypeError
  end.

(** [os.path.basename]: what follows the last slash. *)
Fixpoint basename_from (acc s : string) : string :=
  match s with
  | EmptyString => acc
  | String c s' => if Ascii.eqb c "/"%char then basename_from s' s' else basename_from acc s'
  end.

Definition basename (path : string) : string := basename_from path path.

Definition nl : string := String (ascii_of_N 10) EmptyString.

(** A jinja2 template: text, [{{ name }}] and [{{ name | join(sep) }}].
    [from_string] drops one newline at the end of the source, as the
    environment does by default. *)
Inductive piece : Type :=
| Text (s : string)
| Var (name : string)
| Join (name : string) (sep : string).

Fixpoint chomp (s : string) : string :=
  match s with
  | EmptyString => EmptyString
  | String c EmptyString => if Ascii.eqb c (ascii_of_N 10) then EmptyString else s
  | String c s' => String c (chomp s')
  end.

Fixpoint from_string (src : list piece) : list piece :=
  match src with
  | [] => []
  | [Text s] => [Text (chomp s)]
  | p :: src' => p :: from_string src'
  end.

Definition render1 (md : dict) (p : piece) : result string :=
  match p with
  | Text s => Ok s
  | Var name => Ok (match lookup name md with Some v => py_str v | None => "" end)
  | Join name sep =>
      match lookup name md with
      | Some v => l <- iterate v ;; Ok (String.concat sep (map py_str l))
      | None => Ok ""
      end
  end.

Definition render (t : list piece) (md : dict) : result string :=
  l <- rmap (render1 md) t ;; Ok (String.concat "" l).

(** *** The platform, [datetime.fromtimestamp] and [strftime]

    What the process takes from its platform: the offset of the local zone
    from UTC, in seconds, at each instant (it may change with daylight
    saving, and is always less than a day); and whether the C [strftime]
    writes [%Y] zero-padded to four digits (that of glibc writes a year
    before 1000 without padding). *)
Record platform : Type := mk_platform {
  utcoffset : Z -> Z;
  utcoffset_range : forall t, -86400 < utcoffset t < 86400;
  pads_year : bool
}.

(** UTC as the local zone, with the [strftime] of glibc, and with one that
    pads the year. *)
Definition utc_glibc : platform :=
  mk_platform (fun _ => 0) (fun _ => conj eq_refl eq_refl) false.

Definition utc_padded : platform :=
  mk_platform (fun _ => 0) (fun _ => conj eq_refl eq_refl) true.

Definition max_fold_seconds : Z := 86400.

(** Seconds since 0001-01-01 of a civil time; the year must be one a
    [datetime] can hold. *)
Definition utc_to_seconds (f : Z * Z * Z * Z * Z * Z) : result Z :=
  let '(y, mo, d, h, mi, s) := f in
  if negb ((1 <=? y) && (y <=? 9999)) then Raise ValueError
  else Ok (ymd2ord y mo d * 86400 + h * 3600 + mi * 60 + s).

Section Platform.

Variable pf : platform.

(** The C [localtime]: it fails when the year does not fit [tm_year]. *)
Definition localtime (t : Z) : result (Z * Z * Z * Z * Z * Z) :=
  let lt := t + utcoffset pf t in
  let '(y, mo, d) := ord2ymd (719163 + lt / 86400) in
  let secs := lt mod 86400 in
  if negb ((- 2 ^ 31 <=? y - 1900) && (y - 1900 <? 2 ^ 31)) then Raise OSError
  else Ok (y, mo, d, secs / 3600, secs mod 3600 / 60, secs mod 60).

Definition local (t : Z) : result Z :=
  f <- localtime t ;; utc_to_seconds f.

(** [datetime.fromtimestamp(v)], in local time.  The seconds must fit the
    platform's [time_t]; the probes that look for a repeated hour (the
    [fold]) can only fail. *)
Definition fromtimestamp (v : value) : result datetime :=
  '(t, us) <- timestamp_parts v ;;
  if negb ((- 2 ^ 63 <=? t) && (t <? 2 ^ 63)) then Raise OverflowError
  else
    '(y, mo, d, h, mi, s) <- localtime t ;;
    result_seconds <- utc_to_seconds (y, mo, d, h, mi, s) ;;
    probe_seconds <- local (t - max_fold_seconds) ;;
    let transition := result_seconds - probe_seconds - max_fold_seconds in
    _ <- (if transition <? 0 then local (t + transition) else Ok 0) ;;
    new_datetime y mo d h mi s us.

(** [%Y]: the year in four digits, or, where [strftime] does not pad, the
    same without its leading zeros. *)
Fixpoint strip_zeros (s : string) : string :=
  match s with
  | String c s' =>
      if Ascii.eqb c "0"%char
      then match s' with
           | EmptyString => s
           | _ => strip_zeros s'
           end
      else s
  | EmptyString => EmptyString
  end.

Definition year_text (padded : bool) (y : Z) : string :=
  if padded then four_digits y else strip_zeros (four_digits y).

Definition strftime1 (d : datetime) (p : directive) : string :=
  match p with
  | Pa => nth (Z.to_nat (weekday d)) DAY_ABBR ""
  | Pb => nth (Z.to_nat (month d - 1)) MONTH_ABBR ""
  | Pd => two_digits (day d)
  | PH => two_digits (hour d)
  | PM => two_digits (minute d)
  | PS => two_digits (second d)
  | PY => year_text (pads_year pf) (year d)
  | Lit c => String c EmptyString
  end.

Definition strftime (d : datetime) (fmt : list directive) : string :=
  String.concat "" (map (strftime1 d) fmt).

(** ** The time codec *)

Definition SPEC_TIME_FORMAT : list directive :=
  [Pa; Lit " "; Pb; Lit " "; Pd; Lit " "; PH; Lit ":"; PM; Lit ":"; PS; Lit " "; PY].

Definition from_spec_time (string_time : string) : result datetime :=
  strptime string_time SPEC_TIME_FORMAT.

Definition to_spec_time (datetime_object : datetime) : string :=
  strftime datetime_object SPEC_TIME_FORMAT.

(** ** The line formatters *)

Definition _SPEC_FILE_HEADER_TEMPLATE : list piece :=
  from_string
    [Text "#F "; Var "filename"; Text (nl ++ "#E "); Var "unix_time";
     Text (nl ++ "#D "); Var "readable_time";
     Text (nl ++ "#C "); Var "owner"; Text "  User = "; Var "owner";
     Text (nl ++ "#O0 "); Join "positioner_variable_sources" "  ";
     Text (nl ++ "#o0 "); Join "positioner_variable_names" " "].

Definition _DEFAULT_POSITIONERS : value := VDict [("data_keys", VDict [])].

Definition to_spec_file_header (start : value) (filepath : string)
    (baseline_descriptor : value) : result string :=
  let baseline_descriptor :=
    match baseline_descriptor with
    | VNone => _DEFAULT_POSITIONERS
    | _ => baseline_descriptor
    end in
  owner <- get start "owner" (VStr "") ;;
  data_keys <- baseline_descriptor.["data_keys"] ;;
  ks <- dict_keys data_keys ;;
  let positioner_variable_names := sorted ks in
  positioner_variable_sources <-
    rmap (fun k => dk <- baseline_descriptor.["data_keys"] ;;
                   f <- dk.[k] ;; f.["source"])
         positioner_variable_names ;;
  t <- start.["time"] ;;
  unix_time <- py_int t ;;
  dt <- fromtimestamp (VInt unix_time) ;;
  render _SPEC_FILE_HEADER_TEMPLATE
    [("owner", owner);
     ("positioner_variable_names", VList (map VStr positioner_variable_names));
     ("positioner_variable_sources", VList positioner_variable_sources);
     ("unix_time", VInt unix_time);
     ("readable_time", VStr (to_spec_time dt));
     ("filename", VStr (basename filepath))].

Definition _SCANS_WITHOUT_MOTORS : list (string * string) := [("ct", "count")].
Definition _SCANS_WITH_MOTORS : list (string * string) :=
  [("ascan", "scan"); ("dscan", "rel_scan")].
Definition _SPEC_SCAN_NAMES : list (string * string) :=
  _SCANS_WITHOUT_MOTORS ++ _SCANS_WITH_MOTORS.
Definition _BLUESKY_PLAN_NAMES : list (string * string) :=
  map (fun kv => (snd kv, fst kv)) _SPEC_SCAN_NAMES.

Fixpoint assoc (k : string) (d : list (string * string)) : option string :=
  match d with
  | [] => None
  | (k', v) :: d' => if String.eqb k k' then Some v else assoc k d'
  end.

Definition mem (k : string) (d : list (string * string)) : bool :=
  match assoc k d with Some _ => true | None => false end.

(** [_BLUESKY_PLAN_NAMES.get(plan_name, 'Other')]: the key must be hashable,
    and only a string can be found. *)
Definition get_name (plan_name : value) : result string :=
  match plan_name with
  | VStr s => Ok (match assoc s _BLUESKY_PLAN_NAMES with Some n => n | None => "Other" end)
  | _ => if is_hashable plan_name then Ok "Other" else Raise TypeError
  end.

Definition _get_acq_time (start : value) : result value :=
  time <- get start "count_time" (VInt (-1)) ;;
  Ok (match time with VNone => VInt (-1) | _ => time end).

Definition _get_plan_name (start : value) : result string :=
  plan_name <- start.["plan_name"] ;;
  get_name plan_name.

Definition _get_motor_name (start : value) : result value :=
  plan_name <- _get_plan_name start ;;
  if negb (mem plan_name _SPEC_SCAN_NAMES) || mem plan_name _SCANS_WITHOUT_MOTORS
  then Ok (VStr "seq_num")
  else
    motor_name <- start.["motors"] ;;
    n <- py_len motor_name ;;
    if 1 <? n then Raise NotImplementedError
    else getitem motor_name (VInt 0).

Definition _get_motor_position (start event : value) : result value :=
  plan_name <- _get_plan_name start ;;
  if negb (mem plan_name _SPEC_SCAN_NAMES) || mem plan_name _SCANS_WITHOUT_MOTORS
  then event.["seq_num"]
  else
    motor_name <- _get_motor_name start ;;
    if py_eq motor_name (VStr "seq_num") then event.["seq_num"]
    else data <- event.["data"] ;; getitem data motor_name.

(** The filter of the comprehension: [v['shape']] is read only when the
    object is not the motor. *)
Definition is_read_field (motor_name : value) (kv : string * value) : result bool :=
  object_name <- (snd kv).["object_name"] ;;
  if negb (py_eq object_name motor_name)
  then shape <- (snd kv).["shape"] ;; Ok (negb (truthy shape))
  else Ok false.

Fixpoint rfilter {A} (f : A -> result bool) (l : list A) : result (list A) :=
  match l with
  | [] => Ok []
  | a :: l' =>
      b <- f a ;; r <- rfilter f l' ;; Ok (if b then a :: r else r)
  end.

Definition _get_scan_data_column_names (start primary_descriptor : value)
    : result (list string) :=
  motor_name <- _get_motor_name start ;;
  data_keys <- primary_descriptor.["data_keys"] ;;
  items <- dict_items data_keys ;;
  read <- rfilter (is_read_field motor_name) items ;;
  Ok (sorted (keys read)).

Definition _SPEC_SCAN_HEADER_TEMPLATE : list piece :=
  from_string
    [Text (nl ++ nl ++ "#S "); Var "scan_id"; Text " "; Var "command";
     Text (nl ++ "#D "); Var "readable_time";
     Text (nl ++ "#T "); Var "acq_time"; Text ("  (Seconds)" ++ nl ++ "#P0 ");
     Join "positioner_positions" " ";
     Text (nl ++ "#N "); Var "num_columns";
     Text (nl ++ "#L "); Var "motor_name"; Text "  Epoch  Seconds  ";
     Join "data_keys" "  "; Text nl].

(** What [to_spec_scan_header] puts in [md], in the order it computes it. *)
Definition scan_header_md (start primary_descriptor baseline_event : value)
    : result dict :=
  baseline_event <-
    match baseline_event with
    | VNone =>
        dk <- _DEFAULT_POSITIONERS.["data_keys"] ;;
        ks <- iterate dk ;;
        Ok (VDict [("data", VDict (map (fun k => (py_str k, VInt (-1))) ks))])
    | _ => Ok baseline_event
    end ;;
  scan_id <- start.["scan_id"] ;;
  scan_command <- _get_plan_name start ;;
  motor_name <- _get_motor_name start ;;
  acq_time <- _get_acq_time start ;;
  command_args <-
    (if negb (mem scan_command _SPEC_SCAN_NAMES) || mem scan_command _SCANS_WITHOUT_MOTORS
     then Ok []
     else
       plan_args <- start.["plan_args"] ;;
       args <- plan_args.["args"] ;;
       start_val <- getitem args (VInt (-2)) ;;
       plan_args <- start.["plan_args"] ;;
       args <- plan_args.["args"] ;;
       stop_val <- getitem args (VInt (-1)) ;;
       plan_args <- start.["plan_args"] ;;
       num <- plan_args.["num"] ;;
       Ok [start_val; stop_val; num]) ;;
  let command_list := (VStr scan_command :: motor_name :: command_args ++ [acq_time])%list in
  let command := String.concat " " (map py_str command_list) in
  t <- start.["time"] ;;
  dt <- fromtimestamp t ;;
  data <- baseline_event.["data"] ;;
  items <- dict_items data ;;
  let positioner_positions := map snd (sorted_items items) in
  data_keys <- _get_scan_data_column_names start primary_descriptor ;;
  motor_name' <- _get_motor_name start ;;
  Ok [("scan_id", scan_id);
      ("command", VStr command);
      ("readable_time", VStr (to_spec_time dt));
      ("acq_time", acq_time);
      ("positioner_positions", VList positioner_positions);
      ("data_keys", VList (map VStr data_keys));
      ("num_columns", VInt (3 + Z.of_nat (List.length data_keys)));
      ("motor_name", motor_name')].

Definition to_spec_scan_header (start primary_descriptor baseline_event : value)
    : result string :=
  md <- scan_header_md start primary_descriptor baseline_event ;;
  render _SPEC_SCAN_HEADER_TEMPLATE md.

Definition _SPEC_EVENT_TEMPLATE : list piece :=
  from_string
    [Text nl; Var "motor_position"; Text "  "; Var "unix_time"; Text " ";
     Var "acq_time"; Text " "; Join "values" " "].

Definition to_spec_scan_data (start primary_descriptor event : value) : result string :=
  t <- event.["time"] ;;
  unix_time <- py_int t ;;
  acq_time <- _get_acq_time start ;;
  motor_position <- _get_motor_position start event ;;
  data_keys <- _get_scan_data_column_names start primary_descriptor ;;
  values <- rmap (fun k => data <- event.["data"] ;; data.[k]) data_keys ;;
  render _SPEC_EVENT_TEMPLATE
    [("unix_time", VInt unix_time);
     ("acq_time", acq_time);
     ("motor_position", motor_position);
     ("values", VList values)].

(** The trailer [stop] writes. *)
Definition stop_message (doc : value) : result string :=
  d <- dict_items doc ;;
  let doc := VDict (setdefault "reason" (VStr "No reason recorded.") d) in
  exit_status <- doc.["exit_status"] ;;
  if negb (py_eq exit_status (VStr "success"))
  then
    exit_status <- doc.["exit_status"] ;;
    reason <- doc.["reason"] ;;
    Ok (nl ++ "#C Run exited with status: " ++ py_str exit_status
           ++ ". Reason: " ++ py_str reason)
  else Ok nl.

(** ** The output manager

    The collaborator of [suitcase.utils] behind the interface the
    serializer uses: [open(label, name, 'a')], [write], [tell] right after
    [open], and [artifacts].  A resource holds the chunks written to it, each
    with the call site of its [write]; its text is their concatenation. *)
Inductive site : Type := FileHeader | ScanHeader | DataLine | Trailer.

Definition chunk : Type := (site * string)%type.

Record Manager : Type := mk_manager {
  allows_append : bool;                  (* 'a' is among the allowed modes *)
  disk : list (string * list chunk);     (* the resources by name *)
  artifacts : list string                (* artifacts['stream_data'] *)
}.

Definition site_eqb (a b : site) : bool :=
  match a, b with
  | FileHeader, FileHeader | ScanHeader, ScanHeader
  | DataLine, DataLine | Trailer, Trailer => true
  | _, _ => false
  end.

Fixpoint find_file (name : string) (d : list (string * list chunk)) : option (list chunk) :=
  match d with
  | [] => None
  | (n, c) :: d' => if String.eqb name n then Some c else find_file name d'
  end.

Definition text_of (c : list chunk) : string := String.concat "" (map snd c).

Definition file_text (name : string) (m : Manager) : string :=
  match find_file name (disk m) with
  | Some c => text_of c
  | None => ""
  end.

(** [tell()] on a resource just opened for appending: the size of what it
    already holds. *)
Definition tell (name : string) (m : Manager) : Z :=
  Z.of_nat (String.length (file_text name m)).

Fixpoint append_chunk (name : string) (c : chunk) (d : list (string * list chunk))
    : list (string * list chunk) :=
  match d with
  | [] => [(name, [c])]
  | (n, cs) :: d' =>
      if String.eqb name n then (n, (cs ++ [c])%list) :: d'
      else (n, cs) :: append_chunk name c d'
  end.

Definition is_absolute (name : string) : bool :=
  match name with
  | String "/" _ => true
  | _ => false
  end.

(** [manager.open('stream_data', name, 'a')]: the mode must be allowed and
    the name relative and not yet taken from this manager; the resource is
    created empty when it is not there. *)
Definition manager_open (name : string) (m : Manager) : result Manager :=
  if negb (allows_append m) then Raise ModeError
  else if is_absolute name || existsb (String.eqb name) (artifacts m)
  then Raise SuitcaseUtilsValueError
  else Ok (mk_manager (allows_append m)
             (match find_file name (disk m) with
              | Some _ => disk m
              | None => (disk m ++ [(name, [])])%list
              end)
             (artifacts m ++ [name])%list).

(** The manager made for a directory given as a path: it allows ['a']. *)
Definition MultiFileManager (files : list (string * list chunk)) : Manager :=
  mk_manager true files [].

(** ** The Serializer *)

(** The file prefix is a [str.format] template over [start]: text and
    [{start[key]}] fields. *)
Inductive prefix_part : Type :=
| PText (s : string)
| PStart (key : string).

Definition default_file_prefix : list prefix_part := [PStart "uid"].

Definition format_prefix (t : list prefix_part) (start : value) : result string :=
  l <- rmap (fun p => match p with
                      | PText s => Ok s
                      | PStart k => v <- start.[k] ;; Ok (py_str v)
                      end) t ;;
  Ok (String.concat "" l).

(** The attributes of the instance; those no method reads ([pos_names],
    [positions], [_templated_file_prefix]) are left out. *)
Record Serializer : Type := mk_serializer {
  _file_prefix : list prefix_part;
  _flush : bool;
  _manager : Manager;
  _file : option string;
  _start : value;
  _baseline_descriptor : value;
  _baseline_event : value;
  _primary_descriptor : value;
  _has_not_written_scan_header : bool;
  _has_not_written_file_header : bool;
  _num_events_received : Z;
  _num_baseline_events_received : Z
}.

(** [Serializer.__init__]. *)
Definition init (directory : Manager) (file_prefix : list prefix_part) (flush : bool)
    : Serializer :=
  mk_serializer file_prefix flush directory None VNone VNone VNone VNone true true 0 0.

Definition set_manager (x : Manager) (s : Serializer) : Serializer :=
  mk_serializer (_file_prefix s) (_flush s) x (_file s) (_start s)
    (_baseline_descriptor s) (_baseline_event s) (_primary_descriptor s)
    (_has_not_written_scan_header s) (_has_not_written_file_header s)
    (_num_events_received s) (_num_baseline_events_received s).

Definition set_file (x : option string) (s : Serializer) : Serializer :=
  mk_serializer (_file_prefix s) (_flush s) (_manager s) x (_start s)
    (_baseline_descriptor s) (_baseline_event s) (_primary_descriptor s)
    (_has_not_written_scan_header s) (_has_not_written_file_header s)
    (_num_events_received s) (_num_baseline_events_received s).

Definition set_start (x : value) (s : Serializer) : Serializer :=
  mk_serializer (_file_prefix s) (_flush s) (_manager s) (_file s) x
    (_baseline_descriptor s) (_baseline_event s) (_primary_descriptor s)
    (_has_not_written_scan_header s) (_has_not_written_file_header s)
    (_num_events_received s) (_num_baseline_events_received s).

Definition set_baseline_descriptor (x : value) (s : Serializer) : Serializer :=
  mk_serializer (_file_prefix s) (_flush s) (_manager s) (_file s) (_start s)
    x (_baseline_event s) (_primary_descriptor s)
    (_has_not_written_scan_header s) (_has_not_written_file_header s)
    (_num_events_received s) (_num_baseline_events_received s).

Definition set_baseline_event (x : value) (s : Serializer) : Serializer :=
  mk_serializer (_file_prefix s) (_flush s) (_manager s) (_file s) (_start s)
    (_baseline_descriptor s) x (_primary_descriptor s)
    (_has_not_written_scan_header s) (_has_not_written_file_header s)
    (_num_events_received s) (_num_baseline_events_received s).

Definition set_primary_descriptor (x : value) (s : Serializer) : Serializer :=
  mk_serializer (_file_prefix s) (_flush s) (_manager s) (_file s) (_start s)
    (_baseline_descriptor s) (_baseline_event s) x
    (_has_not_written_scan_header s) (_has_not_written_file_header s)
    (_num_events_received s) (_num_baseline_events_received s).

Definition set_has_not_written_scan_header (x : bool) (s : Serializer) : Serializer :=
  mk_serializer (_file_prefix s) (_flush s) (_manager s) (_file s) (_start s)
    (_baseline_descriptor s) (_baseline_event s) (_primary_descriptor s)
    x (_has_not_written_file_header s)
    (_num_events_received s) (_num_baseline_events_received s).

Definition set_has_not_written_file_header (x : bool) (s : Serializer) : Serializer :=
  mk_serializer (_file_prefix s) (_flush s) (_manager s) (_file s) (_start s)
    (_baseline_descriptor s) (_baseline_event s) (_primary_descriptor s)
    (_has_not_written_scan_header s) x
    (_num_events_received s) (_num_baseline_events_received s).

Definition set_num_events_received (x : Z) (s : Serializer) : Serializer :=
  mk_serializer (_file_prefix s) (_flush s) (_manager s) (_file s) (_start s)
    (_baseline_descriptor s) (_baseline_event s) (_primary_descriptor s)
    (_has_not_written_scan_header s) (_has_not_written_file_header s)
    x (_num_baseline_events_received s).

Definition set_num_baseline_events_received (x : Z) (s : Serializer) : Serializer :=
  mk_serializer (_file_prefix s) (_flush s) (_manager s) (_file s) (_start s)
    (_baseline_descriptor s) (_baseline_event s) (_primary_descriptor s)
    (_has_not_written_scan_header s) (_has_not_written_file_header s)
    (_num_events_received s) x.

(** A method runs on the instance and returns or raises; what it assigned
    before a [raise] stays assigned. *)
Definition M (A : Type) : Type := Serializer -> Serializer * result A.

Definition ret {A} (a : A) : M A := fun s => (s, Ok a).
Definition raise {A} (e : exn) : M A := fun s => (s, Raise e).
Definition lift {A} (r : result A) : M A := fun s => (s, r).
Definition gets {A} (f : Serializer -> A) : M A := fun s => (s, Ok (f s)).
Definition modify (f : Serializer -> Serializer) : M unit := fun s => (f s, Ok tt).

Definition bind {A B} (c : M A) (k : A -> M B) : M B :=
  fun s =>
    match c s with
    | (s', Ok a) => k a s'
    | (s', Raise e) => (s', Raise e)
    end.

Notation "x <~ c ;; k" := (bind c (fun x => k))
  (at level 61, c at next level, right associativity).
Notation "c ;;; k" := (bind c (fun _ => k))
  (at level 61, right associativity).

Definition when (b : bool) (c : M unit) : M unit := if b then c else ret tt.

(** [self._file.write(text)], issued at [st]. *)
Definition write (st : site) (text : string) : M unit :=
  f <~ gets _file ;;
  match f with
  | None => raise AttributeError
  | Some name =>
      modify (fun s =>
                set_manager (mk_manager (allows_append (_manager s))
                               (append_chunk name (st, text) (disk (_manager s)))
                               (artifacts (_manager s))) s)
  end.

(** [self._file.flush()]: nothing of the text changes. *)
Definition flush : M unit :=
  f <~ gets _file ;;
  match f with
  | None => raise AttributeError
  | Some _ => ret tt
  end.

Definition start (doc : value) : M unit :=
  modify (set_start doc) ;;;
  prefix <~ gets _file_prefix ;;
  name <~ lift (format_prefix prefix doc) ;;
  m <~ gets _manager ;;
  match manager_open (name ++ ".spec") m with
  | Raise ModeError => raise ValueError
  | Raise e => raise e
  | Ok m' =>
      modify (set_manager m') ;;;
      modify (set_file (Some (name ++ ".spec"))) ;;;
      modify (set_has_not_written_file_header
                (negb (truthy (VInt (tell (name ++ ".spec") m')))))
  end.

Definition _write_new_header : M unit :=
  m <~ gets _manager ;;
  match artifacts m with
  | [] => raise KeyError
  | [filepath] =>
      st <~ gets _start ;;
      bd <~ gets _baseline_descriptor ;;
      header <~ lift (to_spec_file_header st filepath bd) ;;
      write FileHeader header
  | _ => raise ValueError
  end.

Definition descriptor (doc : value) : M unit :=
  name <~ lift (get doc "name" VNone) ;;
  if py_eq name (VStr "baseline") then modify (set_baseline_descriptor doc)
  else
    pd <~ gets _primary_descriptor ;;
    if truthy pd then raise NotImplementedError
    else modify (set_primary_descriptor doc).

(** The test at the head of [event]: a baseline descriptor is there and the
    event points at it. *)
Definition is_baseline_event (doc : value) : M bool :=
  bd <~ gets _baseline_descriptor ;;
  if truthy bd then
    d <~ lift doc.["descriptor"] ;;
    uid <~ lift bd.["uid"] ;;
    ret (py_eq d uid)
  else ret false.

Definition event (doc : value) : M unit :=
  baseline <~ is_baseline_event doc ;;
  if baseline then
    n <~ gets _num_baseline_events_received ;;
    modify (set_num_baseline_events_received (n + 1)) ;;;
    modify (set_baseline_event doc)
  else
    no_file_header <~ gets _has_not_written_file_header ;;
    when no_file_header
      (_write_new_header ;;; modify (set_has_not_written_file_header false)) ;;;
    no_scan_header <~ gets _has_not_written_scan_header ;;
    when no_scan_header
      (st <~ gets _start ;;
       pd <~ gets _primary_descriptor ;;
       be <~ gets _baseline_event ;;
       scan_header <~ lift (to_spec_scan_header st pd be) ;;
       write ScanHeader scan_header ;;;
       modify (set_has_not_written_scan_header false)) ;;;
    d <~ lift doc.["descriptor"] ;;
    pd <~ gets _primary_descriptor ;;
    uid <~ lift pd.["uid"] ;;
    if negb (py_eq d uid) then raise NotImplementedError
    else
      n <~ gets _num_events_received ;;
      modify (set_num_events_received (n + 1)) ;;;
      st <~ gets _start ;;
      scan_data_line <~ lift (to_spec_scan_data st pd doc) ;;
      write DataLine (scan_data_line ++ nl) ;;;
      fl <~ gets _flush ;;
      when fl flush.

Definition stop (doc : value) : M unit :=
  msg <~ lift (stop_message doc) ;;
  write Trailer msg ;;;
  fl <~ gets _flush ;;
  when fl flush.

(** [close]: the manager closes its resources; their text stays. *)
Definition close (s : Serializer) : Serializer := s.

(** The document kinds the router is fed; a resource or a datum passes
    through untouched. *)
Inductive kind : Type := KStart | KDescriptor | KEvent | KStop | KResource | KDatum.

Definition call (name : kind) (doc : value) : M unit :=
  match name with
  | KStart => start doc
  | KDescriptor => descriptor doc
  | KEvent => event doc
  | KStop => stop doc
  | KResource | KDatum => ret tt
  end.

(** The loop of [export]: it ends at the first exception. *)
Fixpoint feed (gen : list (kind * value)) : M unit :=
  match gen with
  | [] => ret tt
  | (name, doc) :: gen' => call name doc ;;; feed gen'
  end.

Definition export (gen : list (kind * value)) (directory : Manager)
    (file_prefix : list prefix_part) : Serializer * result (list string) :=
  let '(s, r) := feed gen (init directory file_prefix false) in
  (close s, _ <- r ;; Ok (artifacts (_manager s))).

(** The chunks of the resource the serializer has open. *)
Definition chunks_of (name : string) (m : Manager) : list chunk :=
  match find_file name (disk m) with
  | Some c => c
  | None => []
  end.

Definition written (s : Serializer) : list chunk :=
  match _file s with
  | Some name => chunks_of name (_manager s)
  | None => []
  end.

Definition count_site (st : site) (c : list chunk) : nat :=
  List.length (filter (fun x => site_eqb st (fst x)) c).

(** The data lines in all the resources of the manager. *)
Definition data_lines (s : Serializer) : nat :=
  list_sum (map (fun f => count_site DataLine (snd f)) (disk (_manager s))).

(** ** Documents of example runs *)

Definition float_1_5 : value := VFloat (S754_finite false 3 (-1)).
Definition float_2_5 : value := VFloat (S754_finite false 5 (-1)).

Definition start_count (uid : string) : value :=
  VDict [("uid", VStr uid); ("plan_name", VStr "count"); ("scan_id", VInt 7);
         ("time", VInt 1000000000)].

Definition scalar_field (object_name source : string) : value :=
  VDict [("shape", VList []); ("object_name", VStr object_name); ("source", VStr source)].

Definition primary_det (uid : string) : value :=
  VDict [("uid", VStr uid); ("name", VStr "primary");
         ("data_keys", VDict [("det", scalar_field "det" "s")])].

Definition event_det (descriptor_uid : string) (seq_num : Z) (det : value) (time : Z) : value :=
  VDict [("descriptor", VStr descriptor_uid); ("seq_num", VInt seq_num);
         ("data", VDict [("det", det)]); ("time", VInt time)].

Definition stop_success : value := VDict [("exit_status", VStr "success")].
Definition stop_abort : value := VDict [("exit_status", VStr "abort")].

Definition count_run (uid descriptor_uid : string) : list (kind * value) :=
  [(KStart, start_count uid);
   (KDescriptor, primary_det descriptor_uid);
   (KEvent, event_det descriptor_uid 0 float_1_5 1000000001);
   (KEvent, event_det descriptor_uid 1 float_2_5 1000000002);
   (KStop, stop_success)].

Definition baseline_four (uid : string) : value :=
  VDict [("uid", VStr uid); ("name", VStr "baseline");
         ("data_keys", VDict [("m1", scalar_field "m1" "PV:m1");
                              ("m2", scalar_field "m2" "PV:m2");
                              ("m3", scalar_field "m3" "PV:m3");
                              ("m4", scalar_field "m4" "PV:m4")])].

Definition start_scan (motors : list value) : value :=
  VDict [("uid", VStr "run"); ("plan_name", VStr "scan"); ("scan_id", VInt 8);
         ("time", VInt 1000000000); ("motors", VList motors);
         ("plan_args", VDict [("args", VList [VStr "th"; VInt 0; VInt 5]); ("num", VInt 6)])].

Definition fresh : Serializer := init (MultiFileManager []) default_file_prefix false.

Definition array_field (object_name source : string) : value :=
  VDict [("shape", VList [VInt 2; VInt 2]); ("object_name", VStr object_name);
         ("source", VStr source)].

(** The data keys of a scan of [th], declared out of order: two detectors
    and [Zed], the two fields of the motor and an image. *)
Definition data_keys_th : dict :=
  [("det_b", scalar_field "det_b" "s");
   ("th", scalar_field "th" "m");
   ("image", array_field "cam" "c");
   ("Zed", scalar_field "Zed" "z");
   ("th_setpoint", scalar_field "th" "m");
   ("det_a", scalar_field "det_a" "s")].

Definition primary_th (uid : string) : value :=
  VDict [("uid", VStr uid); ("name", VStr "primary"); ("data_keys", VDict data_keys_th)].

Definition baseline_run : list (kind * value) :=
  [(KStart, start_count "abc");
   (KDescriptor, baseline_four "b");
   (KDescriptor, primary_det "d1")].

Definition first_event : value := event_det "d1" 0 float_1_5 1000000001.



Definition start_2001 : datetime := mk_datetime 2001 9 9 1 46 40 0.

(** ** Reading the lines back

    [spec_line_parser] keeps, by the key of a line, the name of what the
    line holds and the function that reads it. *)

(** *** [float] of a text, [str.split] *)

Definition is_digit (c : ascii) : bool :=
  match digit_val c with
  | Some _ => true
  | None => false
  end.

(** [float] takes an underscore between two digits, wherever the digits
    are, and reads the text without them. *)
Fixpoint drop_underscores (prev : ascii) (l : list ascii) : option (list ascii) :=
  match l with
  | [] => if Ascii.eqb prev "_" then None else Some []
  | c :: l' =>
      if Ascii.eqb c "_" then
        if is_digit prev then drop_underscores c l' else None
      else if Ascii.eqb prev "_" && negb (is_digit c) then None
      else option_map (cons c) (drop_underscores c l')
  end.

(** The digits at the head of [l], read on from [acc]: the number, how many
    digits were read, and what follows them. *)
Fixpoint read_digits (acc n : Z) (l : list ascii) : Z * Z * list ascii :=
  match l with
  | c :: l' =>
      match digit_val c with
      | Some d => read_digits (10 * acc + d) (n + 1) l'
      | None => (acc, n, l)
      end
  | [] => (acc, n, [])
  end.

Definition read_sign (l : list ascii) : bool * list ascii :=
  match l with
  | "-"%char :: l' => (true, l')
  | "+"%char :: l' => (false, l')
  | _ => (false, l)
  end.

(** The end of a number: nothing, or [e], a sign and at least one digit. *)
Definition read_exponent (l : list ascii) : option Z :=
  match l with
  | [] => Some 0
  | c :: l' =>
      if Ascii.eqb (lower c) "e" then
        let '(s, l'') := read_sign l' in
        match read_digits 0 0 l'' with
        | (x, n, []) => if 0 <? n then Some (signed s x) else None
        | _ => None
        end
      else None
  end.

(** The binary64 nearest to [digits * 10^exponent], ties to even; a number
    past the range reads as an infinity. *)
Definition float_of_decimal (s : bool) (digits exponent : Z) : spec_float :=
  if 0 <=? exponent
  then binary_normalize 53 1024 (signed s (digits * 10 ^ exponent)) 0 s
  else
    match digits with
    | Zpos m =>
        SFdiv 53 1024 (S754_finite s m 0)
          (S754_finite false (Z.to_pos (10 ^ (- exponent))) 0)
    | _ => S754_zero s
    end.

(** Digits, a point and more digits (one digit at least on either side),
    the exponent. *)
Definition read_number (s : bool) (l : list ascii) : option spec_float :=
  let '(i, ni, l1) := read_digits 0 0 l in
  let '(f, nf, l2) :=
    match l1 with
    | "."%char :: l1' => read_digits i 0 l1'
    | _ => (i, 0, l1)
    end in
  if ni + nf =? 0 then None
  else
    match read_exponent l2 with
    | Some x => Some (float_of_decimal s f (x - nf))
    | None => None
    end.

Definition read_inf_nan (s : bool) (l : list ascii) : option spec_float :=
  let w := string_of_list_ascii (map lower l) in
  if String.eqb w "inf" || String.eqb w "infinity" then Some (S754_infinity s)
  else if String.eqb w "nan" then Some S754_nan
  else None.

(** [float(x)] of a text. *)
Definition float_of_text (x : string) : option spec_float :=
  match drop_underscores Ascii.zero (strip (list_ascii_of_string x)) with
  | Some l =>
      let '(s, l') := read_sign l in
      match read_number s l' with
      | Some f => Some f
      | None => read_inf_nan s l'
      end
  | None => None
  end.

(** What [float] cannot read is a [ValueError]. *)
Definition value_error {A} (o : option A) : result A :=
  match o with
  | Some a => Ok a
  | None => Raise ValueError
  end.

(** [x.split(sep)] with a separator that is not empty: the pieces between
    the occurrences of [sep], found from the left.  [skip] counts the
    characters of an occurrence still to pass, [cur] is the piece so far. *)
Fixpoint split_loop (sep : string) (skip : nat) (cur x : string) : list string :=
  match x with
  | EmptyString => [cur]
  | String c x' =>
      match skip with
      | S k => split_loop sep k cur x'
      | O =>
          if String.prefix sep x
          then cur :: split_loop sep (String.length sep - 1) "" x'
          else split_loop sep 0 (cur ++ String c "") x'
      end
  end.

Definition str_split (sep x : string) : list string := split_loop sep 0 "" x.

(** *** The entries *)

(** [#D]: [('time_from_date', from_spec_time)]. *)
Definition parse_time_from_date (x : string) : result datetime := from_spec_time x.

(** [#E]: [('time', lambda x: datetime.fromtimestamp(int(x)))]. *)
Definition parse_time (x : string) : result datetime :=
  z <- py_int (VStr x) ;; fromtimestamp (VInt z).

(** [#F]: [('filename', str)]. *)
Definition parse_filename (x : string) : string := py_str (VStr x).

(** [#N]: [('num_intervals', int)]. *)
Definition parse_num_intervals (x : string) : result Z := py_int (VStr x).

(** [#Q]: [('hkl', lambda x: [float(s) for s in x.split(' ')])]. *)
Definition parse_hkl (x : string) : result (list spec_float) :=
  rmap (fun s => value_error (float_of_text s)) (str_split " " x).

(** [#T]: [('exposure_time', lambda x: float(x.split('  ')[0]))]. *)
Definition parse_exposure_time (x : string) : result spec_float :=
  match str_split "  " x with
  | s :: _ => value_error (float_of_text s)
  | [] => Raise IndexError
  end.

(** ** More documents of example runs *)

(** A start document whose time has half a second. *)
Definition start_half : value :=
  VDict [("uid", VStr "abc"); ("plan_name", VStr "count"); ("scan_id", VInt 7);
         ("time", VFloat (S754_finite false 8388608004194304 (-23)))].

(** An event of the scan of [th]: a reading of the motor and one of [det]. *)
Definition event_th : value :=
  VDict [("descriptor", VStr "d1"); ("seq_num", VInt 3);
         ("data", VDict [("th", float_1_5); ("det", float_2_5)]);
         ("time", VInt 1000000001)].

(** An event of the primary stream that lacks the reading of [det]. *)
Definition event_without_reading : value :=
  VDict [("descriptor", VStr "d1"); ("seq_num", VInt 0); ("data", VDict []);
         ("time", VInt 1000000001)].

(** An event of the baseline [baseline_four], its readings in another order
    than the descriptor declares them. *)
Definition baseline_event_four : value :=
  VDict [("descriptor", VStr "b"); ("seq_num", VInt 1);
         ("data", VDict [("m2", VInt 20); ("m1", VInt 10); ("m3", VInt 30);
                         ("m4", VInt 40)]);
         ("time", VInt 1000000000)].

(** A manager that does not allow the append mode. *)
Definition exclusive_manager : Manager := mk_manager false [] [].

(** * The vocabulary of the properties *)

(** [r] does not raise [NotImplementedError]. *)
Definition supported {A} (r : result A) : Prop :=
  match r with
  | Raise NotImplementedError => False
  | _ => True
  end.

(** The plan is one of the two scans with a motor. *)
Definition scans_a_motor (start : value) : Prop :=
  start.["plan_name"] = Ok (VStr "scan") \/ start.["plan_name"] = Ok (VStr "rel_scan").

(** A [write] on the open resource: its chunks gain one at the end, the
    other resources and the rest of the instance stay. *)
Definition after_write (name : string) (c : chunk) (s : Serializer) : Serializer :=
  set_manager (mk_manager (allows_append (_manager s))
                 (append_chunk name c (disk (_manager s)))
                 (artifacts (_manager s))) s.

(** The text of the trailer for an exit status and the recorded reason. *)
Definition trailer (exit_status : value) (reason : option value) : string :=
  nl ++ (if py_eq exit_status (VStr "success") then ""
         else "#C Run exited with status: " ++ py_str exit_status ++ ". Reason: "
              ++ py_str (match reason with
                         | Some r => r
                         | None => VStr "No reason recorded."
                         end)).

(** The instance after a [start] that opened [name] from the manager [m]. *)
Definition started (doc : value) (name : string) (m : Manager) (s : Serializer)
    : Serializer :=
  set_has_not_written_file_header (negb (truthy (VInt (tell name m))))
    (set_file (Some name) (set_manager m (set_start doc s))).

(** The three steps an event that is not of the baseline goes through. *)
Definition file_header_step : M unit :=
  no_file_header <~ gets _has_not_written_file_header ;;
  when no_file_header
    (_write_new_header ;;; modify (set_has_not_written_file_header false)).

Definition scan_header_step : M unit :=
  no_scan_header <~ gets _has_not_written_scan_header ;;
  when no_scan_header
    (st <~ gets _start ;;
     pd <~ gets _primary_descriptor ;;
     be <~ gets _baseline_event ;;
     scan_header <~ lift (to_spec_scan_header st pd be) ;;
     write ScanHeader scan_header ;;;
     modify (set_has_not_written_scan_header false)).

Definition data_line_step (doc : value) : M unit :=
  d <~ lift doc.["descriptor"] ;;
  pd <~ gets _primary_descriptor ;;
  uid <~ lift pd.["uid"] ;;
  if negb (py_eq d uid) then raise NotImplementedError
  else
    n <~ gets _num_events_received ;;
    modify (set_num_events_received (n + 1)) ;;;
    st <~ gets _start ;;
    scan_data_line <~ lift (to_spec_scan_data st pd doc) ;;
    write DataLine (scan_data_line ++ nl) ;;;
    fl <~ gets _flush ;;
    when fl flush.

Definition baseline_step (doc : value) : M unit :=
  n <~ gets _num_baseline_events_received ;;
  modify (set_num_baseline_events_received (n + 1)) ;;;
  modify (set_baseline_event doc).

(** The instance after an event of the primary stream wrote [cs] to the
    resource [name]: both headers are now written, one more event is
    counted, and the documents it holds are the same. *)
Definition event_done (name : string) (cs : list chunk) (s : Serializer) : Serializer :=
  mk_serializer (_file_prefix s) (_flush s)
    (mk_manager (allows_append (_manager s))
       (fold_left (fun d c => append_chunk name c d) cs (disk (_manager s)))
       (artifacts (_manager s)))
    (_file s) (_start s) (_baseline_descriptor s) (_baseline_event s)
    (_primary_descriptor s) false false
    (_num_events_received s + 1) (_num_baseline_events_received s).

(** What the first step writes: the file header if it is still due. *)
Definition file_header_due (s : Serializer) (cs : list chunk) : Prop :=
  if _has_not_written_file_header s
  then exists filepath header,
         artifacts (_manager s) = [filepath]
         /\ to_spec_file_header (_start s) filepath (_baseline_descriptor s) = Ok header
         /\ cs = [(FileHeader, header)]
  else cs = [].

Definition scan_header_due (s : Serializer) (cs : list chunk) : Prop :=
  if _has_not_written_scan_header s
  then exists header,
         to_spec_scan_header (_start s) (_primary_descriptor s) (_baseline_event s)
         = Ok header
         /\ cs = [(ScanHeader, header)]
  else cs = [].

Definition disk_count (st : site) (d : list (string * list chunk)) : nat :=
  list_sum (map (fun f => count_site st (snd f)) d).

(** Nothing of the events: the data lines on the resources, the two
    counters of events, the retained baseline event and the flag of the scan
    header are the same in [s'] as in [s]. *)
Definition quiet (s s' : Serializer) : Prop :=
  data_lines s' = data_lines s
  /\ _num_events_received s' = _num_events_received s
  /\ _num_baseline_events_received s' = _num_baseline_events_received s
  /\ _baseline_event s' = _baseline_event s
  /\ _has_not_written_scan_header s' = _has_not_written_scan_header s.

(** The scan header, piece by piece. *)
Definition scan_header_text (scan_id : value) (command readable_time : string)
    (acq_time : value) (positioner_positions : list value) (data_keys : list string)
    (motor_name : value) : string :=
  nl ++ nl ++ "#S " ++ py_str scan_id ++ " " ++ command
  ++ nl ++ "#D " ++ readable_time
  ++ nl ++ "#T " ++ py_str acq_time ++ "  (Seconds)"
  ++ nl ++ "#P0 " ++ String.concat " " (map py_str positioner_positions)
  ++ nl ++ "#N " ++ str_of_Z (3 + Z.of_nat (List.length data_keys))
  ++ nl ++ "#L " ++ py_str motor_name ++ "  Epoch  Seconds  "
  ++ String.concat "  " data_keys.

(** The lines of the scan header above and below the positions. *)
Definition scan_header_top (scan_id : value) (command readable_time : string)
    (acq_time : value) : string :=
  nl ++ nl ++ "#S " ++ py_str scan_id ++ " " ++ command
  ++ nl ++ "#D " ++ readable_time
  ++ nl ++ "#T " ++ py_str acq_time ++ "  (Seconds)".

Definition scan_header_bottom (data_keys : list string) (motor_name : value) : string :=
  "#N " ++ str_of_Z (3 + Z.of_nat (List.length data_keys))
  ++ nl ++ "#L " ++ py_str motor_name ++ "  Epoch  Seconds  "
  ++ String.concat "  " data_keys.

Definition run_inv (s : Serializer) : Prop :=
  0 <= _num_events_received s
  /\ 0 <= _num_baseline_events_received s
  /\ (_num_baseline_events_received s = 0 -> _baseline_event s = VNone)
  /\ (_num_events_received s = 0 -> _has_not_written_scan_header s = true).

(** The six lines of the file header. *)
Definition file_header_text (filename : string) (unix_time : Z) (readable_time : string)
    (owner : value) (sources : list value) (names : list string) : string :=
  "#F " ++ filename
  ++ nl ++ "#E " ++ str_of_Z unix_time
  ++ nl ++ "#D " ++ readable_time
  ++ nl ++ "#C " ++ py_str owner ++ "  User = " ++ py_str owner
  ++ nl ++ "#O0 " ++ String.concat "  " (map py_str sources)
  ++ nl ++ "#o0 " ++ String.concat " " names.

(** The output is as it was: the manager, the open resource, the start
    document and the two flags of the headers. *)
Definition same_output (s s' : Serializer) : Prop :=
  _manager s' = _manager s
  /\ _file s' = _file s
  /\ _start s' = _start s
  /\ _has_not_written_file_header s' = _has_not_written_file_header s
  /\ _has_not_written_scan_header s' = _has_not_written_scan_header s.

(** A document between the start and the stop of a run. *)
Definition within_run (x : kind * value) : bool :=
  match fst x with
  | KStart | KStop => false
  | _ => true
  end.

Definition not_start (x : kind * value) : bool :=
  match fst x with
  | KStart => false
  | _ => true
  end.

(** A descriptor of a stream other than the baseline. *)
Definition not_baseline (doc : value) : Prop :=
  exists name, get doc "name" VNone = Ok name /\ py_eq name (VStr "baseline") = false.

(** A field of the descriptor that is read into a column: its object is not
    the motor and its shape is empty. *)
Definition read_field (motor_name v : value) : Prop :=
  exists object_name shape,
    v.["object_name"] = Ok object_name
    /\ py_eq object_name motor_name = false
    /\ v.["shape"] = Ok shape
    /\ truthy shape = false.

(** A method keeps the start document and the primary descriptor. *)
Definition keeps {A} (c : M A) : Prop :=
  forall s, _start (fst (c s)) = _start s
            /\ _primary_descriptor (fst (c s)) = _primary_descriptor s.

Definition string_le (a b : string) : Prop := String.leb a b = true.

Definition in_class (c : Z * Z) (k : Z) : bool := (fst c <=? k) && (k <=? snd c).

Definition add_chunks (name : string) (cs : list chunk) (s : Serializer) : Serializer :=
  set_manager (mk_manager (allows_append (_manager s))
                 (fold_left (fun d c => append_chunk name c d) cs (disk (_manager s)))
                 (artifacts (_manager s))) s.

(** The data line, piece by piece. *)
Definition data_line_text (motor_position : value) (unix_time : Z) (acq_time : value)
    (values : list value) : string :=
  nl ++ py_str motor_position ++ "  " ++ str_of_Z unix_time ++ " " ++ py_str acq_time
  ++ " " ++ String.concat " " (map py_str values).

(** What the comprehension of [to_spec_scan_data] reads for a column. *)
Definition reading (event : value) (k : string) : result value :=
  data <- event.["data"] ;; data.[k].

(** [d.replace(microsecond=us)]. *)
Definition replace_microsecond (d : datetime) (us : Z) : datetime :=
  mk_datetime (year d) (month d) (day d) (hour d) (minute d) (second d) us.

(** Between [s] and [s'] no data line was written and no event counted. *)
Definition no_line_between (s s' : Serializer) : Prop :=
  data_lines s' = data_lines s
  /\ _num_events_received s' = _num_events_received s
  /\ _num_baseline_events_received s' = _num_baseline_events_received s.




(** The binary64 nearest to an integer, ties to even; an infinity past the
    range. *)
Definition nearest_double (z : Z) : spec_float := binary_normalize 53 1024 z 0 false.

(** ** The streams of the documents fed

    What the documents say of themselves, whatever an instance makes of
    them: a descriptor is of the baseline by its name, and an event is of a
    descriptor when it refers to the uid of the descriptor. *)





(** * Properties *)

(** ** Results and the instance monad *)

Lemma getitem_get (d : value) (k : string) (v default : value) :
  d.[k] = Ok v -> get d k default = Ok v.
Proof.
  destruct d; simpl; try discriminate.
  destruct (lookup k d); intros H; inversion H; reflexivity.
Qed.

Lemma py_eq_str (v : value) (s : string) :
  py_eq v (VStr s) = true <-> v = VStr s.
Proof.
  destruct v; simpl; split; intros H; try discriminate; try (inversion H; fail).
  - apply String.eqb_eq in H. now subst.
  - inversion H. apply String.eqb_refl.
Qed.

Ltac run := unfold bind, gets, modify, lift, ret, raise, when in *; simpl in *.

(** ** The baseline descriptor *)

(** C3, as the code has it: a second baseline descriptor replaces the first;
    neither call raises and nothing else of the instance changes. *)
Theorem descriptor_baseline_last_wins (s : Serializer) (d1 d2 : value) :
  d1.["name"] = Ok (VStr "baseline") ->
  d2.["name"] = Ok (VStr "baseline") ->
  descriptor d1 s = (set_baseline_descriptor d1 s, Ok tt)
  /\ descriptor d2 (set_baseline_descriptor d1 s) = (set_baseline_descriptor d2 s, Ok tt)
  /\ _baseline_descriptor (set_baseline_descriptor d2 s) = d2.
Proof.
  intros H1 H2.
  apply getitem_get with (default := VNone) in H1, H2.
  unfold descriptor. run. rewrite H1, H2. simpl. auto.
Qed.

Lemma descriptor_baseline_last_wins_witness :
  descriptor (baseline_four "b1") fresh = (set_baseline_descriptor (baseline_four "b1") fresh, Ok tt)
  /\ descriptor (baseline_four "b2") (set_baseline_descriptor (baseline_four "b1") fresh)
     = (set_baseline_descriptor (baseline_four "b2") fresh, Ok tt)
  /\ _baseline_descriptor (set_baseline_descriptor (baseline_four "b2") fresh)
     = baseline_four "b2".
Proof.
  apply (descriptor_baseline_last_wins fresh (baseline_four "b1") (baseline_four "b2"));
    reflexivity.
Defined.

(** C3 as stated fails: after the baseline descriptors [b1] and then [b2],
    the stored one is not [b1]. *)
Lemma first_baseline_descriptor_is_replaced :
  let s1 := fst (descriptor (baseline_four "b1") fresh) in
  let '(s2, r) := descriptor (baseline_four "b2") s1 in
  r = Ok tt /\ _baseline_descriptor s1 = baseline_four "b1"
  /\ _baseline_descriptor s2 <> baseline_four "b1".
Proof.
  simpl. repeat split; discriminate.
Qed.

(** ** More than one scanning motor *)

Lemma supported_neq {A} (r : result A) :
  supported r <-> r <> Raise NotImplementedError.
Proof.
  destruct r as [a|[]]; simpl; split; intros H; try exact I; try discriminate.
  - contradiction.
  - now apply H.
Qed.

Lemma supported_bind {A B} (c : result A) (k : A -> result B) :
  supported c -> (forall a, c = Ok a -> supported (k a)) -> supported (rbind c k).
Proof.
  destruct c as [a|e]; simpl; intros Hc Hk.
  - now apply Hk.
  - exact Hc.
Qed.

Lemma supported_rmap {A B} (f : A -> result B) (l : list A) :
  (forall a, supported (f a)) -> supported (rmap f l).
Proof.
  intros Hf. induction l as [|a l IH]; simpl.
  - exact I.
  - apply supported_bind; [apply Hf|intros b _].
    apply supported_bind; [exact IH|intros; exact I].
Qed.

Lemma supported_rfilter {A} (f : A -> result bool) (l : list A) :
  (forall a, supported (f a)) -> supported (rfilter f l).
Proof.
  intros Hf. induction l as [|a l IH]; simpl.
  - exact I.
  - apply supported_bind; [apply Hf|intros b _].
    apply supported_bind; [exact IH|intros; exact I].
Qed.

Ltac by_cases :=
  unfold supported;
  repeat match goal with
         | |- context [match ?x with _ => _ end] =>
             lazymatch x with
             | context [match _ with _ => _ end] => fail
             | _ => destruct x
             end
         end;
  exact I.

Lemma supported_getitem (v k : value) : supported (getitem v k).
Proof. unfold getitem. by_cases. Qed.

Lemma supported_get (v : value) (k : string) (d : value) : supported (get v k d).
Proof. unfold get. by_cases. Qed.

Lemma supported_py_int (v : value) : supported (py_int v).
Proof. unfold py_int. by_cases. Qed.

Lemma supported_iterate (v : value) : supported (iterate v).
Proof. unfold iterate. by_cases. Qed.

Lemma supported_dict_items (v : value) : supported (dict_items v).
Proof. unfold dict_items. by_cases. Qed.

Lemma supported_get_name (v : value) : supported (get_name v).
Proof. unfold get_name. by_cases. Qed.

Lemma supported_render (t : list piece) (md : dict) : supported (render t md).
Proof.
  unfold render. apply supported_bind; [|intros; exact I].
  apply supported_rmap. intros [s|n|n sep]; simpl; try exact I.
  destruct (lookup n md); [|exact I].
  apply supported_bind; [apply supported_iterate|intros; exact I].
Qed.

Lemma supported_utc_to_seconds f : supported (utc_to_seconds f).
Proof. unfold utc_to_seconds. by_cases. Qed.

Lemma supported_localtime t : supported (localtime t).
Proof. unfold localtime. by_cases. Qed.

Lemma supported_fromtimestamp (v : value) : supported (fromtimestamp v).
Proof.
  unfold fromtimestamp.
  apply supported_bind; [unfold timestamp_parts; by_cases|intros [t us] _].
  destruct (negb _); [exact I|].
  apply supported_bind; [apply supported_localtime|intros [[[[[y mo] d] h] mi] s] _].
  apply supported_bind; [apply supported_utc_to_seconds|intros rs _].
  apply supported_bind.
  { unfold local. apply supported_bind; [apply supported_localtime|intros; apply supported_utc_to_seconds]. }
  intros ps _. apply supported_bind.
  { destruct (_ <? 0); [|exact I].
    unfold local. apply supported_bind; [apply supported_localtime|intros; apply supported_utc_to_seconds]. }
  intros _ _. unfold new_datetime. by_cases.
Qed.

Lemma supported_get_plan_name (start : value) : supported (_get_plan_name start).
Proof.
  unfold _get_plan_name.
  apply supported_bind; [apply supported_getitem|intros; apply supported_get_name].
Qed.

Lemma supported_get_acq_time (start : value) : supported (_get_acq_time start).
Proof.
  unfold _get_acq_time. apply supported_bind; [apply supported_get|intros; exact I].
Qed.

Lemma supported_is_read_field (motor_name : value) (kv : string * value) :
  supported (is_read_field motor_name kv).
Proof.
  unfold is_read_field. apply supported_bind; [apply supported_getitem|intros o _].
  destruct (negb _); [|exact I].
  apply supported_bind; [apply supported_getitem|intros; exact I].
Qed.

Lemma scans_a_motor_plan_name (start : value) :
  scans_a_motor start ->
  exists p, _get_plan_name start = Ok p
            /\ negb (mem p _SPEC_SCAN_NAMES) || mem p _SCANS_WITHOUT_MOTORS = false.
Proof.
  unfold _get_plan_name. intros [H|H]; rewrite H; simpl; eexists; split; reflexivity.
Qed.

Section Motors.

Variables (start : value) (motors : list value).
Hypothesis Hplan : scans_a_motor start.
Hypothesis Hmotors : start.["motors"] = Ok (VList motors).

Lemma get_motor_name_many :
  (1 < List.length motors)%nat -> _get_motor_name start = Raise NotImplementedError.
Proof.
  intros Hn. destruct (scans_a_motor_plan_name start Hplan) as (p & Hp & Hc).
  unfold _get_motor_name. rewrite Hp. simpl. rewrite Hc, Hmotors. simpl.
  destruct (1 <? Z.of_nat (List.length motors)) eqn:E; [reflexivity|].
  apply Z.ltb_ge in E. lia.
Qed.

Lemma get_motor_name_few :
  (List.length motors <= 1)%nat -> supported (_get_motor_name start).
Proof.
  intros Hn. destruct (scans_a_motor_plan_name start Hplan) as (p & Hp & Hc).
  unfold _get_motor_name. rewrite Hp. simpl. rewrite Hc, Hmotors. simpl.
  destruct (1 <? Z.of_nat (List.length motors)) eqn:E.
  - apply Z.ltb_lt in E. lia.
  - apply (supported_getitem (VList motors) (VInt 0)).
Qed.

End Motors.

(** C9: a scan or relative scan that declares more than one motor makes the
    motor name, every motor position and (once [scan_id] is read) the scan
    header raise [NotImplementedError]; with at most one motor declared none
    of the three raises it. *)
Theorem multi_motor_not_supported (start : value) (motors : list value) :
  scans_a_motor start ->
  start.["motors"] = Ok (VList motors) ->
  ((1 < List.length motors)%nat ->
     _get_motor_name start = Raise NotImplementedError
     /\ (forall event, _get_motor_position start event = Raise NotImplementedError)
     /\ (forall primary_descriptor baseline_event scan_id,
           start.["scan_id"] = Ok scan_id ->
           to_spec_scan_header start primary_descriptor baseline_event
           = Raise NotImplementedError))
  /\ ((List.length motors <= 1)%nat ->
     _get_motor_name start <> Raise NotImplementedError
     /\ (forall event, _get_motor_position start event <> Raise NotImplementedError)
     /\ (forall primary_descriptor baseline_event,
           to_spec_scan_header start primary_descriptor baseline_event
           <> Raise NotImplementedError)).
Proof.
  intros Hplan Hmotors. split; intros Hn.
  - pose proof (get_motor_name_many start motors Hplan Hmotors Hn) as Hname.
    destruct (scans_a_motor_plan_name start Hplan) as (p & Hp & Hc).
    split; [exact Hname|split].
    + intros event. unfold _get_motor_position. rewrite Hp. simpl.
      rewrite Hc, Hname. reflexivity.
    + intros pd be scan_id Hid. unfold to_spec_scan_header, scan_header_md.
      assert (Hbe : exists b,
                 match be with
                 | VNone =>
                     dk <- _DEFAULT_POSITIONERS.["data_keys"] ;;
                     ks <- iterate dk ;;
                     Ok (VDict [("data", VDict (map (fun k => (py_str k, VInt (-1))) ks))])
                 | _ => Ok be
                 end = Ok b) by (destruct be; eexists; reflexivity).
      destruct Hbe as (b & ->). simpl. rewrite Hid. simpl. rewrite Hp. simpl.
      rewrite Hname. reflexivity.
  - pose proof (get_motor_name_few start motors Hplan Hmotors Hn) as Hname.
    split; [now apply supported_neq|split].
    + intros event. apply supported_neq. unfold _get_motor_position.
      apply supported_bind; [apply supported_get_plan_name|intros p _].
      destruct (_ || _); [apply supported_getitem|].
      apply supported_bind; [exact Hname|intros m _].
      destruct (py_eq _ _); [apply supported_getitem|].
      apply supported_bind; intros; apply supported_getitem.
    + intros pd be. apply supported_neq. unfold to_spec_scan_header.
      apply supported_bind; [|intros; apply supported_render].
      unfold scan_header_md.
      apply supported_bind; [destruct be; exact I|intros b _].
      apply supported_bind; [apply supported_getitem|intros sid _].
      apply supported_bind; [apply supported_get_plan_name|intros p _].
      apply supported_bind; [exact Hname|intros m _].
      apply supported_bind; [apply supported_get_acq_time|intros a _].
      apply supported_bind.
      { destruct (_ || _); [exact I|].
        repeat (apply supported_bind; [apply supported_getitem|intros ? _]).
        exact I. }
      intros args _.
      apply supported_bind; [apply supported_getitem|intros t _].
      apply supported_bind; [apply supported_fromtimestamp|intros dt _].
      apply supported_bind; [apply supported_getitem|intros data _].
      apply supported_bind; [apply supported_dict_items|intros items _].
      apply supported_bind.
      { unfold _get_scan_data_column_names.
        apply supported_bind; [exact Hname|intros mn _].
        apply supported_bind; [apply supported_getitem|intros dk _].
        apply supported_bind; [apply supported_dict_items|intros it _].
        apply supported_bind; [|intros; exact I].
        apply supported_rfilter. intros kv. apply supported_is_read_field. }
      intros cols _.
      apply supported_bind; [exact Hname|intros; exact I].
Qed.

(** ** Resources and what is written to them *)

Lemma find_file_append_same (name : string) (c : chunk) (d : list (string * list chunk)) :
  find_file name (append_chunk name c d)
  = Some (match find_file name d with Some cs => cs | None => [] end ++ [c])%list.
Proof.
  induction d as [|[n cs] d IH]; simpl.
  - now rewrite String.eqb_refl.
  - destruct (String.eqb name n) eqn:E; simpl; rewrite E; [reflexivity|exact IH].
Qed.

Lemma find_file_append_other (name other : string) (c : chunk)
    (d : list (string * list chunk)) :
  other <> name -> find_file other (append_chunk name c d) = find_file other d.
Proof.
  intros Hne. induction d as [|[n cs] d IH]; simpl.
  - destruct (String.eqb other name) eqn:E; [apply String.eqb_eq in E; contradiction|reflexivity].
  - destruct (String.eqb name n) eqn:E; simpl.
    + apply String.eqb_eq in E. subst n.
      destruct (String.eqb other name) eqn:E'; [apply String.eqb_eq in E'; contradiction|reflexivity].
    + destruct (String.eqb other n); [reflexivity|exact IH].
Qed.

Lemma find_file_new (name other : string) (d : list (string * list chunk)) :
  find_file name d = None ->
  match find_file other (d ++ [(name, [])]) with Some cs => cs | None => [] end
  = match find_file other d with Some cs => cs | None => [] end.
Proof.
  induction d as [|[n cs] d IH]; simpl; intros H.
  - now destruct (String.eqb other name).
  - destruct (String.eqb name n) eqn:E; [discriminate|].
    destruct (String.eqb other n); [reflexivity|now apply IH].
Qed.

Lemma chunks_of_open (name other : string) (m m' : Manager) :
  manager_open name m = Ok m' -> chunks_of other m' = chunks_of other m.
Proof.
  unfold manager_open, chunks_of.
  destruct (negb (allows_append m)); [discriminate|].
  destruct (_ || _); [discriminate|].
  intros H. inversion H; subst; clear H. simpl.
  destruct (find_file name (disk m)) eqn:E; [reflexivity|now apply find_file_new].
Qed.

Lemma artifacts_open (name : string) (m m' : Manager) :
  manager_open name m = Ok m' -> artifacts m' = (artifacts m ++ [name])%list.
Proof.
  unfold manager_open.
  destruct (negb (allows_append m)); [discriminate|].
  destruct (_ || _); [discriminate|].
  intros H. now inversion H.
Qed.

Lemma write_open (st : site) (text name : string) (s : Serializer) :
  _file s = Some name -> write st text s = (after_write name (st, text) s, Ok tt).
Proof. intros H. unfold write. run. now rewrite H. Qed.

Lemma written_after_write (name : string) (c : chunk) (s : Serializer) :
  _file s = Some name -> written (after_write name c s) = (written s ++ [c])%list.
Proof.
  intros H. unfold written, chunks_of. simpl. rewrite H.
  now rewrite find_file_append_same.
Qed.

Lemma count_site_app (st : site) (a b : list chunk) :
  count_site st (a ++ b) = (count_site st a + count_site st b)%nat.
Proof. unfold count_site. now rewrite filter_app, length_app. Qed.

(** ** The trailer *)

Lemma lookup_dict_set (k k' : string) (v : value) (d : dict) :
  lookup k (dict_set k' v d)
  = if String.eqb k k' then Some v else lookup k d.
Proof.
  induction d as [|[k0 v0] d IH]; simpl.
  - reflexivity.
  - destruct (String.eqb k' k0) eqn:E; simpl.
    + apply String.eqb_eq in E. subst k0. now destruct (String.eqb k k').
    + destruct (String.eqb k k0) eqn:E0.
      * apply String.eqb_eq in E0. subst k0.
        rewrite String.eqb_sym in E. now rewrite E.
      * exact IH.
Qed.

Lemma stop_message_trailer (d : dict) (exit_status : value) :
  lookup "exit_status" d = Some exit_status ->
  stop_message (VDict d) = Ok (trailer exit_status (lookup "reason" d)).
Proof.
  intros H. unfold stop_message, trailer, setdefault. simpl.
  destruct (lookup "reason" d) as [r|] eqn:Er; simpl.
  - rewrite H. simpl. destruct (py_eq exit_status (VStr "success")); simpl.
    + reflexivity.
    + now rewrite Er.
  - rewrite !lookup_dict_set. simpl. rewrite H. simpl.
    destruct (py_eq exit_status (VStr "success")); reflexivity.
Qed.

(** ** [start] *)

Lemma start_opens (doc : value) (s : Serializer) (name : string) (m : Manager) :
  format_prefix (_file_prefix s) doc = Ok name ->
  manager_open (name ++ ".spec") (_manager s) = Ok m ->
  start doc s = (started doc (name ++ ".spec") m s, Ok tt).
Proof.
  intros Hn Hm. unfold start. run. rewrite Hn. simpl. rewrite Hm. reflexivity.
Qed.

Lemma written_started (doc : value) (name : string) (m : Manager) (s : Serializer) :
  manager_open name (_manager s) = Ok m ->
  written (started doc name m s) = chunks_of name (_manager s).
Proof. intros H. unfold written. simpl. now apply chunks_of_open with (name := name). Qed.

(** ** A run without events *)

(** C10: [start] and then [stop], with no event between, leave the opened
    resource with what it held plus the trailer alone: a blank line, and the
    failure comment unless the exit status is ["success"]. *)
Theorem start_then_stop (m m' : Manager) (prefix : list prefix_part) (fl : bool)
    (start_doc : value) (d : dict) (name : string) (exit_status : value) :
  format_prefix prefix start_doc = Ok name ->
  manager_open (name ++ ".spec") m = Ok m' ->
  lookup "exit_status" d = Some exit_status ->
  exists s,
    feed [(KStart, start_doc); (KStop, VDict d)] (init m prefix fl) = (s, Ok tt)
    /\ _file s = Some (name ++ ".spec")
    /\ written s = (chunks_of (name ++ ".spec") m
                    ++ [(Trailer, trailer exit_status (lookup "reason" d))])%list
    /\ count_site FileHeader (written s) = count_site FileHeader (chunks_of (name ++ ".spec") m)
    /\ count_site ScanHeader (written s) = count_site ScanHeader (chunks_of (name ++ ".spec") m).
Proof.
  intros Hn Hm He.
  set (s0 := init m prefix fl).
  set (s1 := started start_doc (name ++ ".spec") m' s0).
  assert (Hfile : _file s1 = Some (name ++ ".spec")) by reflexivity.
  assert (Hw : written (after_write (name ++ ".spec")
                          (Trailer, trailer exit_status (lookup "reason" d)) s1)
               = (chunks_of (name ++ ".spec") m
                  ++ [(Trailer, trailer exit_status (lookup "reason" d))])%list).
  { rewrite written_after_write by exact Hfile.
    unfold s1. now rewrite written_started. }
  exists (after_write (name ++ ".spec") (Trailer, trailer exit_status (lookup "reason" d)) s1).
  split; [|split; [reflexivity|split; [exact Hw|split]]].
  - cbn [feed call]. unfold bind at 1.
    rewrite (start_opens start_doc s0 name m') by assumption.
    fold s1. unfold bind at 1. unfold stop. unfold bind at 1, lift.
    rewrite (stop_message_trailer d exit_status He).
    unfold bind at 1. rewrite (write_open _ _ (name ++ ".spec")) by exact Hfile.
    unfold bind, gets, when, flush, ret. cbn [_flush after_write set_manager _file].
    unfold bind, gets. cbn. destruct fl; reflexivity.
  - rewrite Hw, count_site_app. apply Nat.add_0_r.
  - rewrite Hw, count_site_app. apply Nat.add_0_r.
Qed.

(** ** [event], step by step *)

Lemma is_baseline_event_pure (doc : value) (s : Serializer) :
  fst (is_baseline_event doc s) = s.
Proof.
  unfold is_baseline_event. run. destruct (truthy _); [|reflexivity].
  destruct (doc.["descriptor"]); [|reflexivity]. simpl.
  destruct ((_baseline_descriptor s).["uid"]); reflexivity.
Qed.

Lemma event_steps (doc : value) (s : Serializer) :
  event doc s
  = match is_baseline_event doc s with
    | (_, Ok true) => baseline_step doc s
    | (_, Ok false) =>
        (file_header_step ;;; scan_header_step ;;; data_line_step doc) s
    | (_, Raise e) => (s, Raise e)
    end.
Proof.
  pose proof (is_baseline_event_pure doc s) as Hs.
  unfold event. unfold bind at 1.
  destruct (is_baseline_event doc s) as [s0 [[|]|e]]; simpl in Hs; subst s0;
    try reflexivity.
Qed.

Lemma write_ok (st : site) (text : string) (s s' : Serializer) :
  write st text s = (s', Ok tt) ->
  exists name, _file s = Some name /\ s' = after_write name (st, text) s.
Proof.
  unfold write. run. destruct (_file s) as [name|]; intros H; inversion H.
  now exists name.
Qed.

Lemma file_header_step_ok (s s' : Serializer) :
  file_header_step s = (s', Ok tt) ->
  (_has_not_written_file_header s = false /\ s' = s)
  \/ (_has_not_written_file_header s = true
      /\ exists filepath header name,
           artifacts (_manager s) = [filepath]
           /\ to_spec_file_header (_start s) filepath (_baseline_descriptor s) = Ok header
           /\ _file s = Some name
           /\ s' = set_has_not_written_file_header false
                     (after_write name (FileHeader, header) s)).
Proof.
  unfold file_header_step, _write_new_header. unfold bind at 1. unfold gets at 1.
  destruct (_has_not_written_file_header s); cbn [when].
  - intros H. right. split; [reflexivity|].
    unfold bind at 1 2 in H. unfold gets at 1 in H.
    destruct (artifacts (_manager s)) as [|filepath [|]] eqn:Ea; try discriminate H.
    unfold bind at 1 2 3, gets, lift in H.
    destruct (to_spec_file_header _ _ _) as [header|e] eqn:Eh; [|discriminate H].
    destruct (write FileHeader header s) as [s1 [[]|e]] eqn:Ew; [|discriminate H].
    apply write_ok in Ew. destruct Ew as (name & Hf & ->).
    unfold modify in H. inversion H.
    exists filepath, header, name. auto.
  - unfold ret. intros H. inversion H. now left.
Qed.

Lemma scan_header_step_ok (s s' : Serializer) :
  scan_header_step s = (s', Ok tt) ->
  (_has_not_written_scan_header s = false /\ s' = s)
  \/ (_has_not_written_scan_header s = true
      /\ exists header name,
           to_spec_scan_header (_start s) (_primary_descriptor s) (_baseline_event s)
           = Ok header
           /\ _file s = Some name
           /\ s' = set_has_not_written_scan_header false
                     (after_write name (ScanHeader, header) s)).
Proof.
  unfold scan_header_step. unfold bind at 1. unfold gets at 1.
  destruct (_has_not_written_scan_header s); cbn [when].
  - intros H. right. split; [reflexivity|].
    unfold bind at 1 2 3 4 5, gets, lift in H.
    destruct (to_spec_scan_header _ _ _) as [header|e] eqn:Eh; [|discriminate H].
    destruct (write ScanHeader header s) as [s1 [[]|e]] eqn:Ew; [|discriminate H].
    apply write_ok in Ew. destruct Ew as (name & Hf & ->).
    unfold modify in H. inversion H.
    exists header, name. auto.
  - unfold ret. intros H. inversion H. now left.
Qed.

Lemma data_line_step_ok (doc : value) (s s' : Serializer) :
  data_line_step doc s = (s', Ok tt) ->
  exists d uid line name,
    doc.["descriptor"] = Ok d
    /\ (_primary_descriptor s).["uid"] = Ok uid
    /\ py_eq d uid = true
    /\ to_spec_scan_data (_start s) (_primary_descriptor s) doc = Ok line
    /\ _file s = Some name
    /\ s' = after_write name (DataLine, line ++ nl)
              (set_num_events_received (_num_events_received s + 1) s).
Proof.
  unfold data_line_step. unfold bind at 1. unfold lift at 1.
  destruct (doc.["descriptor"]) as [d|e] eqn:Ed; [|discriminate].
  unfold bind at 1 2. unfold gets at 1. unfold lift at 1.
  destruct ((_primary_descriptor s).["uid"]) as [uid|e] eqn:Eu; [|discriminate].
  destruct (py_eq d uid) eqn:Eeq; cbn [negb]; [|discriminate].
  unfold bind at 1 2 3 4, gets at 1 2, modify, lift.
  cbn [_start set_num_events_received].
  destruct (to_spec_scan_data _ _ _) as [line|e] eqn:El; [|discriminate].
  unfold bind at 1.
  destruct (write DataLine (line ++ nl) _) as [s1 [[]|e]] eqn:Ew; [|discriminate].
  apply write_ok in Ew. destruct Ew as (name & Hf & ->).
  cbn [_file set_num_events_received] in Hf.
  intros H. unfold when, flush in H. unfold bind, gets, ret in H.
  cbn [_flush after_write set_manager set_num_events_received _file] in H.
  exists d, uid, line, name.
  repeat split; try assumption; try reflexivity.
  destruct (_flush s); cbv beta in H;
    [change (_file (after_write name (DataLine, line ++ nl)
               (set_num_events_received (_num_events_received s + 1) s)))
       with (_file s) in H; rewrite Hf in H|]; now inversion H.
Qed.

Lemma event_primary_ok (doc : value) (s s' : Serializer) :
  is_baseline_event doc s = (s, Ok false) ->
  event doc s = (s', Ok tt) ->
  exists name line fh sh,
    _file s = Some name
    /\ to_spec_scan_data (_start s) (_primary_descriptor s) doc = Ok line
    /\ file_header_due s fh
    /\ scan_header_due s sh
    /\ s' = event_done name (fh ++ sh ++ [(DataLine, (line ++ nl)%string)])%list s.
Proof.
  intros Hb. rewrite event_steps, Hb.
  unfold bind at 1.
  destruct (file_header_step s) as [s1 [[]|e]] eqn:E1; [|discriminate].
  unfold bind at 1.
  destruct (scan_header_step s1) as [s2 [[]|e]] eqn:E2; [|discriminate].
  intros E3.
  apply data_line_step_ok in E3.
  destruct E3 as (d & uid & line & name & _ & _ & _ & Hline & Hfile & ->).
  apply file_header_step_ok in E1. apply scan_header_step_ok in E2.
  unfold file_header_due, scan_header_due.
  destruct E1 as [[F1 ->]|(F1 & filepath & fheader & n1 & Ha & Hh & Hf1 & ->)];
    destruct E2 as [[F2 ->]|(F2 & sheader & n2 & Hs & Hf2 & ->)];
    cbn [_file _start _primary_descriptor _baseline_event _baseline_descriptor
         set_has_not_written_file_header set_has_not_written_scan_header
         after_write set_manager _has_not_written_scan_header] in *;
    rewrite F1; try rewrite F2.
  - exists name, line, [], []. repeat split; try assumption.
    destruct s; cbn in *. now rewrite F1, F2.
  - assert (n2 = name) by congruence. subst n2.
    exists name, line, [], [(ScanHeader, sheader)]. repeat split; try assumption.
    + eauto.
    + destruct s; cbn in *. now rewrite F1.
  - assert (n1 = name) by congruence. subst n1.
    exists name, line, [(FileHeader, fheader)], []. repeat split; try assumption.
    + eauto.
    + destruct s; cbn in *. now rewrite F2.
  - assert (n1 = name) by congruence. assert (n2 = name) by congruence. subst n1 n2.
    exists name, line, [(FileHeader, fheader)], [(ScanHeader, sheader)].
    repeat split; try assumption; eauto.
Qed.

Lemma event_baseline_ok (doc : value) (s : Serializer) :
  is_baseline_event doc s = (s, Ok true) ->
  event doc s
  = (set_baseline_event doc
       (set_num_baseline_events_received (_num_baseline_events_received s + 1) s),
     Ok tt).
Proof. intros Hb. rewrite event_steps, Hb. reflexivity. Qed.

Lemma event_ok_cases (doc : value) (s s' : Serializer) :
  event doc s = (s', Ok tt) ->
  is_baseline_event doc s = (s, Ok true) \/ is_baseline_event doc s = (s, Ok false).
Proof.
  rewrite event_steps. pose proof (is_baseline_event_pure doc s) as Hs.
  destruct (is_baseline_event doc s) as [s0 [[|]|e]]; simpl in Hs; subst s0; auto.
  discriminate.
Qed.

Lemma disk_count_append (st : site) (name : string) (c : chunk)
    (d : list (string * list chunk)) :
  disk_count st (append_chunk name c d) = (disk_count st d + count_site st [c])%nat.
Proof.
  unfold disk_count. induction d as [|[n cs] d IH]; simpl.
  - lia.
  - destruct (String.eqb name n); simpl.
    + rewrite count_site_app. lia.
    + rewrite IH. lia.
Qed.


Lemma chunks_fold (name : string) (cs : list chunk) (d : list (string * list chunk)) :
  match find_file name (fold_left (fun d c => append_chunk name c d) cs d) with
  | Some x => x
  | None => []
  end
  = (match find_file name d with Some x => x | None => [] end ++ cs)%list.
Proof.
  revert d. induction cs as [|c cs IH]; intros d; simpl.
  - now rewrite app_nil_r.
  - rewrite IH, find_file_append_same. now rewrite <- app_assoc.
Qed.

Lemma written_event_done (name : string) (cs : list chunk) (s : Serializer) :
  _file s = Some name -> written (event_done name cs s) = (written s ++ cs)%list.
Proof.
  intros H. unfold written, chunks_of. cbn [_file _manager event_done disk].
  rewrite H. apply chunks_fold.
Qed.



(** ** Data lines and events *)

Lemma quiet_refl (s : Serializer) : quiet s s.
Proof. repeat split. Qed.

Lemma disk_count_open (name : string) (m m' : Manager) :
  manager_open name m = Ok m' -> disk_count DataLine (disk m') = disk_count DataLine (disk m).
Proof.
  unfold manager_open.
  destruct (negb (allows_append m)); [discriminate|].
  destruct (_ || _); [discriminate|].
  intros H. inversion H; subst; clear H. simpl.
  destruct (find_file name (disk m)); [reflexivity|].
  unfold disk_count. rewrite map_app, list_sum_app. simpl. unfold count_site. simpl. lia.
Qed.

Lemma start_quiet (doc : value) (s : Serializer) : quiet s (fst (start doc s)).
Proof.
  unfold start. run.
  destruct (format_prefix (_file_prefix s) doc) as [name|e]; simpl; [|repeat split].
  destruct (manager_open (name ++ ".spec") (_manager s)) as [m'|e] eqn:Em.
  - simpl. repeat split. unfold data_lines. simpl.
    apply (disk_count_open _ _ _ Em).
  - destruct e; repeat split.
Qed.

Lemma descriptor_quiet (doc : value) (s : Serializer) : quiet s (fst (descriptor doc s)).
Proof.
  unfold descriptor. run.
  destruct (get doc "name" VNone) as [n|e]; simpl; [|repeat split].
  destruct (py_eq n (VStr "baseline")); [repeat split|].
  destruct (truthy (_primary_descriptor s)); repeat split.
Qed.

Lemma stop_quiet (doc : value) (s : Serializer) : quiet s (fst (stop doc s)).
Proof.
  unfold stop. unfold bind at 1. unfold lift.
  destruct (stop_message doc) as [msg|e]; [|apply quiet_refl].
  unfold bind at 1.
  destruct (write Trailer msg s) as [s1 [[]|e]] eqn:Ew.
  - apply write_ok in Ew. destruct Ew as (name & Hf & ->).
    assert (Hq : quiet s (after_write name (Trailer, msg) s)).
    { repeat split.
      change (disk_count DataLine (append_chunk name (Trailer, msg) (disk (_manager s)))
              = disk_count DataLine (disk (_manager s))).
      rewrite disk_count_append. apply Nat.add_0_r. }
    unfold when, flush. unfold bind, gets, ret.
    destruct (_flush _); [|exact Hq].
    cbv beta. destruct (_file _); exact Hq.
  - unfold write in Ew. run. destruct (_file s); inversion Ew. apply quiet_refl.
Qed.

Lemma feed_cons_ok (k : kind) (doc : value) (gen : list (kind * value))
    (s s' : Serializer) :
  feed ((k, doc) :: gen) s = (s', Ok tt) ->
  exists s1, call k doc s = (s1, Ok tt) /\ feed gen s1 = (s', Ok tt).
Proof.
  cbn [feed]. unfold bind.
  destruct (call k doc s) as [s1 [[]|e]]; [|discriminate].
  intros H. now exists s1.
Qed.

(** ** The text of the scan header *)

Lemma append_assoc (a b c : string) : (a ++ b) ++ c = a ++ b ++ c.
Proof. induction a as [|x a IH]; simpl; [reflexivity|now rewrite IH]. Qed.

Lemma append_nil_r (a : string) : a ++ "" = a.
Proof. induction a as [|x a IH]; simpl; [reflexivity|now rewrite IH]. Qed.

Lemma map_py_str_VStr (l : list string) : map py_str (map VStr l) = l.
Proof. induction l as [|x l IH]; simpl; [reflexivity|now rewrite IH]. Qed.

Lemma render_scan_header (scan_id : value) (command readable_time : string)
    (acq_time : value) (positions : list value) (data_keys : list string)
    (motor_name : value) :
  render _SPEC_SCAN_HEADER_TEMPLATE
    [("scan_id", scan_id);
     ("command", VStr command);
     ("readable_time", VStr readable_time);
     ("acq_time", acq_time);
     ("positioner_positions", VList positions);
     ("data_keys", VList (map VStr data_keys));
     ("num_columns", VInt (3 + Z.of_nat (List.length data_keys)));
     ("motor_name", motor_name)]
  = Ok (scan_header_text scan_id command readable_time acq_time positions data_keys
          motor_name).
Proof.
  unfold render, scan_header_text. cbn -[py_str str_of_Z Z.add].
  rewrite map_py_str_VStr, append_nil_r. reflexivity.
Qed.

Ltac rinv H :=
  repeat match type of H with
         | rbind ?c _ = Ok _ =>
             let E := fresh "E" in
             destruct c eqn:E; [cbn [rbind] in H|discriminate H]
         end.

(** What a scan header that was rendered is made of. *)
Lemma to_spec_scan_header_ok (st pd be : value) (header : string) :
  to_spec_scan_header st pd be = Ok header ->
  exists scan_id plan command_args dt acq_time positions cols motor,
    st.["scan_id"] = Ok scan_id
    /\ _get_plan_name st = Ok plan
    /\ _get_motor_name st = Ok motor
    /\ _get_acq_time st = Ok acq_time
    /\ (t <- st.["time"] ;; fromtimestamp t) = Ok dt
    /\ _get_scan_data_column_names st pd = Ok cols
    /\ (be = VNone -> positions = [])
    /\ header = scan_header_text scan_id
                  (String.concat " "
                     (map py_str (VStr plan :: motor :: command_args ++ [acq_time])%list))
                  (to_spec_time dt) acq_time positions cols motor.
Proof.
  unfold to_spec_scan_header. intros H.
  destruct (scan_header_md st pd be) as [md|] eqn:Emd; [cbn [rbind] in H|discriminate H].
  unfold scan_header_md in Emd. rinv Emd.
  inversion Emd; subst md; clear Emd.
  rewrite render_scan_header in H. inversion H; subst; clear H.
  exists a0, a1, a4, a6, a3, (map snd (sorted_items a8)), a9, a2.
  repeat split; try assumption.
  intros ->. cbn in E. inversion E; subst a; clear E.
  cbn in E7. inversion E7; subst a7; clear E7.
  cbn in E8. inversion E8; subst a8. reflexivity.
Qed.

Lemma scan_header_lines (scan_id : value) (command readable_time : string)
    (acq_time : value) (positions : list value) (data_keys : list string)
    (motor_name : value) :
  scan_header_text scan_id command readable_time acq_time positions data_keys motor_name
  = scan_header_top scan_id command readable_time acq_time
    ++ nl ++ "#P0 " ++ String.concat " " (map py_str positions)
    ++ nl ++ scan_header_bottom data_keys motor_name.
Proof.
  unfold scan_header_text, scan_header_top, scan_header_bottom.
  now rewrite !append_assoc.
Qed.

(** ** What holds of an instance as long as nothing raised *)

Lemma run_inv_init (m : Manager) (prefix : list prefix_part) (fl : bool) :
  run_inv (init m prefix fl).
Proof. unfold run_inv. simpl. repeat split; auto; lia. Qed.

Lemma run_inv_quiet (s s' : Serializer) : quiet s s' -> run_inv s -> run_inv s'.
Proof.
  intros (_ & Hn & Hb & Hbe & Hsh) (I1 & I2 & I3 & I4).
  unfold run_inv. rewrite Hn, Hb, Hbe, Hsh. auto.
Qed.

Lemma run_inv_call (k : kind) (doc : value) (s s' : Serializer) :
  call k doc s = (s', Ok tt) -> run_inv s -> run_inv s'.
Proof.
  destruct k; cbn [call]; intros H.
  - apply run_inv_quiet. pose proof (start_quiet doc s) as Q. now rewrite H in Q.
  - apply run_inv_quiet. pose proof (descriptor_quiet doc s) as Q. now rewrite H in Q.
  - intros (I1 & I2 & I3 & I4).
    destruct (event_ok_cases doc s s' H) as [Hb|Hb].
    + rewrite (event_baseline_ok doc s Hb) in H. inversion H; subst; clear H.
      unfold run_inv. simpl. repeat split; auto; lia.
    + destruct (event_primary_ok doc s s' Hb H)
        as (name & line & fh & sh & Hf & Hl & Hfh & Hsh & ->).
      unfold run_inv. simpl. repeat split; auto; lia.
  - apply run_inv_quiet. pose proof (stop_quiet doc s) as Q. now rewrite H in Q.
  - unfold ret in H. inversion H. auto.
  - unfold ret in H. inversion H. auto.
Qed.

Lemma run_inv_feed (gen : list (kind * value)) (s s' : Serializer) :
  feed gen s = (s', Ok tt) -> run_inv s -> run_inv s'.
Proof.
  revert s. induction gen as [|[k doc] gen IH]; intros s H I.
  - cbn in H. inversion H. now subst.
  - apply feed_cons_ok in H. destruct H as (s1 & Hc & Hf).
    apply (IH s1 Hf). now apply (run_inv_call k doc s).
Qed.

(** ** The positions without a baseline event *)

(** C2, as the code has it: when no baseline event has been retained, the
    scan header the first primary event writes has an empty list of
    positions, the line ["#P0 "], whatever the baseline descriptor declares. *)
Theorem no_baseline_event_no_positions (m : Manager) (prefix : list prefix_part)
    (fl : bool) (gen : list (kind * value)) (e : value) (s s' : Serializer) :
  feed gen (init m prefix fl) = (s, Ok tt) ->
  _num_baseline_events_received s = 0 ->
  _num_events_received s = 0 ->
  is_baseline_event e s = (s, Ok false) ->
  event e s = (s', Ok tt) ->
  exists fh line scan_id command readable_time acq_time cols motor,
    file_header_due s fh
    /\ to_spec_scan_header (_start s) (_primary_descriptor s) VNone
       = Ok (scan_header_text scan_id command readable_time acq_time [] cols motor)
    /\ scan_header_text scan_id command readable_time acq_time [] cols motor
       = scan_header_top scan_id command readable_time acq_time
         ++ nl ++ "#P0 " ++ nl ++ scan_header_bottom cols motor
    /\ written s'
       = (written s ++ fh
          ++ [(ScanHeader,
               scan_header_text scan_id command readable_time acq_time [] cols motor);
              (DataLine, (line ++ nl)%string)])%list.
Proof.
  intros Hfeed Hnb Hnp Hb He.
  destruct (run_inv_feed gen _ s Hfeed (run_inv_init m prefix fl)) as (_ & _ & I3 & I4).
  specialize (I3 Hnb). specialize (I4 Hnp).
  destruct (event_primary_ok e s s' Hb He)
    as (name & line & fh & sh & Hf & Hl & Hfh & Hsh & ->).
  unfold scan_header_due in Hsh. rewrite I4, I3 in Hsh.
  destruct Hsh as (header & Hh & ->).
  destruct (to_spec_scan_header_ok _ _ _ _ Hh)
    as (scan_id & plan & args & dt & acq & positions & cols & motor
        & _ & _ & _ & _ & _ & _ & Hpos & ->).
  rewrite (Hpos eq_refl) in *.
  eexists fh, line, scan_id, _, _, acq, cols, motor.
  split; [exact Hfh|]. split; [exact Hh|]. split; [apply scan_header_lines|].
  now rewrite written_event_done.
Qed.

(** ** The text of the file header *)

Lemma render_file_header (filename : string) (unix_time : Z) (readable_time : string)
    (owner : value) (sources : list value) (names : list string) :
  render _SPEC_FILE_HEADER_TEMPLATE
    [("owner", owner);
     ("positioner_variable_names", VList (map VStr names));
     ("positioner_variable_sources", VList sources);
     ("unix_time", VInt unix_time);
     ("readable_time", VStr readable_time);
     ("filename", VStr filename)]
  = Ok (file_header_text filename unix_time readable_time owner sources names).
Proof.
  unfold render, file_header_text. cbn -[py_str str_of_Z].
  rewrite map_py_str_VStr. reflexivity.
Qed.

Lemma to_spec_file_header_ok (st : value) (filepath : string) (bd : value)
    (header : string) :
  to_spec_file_header st filepath bd = Ok header ->
  exists unix_time dt owner sources names,
    (t <- st.["time"] ;; py_int t) = Ok unix_time
    /\ fromtimestamp (VInt unix_time) = Ok dt
    /\ get st "owner" (VStr "") = Ok owner
    /\ header = file_header_text (basename filepath) unix_time (to_spec_time dt)
                  owner sources names.
Proof.
  unfold to_spec_file_header. intros H. rinv H.
  rewrite render_file_header in H. inversion H; subst; clear H.
  eexists _, _, _, _, _. repeat split; assumption.
Qed.

(** ** The headers, once *)

Lemma descriptor_ok (doc : value) (s s' : Serializer) :
  descriptor doc s = (s', Ok tt) ->
  s' = set_baseline_descriptor doc s
  \/ (truthy (_primary_descriptor s) = false /\ s' = set_primary_descriptor doc s).
Proof.
  unfold descriptor. run.
  destruct (get doc "name" VNone) as [n|e]; simpl; [|discriminate].
  destruct (py_eq n (VStr "baseline")).
  - intros H. inversion H. now left.
  - destruct (truthy (_primary_descriptor s)); [discriminate|].
    intros H. inversion H. now right.
Qed.

Lemma call_events_received (k : kind) (doc : value) (s s' : Serializer) :
  call k doc s = (s', Ok tt) ->
  _num_events_received s <= _num_events_received s'
  /\ (within_run (k, doc) = true -> _num_events_received s' = _num_events_received s ->
      same_output s s').
Proof.
  destruct k; cbn [call]; intros H.
  - pose proof (start_quiet doc s) as (_ & Q & _). rewrite H in Q. simpl in Q.
    split; [lia|]. discriminate.
  - split.
    + pose proof (descriptor_quiet doc s) as (_ & Q & _). rewrite H in Q. simpl in Q. lia.
    + intros _ _. apply descriptor_ok in H. destruct H as [->|[_ ->]]; repeat split.
  - destruct (event_ok_cases doc s s' H) as [Hb|Hb].
    + rewrite (event_baseline_ok doc s Hb) in H. inversion H; subst; clear H.
      simpl. split; [lia|]. intros _ _. repeat split.
    + destruct (event_primary_ok doc s s' Hb H)
        as (name & line & fh & sh & Hf & Hl & Hfh & Hsh & ->).
      simpl. split; [lia|]. intros _ E. lia.
  - pose proof (stop_quiet doc s) as (_ & Q & _). rewrite H in Q. simpl in Q.
    split; [lia|]. discriminate.
  - unfold ret in H. inversion H. split; [lia|]. intros _ _. repeat split.
  - unfold ret in H. inversion H. split; [lia|]. intros _ _. repeat split.
Qed.

Lemma feed_events_received (gen : list (kind * value)) (s s' : Serializer) :
  feed gen s = (s', Ok tt) ->
  _num_events_received s <= _num_events_received s'
  /\ (forallb within_run gen = true ->
      _num_events_received s' = _num_events_received s ->
      same_output s s').
Proof.
  revert s. induction gen as [|[k doc] gen IH]; intros s H.
  - cbn in H. inversion H. split; [lia|]. intros _ _. repeat split.
  - apply feed_cons_ok in H. destruct H as (s1 & Hc & Hf).
    apply call_events_received in Hc. destruct Hc as [L1 S1].
    apply IH in Hf. destruct Hf as [L2 S2].
    split; [lia|]. intros W E. cbn [forallb] in W.
    apply Bool.andb_true_iff in W. destruct W as [W1 W2].
    destruct S1 as (A1 & A2 & A3 & A4 & A5); [assumption|lia|].
    destruct S2 as (B1 & B2 & B3 & B4 & B5); [assumption|lia|].
    unfold same_output. rewrite B1, B2, B3, B4, B5. auto.
Qed.

(** Once the file header is marked as written, no document of the run writes
    it again. *)
Lemma call_no_file_header (k : kind) (doc : value) (s s' : Serializer) :
  call k doc s = (s', Ok tt) ->
  not_start (k, doc) = true ->
  _has_not_written_file_header s = false ->
  _has_not_written_file_header s' = false
  /\ count_site FileHeader (written s') = count_site FileHeader (written s).
Proof.
  destruct k; cbn [call]; intros H W F; try discriminate W.
  - apply descriptor_ok in H. destruct H as [->|[_ ->]]; auto.
  - destruct (event_ok_cases doc s s' H) as [Hb|Hb].
    + rewrite (event_baseline_ok doc s Hb) in H. inversion H; subst; clear H. auto.
    + destruct (event_primary_ok doc s s' Hb H)
        as (name & line & fh & sh & Hf & Hl & Hfh & Hsh & ->).
      split; [reflexivity|].
      rewrite written_event_done by exact Hf.
      unfold file_header_due in Hfh. rewrite F in Hfh. subst fh.
      rewrite !count_site_app.
      assert (C : count_site FileHeader sh = 0%nat).
      { unfold scan_header_due in Hsh.
        destruct (_has_not_written_scan_header s);
          [destruct Hsh as (h & _ & ->)|subst sh]; reflexivity. }
      rewrite C. cbn. lia.
  - unfold stop in H. unfold bind at 1 in H. unfold lift in H.
    destruct (stop_message doc) as [msg|e]; [|discriminate H].
    unfold bind at 1 in H.
    destruct (write Trailer msg s) as [s1 [[]|e]] eqn:Ew; [|discriminate H].
    apply write_ok in Ew. destruct Ew as (name & Hf & ->).
    assert (Hs' : s' = after_write name (Trailer, msg) s).
    { unfold when, flush in H. unfold bind, gets, ret in H.
      destruct (_flush _); [|now inversion H].
      cbv beta in H. destruct (_file _); now inversion H. }
    subst s'. split; [exact F|].
    rewrite written_after_write by exact Hf. rewrite count_site_app. cbn. lia.
  - unfold ret in H. inversion H; subst. auto.
  - unfold ret in H. inversion H; subst. auto.
Qed.

Lemma feed_no_file_header (gen : list (kind * value)) (s s' : Serializer) :
  feed gen s = (s', Ok tt) ->
  forallb not_start gen = true ->
  _has_not_written_file_header s = false ->
  count_site FileHeader (written s') = count_site FileHeader (written s).
Proof.
  revert s. induction gen as [|[k doc] gen IH]; intros s H W F.
  - cbn in H. inversion H. reflexivity.
  - apply feed_cons_ok in H. destruct H as (s1 & Hc & Hf).
    cbn [forallb] in W. apply Bool.andb_true_iff in W. destruct W as [W1 W2].
    destruct (call_no_file_header k doc s s1 Hc W1 F) as [F1 C1].
    rewrite (IH s1 Hf W2 F1). exact C1.
Qed.

(** C4: after a [start] that opened the resource, and whatever descriptors
    and baseline events came since, the first primary event writes the scan
    header and its data line, and before them the six lines of the file
    header exactly when the resource was empty at [open]; once it has, both
    headers are marked as written, and nothing fed afterwards, short of a new
    [start], writes a file header again. *)
Theorem file_header_only_on_empty_resource (m m' : Manager)
    (prefix : list prefix_part) (fl : bool) (start_doc : value) (name : string)
    (gen : list (kind * value)) (e : value) (s s' : Serializer) :
  format_prefix prefix start_doc = Ok name ->
  manager_open (name ++ ".spec") m = Ok m' ->
  forallb within_run gen = true ->
  feed ((KStart, start_doc) :: gen) (init m prefix fl) = (s, Ok tt) ->
  _num_events_received s = 0 ->
  is_baseline_event e s = (s, Ok false) ->
  event e s = (s', Ok tt) ->
  exists scan_header line,
    to_spec_scan_header start_doc (_primary_descriptor s) (_baseline_event s)
    = Ok scan_header
    /\ to_spec_scan_data start_doc (_primary_descriptor s) e = Ok line
    /\ _has_not_written_file_header s' = false
    /\ _has_not_written_scan_header s' = false
    /\ (forall later s'',
          forallb not_start later = true ->
          feed later s' = (s'', Ok tt) ->
          count_site FileHeader (written s'') = count_site FileHeader (written s'))
    /\ if tell (name ++ ".spec") m' =? 0
       then exists filepath unix_time dt owner sources names,
              artifacts m' = [filepath]
              /\ to_spec_file_header start_doc filepath (_baseline_descriptor s)
                 = Ok (file_header_text (basename filepath) unix_time (to_spec_time dt)
                         owner sources names)
              /\ written s'
                 = (chunks_of (name ++ ".spec") m
                    ++ [(FileHeader,
                         file_header_text (basename filepath) unix_time (to_spec_time dt)
                           owner sources names);
                        (ScanHeader, scan_header);
                        (DataLine, (line ++ nl)%string)])%list
       else written s'
            = (chunks_of (name ++ ".spec") m
               ++ [(ScanHeader, scan_header); (DataLine, (line ++ nl)%string)])%list.
Proof.
  intros Hn Hm Hgen Hfeed Hnp Hb He.
  apply feed_cons_ok in Hfeed. destruct Hfeed as (s1 & Hstart & Hfeed).
  cbn [call] in Hstart.
  rewrite (start_opens start_doc (init m prefix fl) name m' Hn Hm) in Hstart.
  inversion Hstart; subst s1; clear Hstart.
  set (s1 := started start_doc (name ++ ".spec") m' (init m prefix fl)) in *.
  destruct (feed_events_received gen s1 s Hfeed) as [_ Hsame].
  destruct (Hsame Hgen Hnp) as (Sm & Sf & Ss & Sfh & Ssh).
  destruct (event_primary_ok e s s' Hb He)
    as (fname & line & fh & sh & Hf & Hl & Hfh & Hsh & ->).
  assert (Hws : written s = chunks_of (name ++ ".spec") m).
  { unfold written. rewrite Sf, Sm. apply (written_started start_doc _ m' (init m prefix fl) Hm). }
  unfold scan_header_due in Hsh. rewrite Ssh in Hsh. cbn in Hsh.
  destruct Hsh as (scan_header & Hh & ->).
  unfold file_header_due in Hfh. rewrite Sfh, Sm, Ss in Hfh.
  rewrite Ss in Hh, Hl.
  exists scan_header, line.
  split; [exact Hh|]. split; [exact Hl|]. split; [reflexivity|]. split; [reflexivity|].
  split.
  { intros later s'' Wl Fl. now apply (feed_no_file_header later _ s'' Fl Wl). }
  rewrite written_event_done by exact Hf. rewrite Hws.
  change (_has_not_written_file_header s1)
    with (negb (truthy (VInt (tell (name ++ ".spec") m')))) in Hfh.
  change (_start s1) with start_doc in Hfh.
  change (_manager s1) with m' in Hfh.
  cbn [truthy] in Hfh. rewrite Bool.negb_involutive in Hfh.
  destruct (tell (name ++ ".spec") m' =? 0).
  - destruct Hfh as (filepath & header & Ha & Hfhd & ->).
    destruct (to_spec_file_header_ok _ _ _ _ Hfhd)
      as (unix_time & dt & owner & sources & names & _ & _ & _ & ->).
    exists filepath, unix_time, dt, owner, sources, names. auto.
  - subst fh. reflexivity.
Qed.

(** ** A second primary descriptor *)

Lemma getitem_truthy (v : value) (k : string) (x : value) :
  v.[k] = Ok x -> truthy v = true.
Proof.
  destruct v; simpl; try discriminate.
  destruct d; simpl; [discriminate|reflexivity].
Qed.



Lemma event_primary_uid (doc : value) (s s' : Serializer) :
  is_baseline_event doc s = (s, Ok false) ->
  event doc s = (s', Ok tt) ->
  truthy (_primary_descriptor s) = true.
Proof.
  intros Hb. rewrite event_steps, Hb.
  unfold bind at 1.
  destruct (file_header_step s) as [s1 [[]|e]] eqn:E1; [|discriminate].
  unfold bind at 1.
  destruct (scan_header_step s1) as [s2 [[]|e]] eqn:E2; [|discriminate].
  intros E3.
  apply data_line_step_ok in E3.
  destruct E3 as (d & uid & line & name & _ & Hu & _).
  apply getitem_truthy in Hu.
  apply file_header_step_ok in E1. apply scan_header_step_ok in E2.
  destruct E1 as [[_ ->]|(_ & ? & ? & ? & _ & _ & _ & ->)];
    destruct E2 as [[_ ->]|(_ & ? & ? & _ & _ & ->)]; exact Hu.
Qed.



(** ** Sorting *)

Section Sorting.

Variable A : Type.
Variable le : A -> A -> bool.
Hypothesis le_total : forall a b, le a b = true \/ le b a = true.

Let R (a b : A) : Prop := le a b = true.

Lemma insert_sorted_perm (x : A) (l : list A) :
  Permutation (insert_sorted le x l) (x :: l).
Proof.
  induction l as [|y l IH]; simpl.
  - apply Permutation_refl.
  - destruct (le x y).
    + apply Permutation_refl.
    + apply perm_trans with (y :: x :: l).
      * now apply perm_skip.
      * apply perm_swap.
Qed.

Lemma sort_by_perm (l : list A) : Permutation (sort_by le l) l.
Proof.
  induction l as [|x l IH]; simpl.
  - apply perm_nil.
  - apply perm_trans with (x :: sort_by le l).
    + apply insert_sorted_perm.
    + now apply perm_skip.
Qed.

Lemma insert_sorted_hd (x a : A) (l : list A) :
  R a x -> HdRel R a l -> HdRel R a (insert_sorted le x l).
Proof.
  intros Hax Hl. destruct l as [|y l]; simpl.
  - now constructor.
  - destruct (le x y); constructor; [assumption|now inversion Hl].
Qed.

Lemma insert_sorted_sorted (x : A) (l : list A) :
  Sorted R l -> Sorted R (insert_sorted le x l).
Proof.
  induction l as [|y l IH]; simpl; intros Hs.
  - repeat constructor.
  - destruct (le x y) eqn:E.
    + constructor; [assumption|now constructor].
    + inversion Hs; subst. constructor; [now apply IH|].
      apply insert_sorted_hd; [|assumption].
      destruct (le_total x y) as [H|H]; [congruence|exact H].
Qed.

Lemma sort_by_sorted (l : list A) : Sorted R (sort_by le l).
Proof.
  induction l as [|x l IH]; simpl.
  - constructor.
  - now apply insert_sorted_sorted.
Qed.

End Sorting.

(** ** The column selector *)

Lemma rfilter_ok {A} (f : A -> result bool) (l r : list A) :
  rfilter f l = Ok r ->
  (forall x, In x r <-> In x l /\ f x = Ok true)
  /\ (forall x, In x l -> exists b, f x = Ok b)
  /\ (forall g : A -> string, NoDup (map g l) -> NoDup (map g r)).
Proof.
  revert r. induction l as [|a l IH]; simpl; intros r H.
  - inversion H; subst. split; [|split].
    + intros x. simpl. tauto.
    + intros x [].
    + intros g _. constructor.
  - destruct (f a) as [b|] eqn:Ea; [cbn [rbind] in H|discriminate H].
    destruct (rfilter f l) as [r'|] eqn:Er; [cbn [rbind] in H|discriminate H].
    inversion H; subst; clear H.
    destruct (IH r' eq_refl) as (I1 & I2 & I3).
    split; [|split].
    + intros x. destruct b; simpl; rewrite I1.
      * split; [intros [->|[? ?]]; auto|intros [[->|?] ?]; auto].
      * split; [intros [? ?]; auto|intros [[->|?] ?]; [congruence|auto]].
    + intros x [->|Hx]; [eauto|auto].
    + intros g Hnd. inversion Hnd as [|? ? Hnot Hnd']; subst.
      destruct b; [|auto]. simpl. constructor; [|auto].
      intros Hin. apply Hnot. apply in_map_iff in Hin.
      destruct Hin as (y & Hy & Hin). apply in_map_iff.
      exists y. split; [assumption|]. now apply I1 in Hin.
Qed.

Lemma lookup_in (k : string) (v : value) (d : dict) :
  dict_wf d -> (In (k, v) d <-> lookup k d = Some v).
Proof.
  unfold dict_wf, keys. induction d as [|[k' v'] d IH]; simpl; intros Hnd.
  - split; [intros []|discriminate].
  - inversion Hnd as [|? ? Hnot Hnd']; subst.
    destruct (String.eqb k k') eqn:E.
    + apply String.eqb_eq in E. subst k'. split.
      * intros [H|H]; [congruence|].
        exfalso. apply Hnot. apply in_map_iff. now exists (k, v).
      * intros H. left. congruence.
    + apply String.eqb_neq in E. rewrite <- (IH Hnd'). split.
      * intros [H|H]; [congruence|exact H].
      * auto.
Qed.

Lemma is_read_field_true (motor_name : value) (kv : string * value) :
  is_read_field motor_name kv = Ok true <-> read_field motor_name (snd kv).
Proof.
  unfold is_read_field, read_field. split.
  - intros H.
    destruct ((snd kv).["object_name"]) as [o|] eqn:Eo; [cbn [rbind] in H|discriminate H].
    destruct (py_eq o motor_name) eqn:Ee; cbn [negb] in H; [discriminate H|].
    destruct ((snd kv).["shape"]) as [sh|] eqn:Es; [cbn [rbind] in H|discriminate H].
    exists o, sh. repeat split; try assumption.
    inversion H. now destruct (truthy sh).
  - intros (o & sh & Eo & Ee & Es & Et).
    rewrite Eo. cbn [rbind]. rewrite Ee. cbn [negb]. rewrite Es. cbn [rbind].
    now rewrite Et.
Qed.

Lemma keeps_bind {A B} (c : M A) (k : A -> M B) :
  keeps c -> (forall a, keeps (k a)) -> keeps (bind c k).
Proof.
  intros Hc Hk s. unfold bind. specialize (Hc s).
  destruct (c s) as [s1 [a|e]]; simpl in Hc.
  - destruct (Hk a s1) as [K1 K2]. destruct Hc as [C1 C2]. split; congruence.
  - exact Hc.
Qed.

Lemma keeps_pure {A} (r : result A) : keeps (lift r).
Proof. intros s. split; reflexivity. Qed.

Lemma keeps_gets {A} (f : Serializer -> A) : keeps (gets f).
Proof. intros s. split; reflexivity. Qed.

Lemma keeps_write (st : site) (text : string) : keeps (write st text).
Proof.
  intros s. unfold write, bind, gets, raise, modify.
  destruct (_file s); split; reflexivity.
Qed.

Lemma keeps_flush : keeps flush.
Proof.
  intros s. unfold flush, bind, gets, raise, ret.
  destruct (_file s); split; reflexivity.
Qed.

Lemma keeps_modify (f : Serializer -> Serializer) :
  (forall s, _start (f s) = _start s /\ _primary_descriptor (f s) = _primary_descriptor s) ->
  keeps (modify f).
Proof. intros H s. apply H. Qed.

Lemma keeps_when (b : bool) (c : M unit) : keeps c -> keeps (when b c).
Proof. intros H. destruct b; [exact H|intros s; split; reflexivity]. Qed.

Lemma keeps_event (doc : value) : keeps (event doc).
Proof.
  unfold event.
  apply keeps_bind.
  { unfold is_baseline_event. apply keeps_bind; [apply keeps_gets|intros bd].
    destruct (truthy bd); [|apply (keeps_pure (Ok false))].
    apply keeps_bind; [apply keeps_pure|intros d].
    apply keeps_bind; [apply keeps_pure|intros u]. apply (keeps_pure (Ok _)). }
  intros [|].
  - apply keeps_bind; [apply keeps_gets|intros n].
    apply keeps_bind; [apply keeps_modify; intros s; split; reflexivity|intros _].
    apply keeps_modify. intros s; split; reflexivity.
  - apply keeps_bind; [apply keeps_gets|intros nf].
    apply keeps_bind.
    { apply keeps_when. apply keeps_bind; [|intros _; apply keeps_modify; intros s; split; reflexivity].
      unfold _write_new_header. apply keeps_bind; [apply keeps_gets|intros m].
      destruct (artifacts m) as [|fp [|]]; try (apply (keeps_pure (Raise _))).
      apply keeps_bind; [apply keeps_gets|intros st].
      apply keeps_bind; [apply keeps_gets|intros bd].
      apply keeps_bind; [apply keeps_pure|intros h]. apply keeps_write. }
    intros _. apply keeps_bind; [apply keeps_gets|intros ns].
    apply keeps_bind.
    { apply keeps_when.
      apply keeps_bind; [apply keeps_gets|intros st].
      apply keeps_bind; [apply keeps_gets|intros pd].
      apply keeps_bind; [apply keeps_gets|intros be].
      apply keeps_bind; [apply keeps_pure|intros h].
      apply keeps_bind; [apply keeps_write|intros _].
      apply keeps_modify. intros s; split; reflexivity. }
    intros _. apply keeps_bind; [apply keeps_pure|intros d].
    apply keeps_bind; [apply keeps_gets|intros pd].
    apply keeps_bind; [apply keeps_pure|intros u].
    destruct (negb _); [apply (keeps_pure (Raise _))|].
    apply keeps_bind; [apply keeps_gets|intros n].
    apply keeps_bind; [apply keeps_modify; intros s; split; reflexivity|intros _].
    apply keeps_bind; [apply keeps_gets|intros st].
    apply keeps_bind; [apply keeps_pure|intros l].
    apply keeps_bind; [apply keeps_write|intros _].
    apply keeps_bind; [apply keeps_gets|intros fl].
    apply keeps_when. apply keeps_flush.
Qed.

Lemma keeps_events (events : list value) : keeps (feed (map (pair KEvent) events)).
Proof.
  induction events as [|e events IH]; cbn [map feed call].
  - intros s. split; reflexivity.
  - apply keeps_bind; [apply keeps_event|intros _; exact IH].
Qed.

(** The scanning variable, from the start document: [seq_num] for every
    plan but [scan] and [rel_scan]; for these two, the one motor the
    document declares. *)
Lemma get_motor_name_of_start (start motor_name : value) :
  _get_motor_name start = Ok motor_name ->
  (forall p, start.["plan_name"] = Ok (VStr p) -> p <> "scan" -> p <> "rel_scan" ->
             motor_name = VStr "seq_num")
  /\ (scans_a_motor start ->
      forall motors, start.["motors"] = Ok (VList motors) -> motors = [motor_name]).
Proof.
  intros H. split.
  - intros p Hp H1 H2. unfold _get_motor_name, _get_plan_name in H. rewrite Hp in H.
    cbn [rbind get_name] in H.
    cbn [_BLUESKY_PLAN_NAMES _SPEC_SCAN_NAMES _SCANS_WITHOUT_MOTORS
           _SCANS_WITH_MOTORS map app fst snd assoc] in H.
    destruct (String.eqb p "count") eqn:E1; [cbn in H; congruence|].
    destruct (String.eqb p "scan") eqn:E2; [apply String.eqb_eq in E2; contradiction|].
    destruct (String.eqb p "rel_scan") eqn:E3; [apply String.eqb_eq in E3; contradiction|].
    cbn in H. congruence.
  - intros Hplan motors Hm.
    destruct (scans_a_motor_plan_name start Hplan) as (p & Hp & Hc).
    unfold _get_motor_name in H. rewrite Hp in H. cbn [rbind] in H.
    rewrite Hc, Hm in H. cbn [rbind py_len] in H.
    destruct motors as [|m [|m' motors]].
    + discriminate H.
    + cbn in H. congruence.
    + exfalso. destruct (1 <? Z.of_nat (List.length (m :: m' :: motors))) eqn:E;
        [discriminate H|]. apply Z.ltb_ge in E. cbn [List.length] in E. lia.
Qed.

(** C6: the columns are the fields of the primary descriptor whose object is
    not the scanning variable and whose shape is empty, each once, in the
    order of their names; the scanning variable is [seq_num] for a plan
    that scans no motor and the motor the start document declares for one
    that does; and events, however many and whatever they do, leave the
    start document and the primary descriptor, hence the columns, as they
    were. *)
Theorem scan_data_column_names_spec (start primary_descriptor : value)
    (data_keys : dict) (cols : list string) :
  primary_descriptor.["data_keys"] = Ok (VDict data_keys) ->
  dict_wf data_keys ->
  _get_scan_data_column_names start primary_descriptor = Ok cols ->
  exists motor_name,
    _get_motor_name start = Ok motor_name
    /\ (forall p, start.["plan_name"] = Ok (VStr p) -> p <> "scan" -> p <> "rel_scan" ->
                  motor_name = VStr "seq_num")
    /\ (scans_a_motor start ->
        forall motors, start.["motors"] = Ok (VList motors) -> motors = [motor_name])
    /\ Sorted string_le cols
    /\ NoDup cols
    /\ (forall k, In k cols <->
                  exists v, lookup k data_keys = Some v /\ read_field motor_name v)
    /\ (forall (events : list value) (s : Serializer),
          let s' := fst (feed (map (pair KEvent) events) s) in
          _get_scan_data_column_names (_start s') (_primary_descriptor s')
          = _get_scan_data_column_names (_start s) (_primary_descriptor s)).
Proof.
  intros Hdk Hwf H. unfold _get_scan_data_column_names in H.
  destruct (_get_motor_name start) as [motor_name|] eqn:Em; [cbn [rbind] in H|discriminate H].
  rewrite Hdk in H. cbn [rbind dict_items] in H.
  destruct (rfilter (is_read_field motor_name) data_keys) as [read|] eqn:Er;
    [cbn [rbind] in H|discriminate H].
  inversion H; subst cols; clear H.
  destruct (rfilter_ok _ _ _ Er) as (I1 & _ & I3).
  pose proof (sort_by_perm _ String.leb (keys read)) as Hperm.
  destruct (get_motor_name_of_start start motor_name Em) as [Hseq Hmot].
  exists motor_name. split; [reflexivity|]. split; [exact Hseq|]. split; [exact Hmot|].
  split; [|split; [|split]].
  - apply sort_by_sorted. apply String.leb_total.
  - apply (Permutation_NoDup (Permutation_sym Hperm)). apply I3. exact Hwf.
  - intros k. unfold sorted. split.
    + intros Hin. apply (Permutation_in _ Hperm) in Hin.
      apply in_map_iff in Hin. destruct Hin as ([k' v] & Hk & Hin). simpl in Hk. subst k'.
      apply I1 in Hin. destruct Hin as [Hin Hf].
      exists v. split; [now apply lookup_in|].
      now apply (is_read_field_true motor_name (k, v)).
    + intros (v & Hl & Hf).
      apply (Permutation_in _ (Permutation_sym Hperm)).
      apply in_map_iff. exists (k, v). split; [reflexivity|].
      apply I1. split; [now apply lookup_in|].
      now apply (is_read_field_true motor_name (k, v)).
  - intros events s. destruct (keeps_events events s) as [K1 K2].
    cbv zeta. now rewrite K1, K2.
Qed.

(** ** The time codec: reading back what was written *)

Ltac divmod := Z.div_mod_to_equations; lia.

Lemma digit_val_char (k : Z) : 0 <= k <= 9 -> digit_val (digit_char k) = Some k.
Proof.
  intros H.
  assert (C : k = 0 \/ k = 1 \/ k = 2 \/ k = 3 \/ k = 4 \/ k = 5 \/ k = 6 \/ k = 7
              \/ k = 8 \/ k = 9) by lia.
  repeat destruct C as [C|C]; subst k; reflexivity.
Qed.

Lemma is_space_digit_char (k : Z) : 0 <= k <= 9 -> is_space (digit_char k) = false.
Proof.
  intros H.
  assert (C : k = 0 \/ k = 1 \/ k = 2 \/ k = 3 \/ k = 4 \/ k = 5 \/ k = 6 \/ k = 7
              \/ k = 8 \/ k = 9) by lia.
  repeat destruct C as [C|C]; subst k; reflexivity.
Qed.

Lemma match_two_digits (c1 c2 : Z * Z) (n : Z) (rest : string) :
  0 <= n < 100 ->
  match_digits [c1; c2] 0 (two_digits n ++ rest)
  = if in_class c1 (n / 10) && in_class c2 (n mod 10) then Some (n, rest) else None.
Proof.
  intros H. destruct c1 as [lo1 hi1], c2 as [lo2 hi2]. unfold in_class, two_digits.
  cbn [match_digits String.append fst snd].
  rewrite !digit_val_char by divmod.
  destruct ((lo1 <=? n / 10) && (n / 10 <=? hi1)); [|reflexivity].
  cbn [andb].
  destruct ((lo2 <=? n mod 10) && (n mod 10 <=? hi2)); [|reflexivity].
  f_equal. f_equal. divmod.
Qed.

Lemma two_digits_space (n : Z) (rest : string) :
  0 <= n < 100 ->
  exists c r, two_digits n ++ rest = String c r /\ is_space c = false.
Proof.
  intros H. unfold two_digits. cbn [String.append].
  eexists _, _. split; [reflexivity|]. apply is_space_digit_char. divmod.
Qed.

Lemma read_space (acc : parsed) (c : ascii) (r : string) :
  is_space c = false ->
  strptime1 (Lit " ") acc (String " " (String c r)) = Some (acc, String c r).
Proof.
  intros H. destruct acc. cbn [strptime1].
  change (is_space " ") with true. cbn [skip_spaces]. now rewrite H.
Qed.

Lemma space_then (p : directive) (fmt : list directive) (acc : parsed) (c : ascii)
    (r : string) :
  is_space c = false ->
  strptime_loop (Lit " " :: p :: fmt) acc (String " " (String c r))
  = strptime_loop (p :: fmt) acc (String c r).
Proof.
  intros H.
  change (strptime_loop (Lit " " :: p :: fmt) acc (String " " (String c r)))
    with (match strptime1 (Lit " ") acc (String " " (String c r)) with
          | Some (acc', s') => strptime_loop (p :: fmt) acc' s'
          | None => None
          end).
  now rewrite read_space.
Qed.

Lemma read_weekday (fmt : list directive) (acc : parsed) (i : nat) (rest : string) :
  (i < 7)%nat ->
  strptime_loop (Pa :: fmt) acc (nth i DAY_ABBR "" ++ rest) = strptime_loop fmt acc rest.
Proof.
  intros H. destruct acc.
  do 7 (destruct i as [|i]; [reflexivity|]). lia.
Qed.

Lemma read_month (fmt : list directive) (y mo d h mi s : Z) (i : nat) (rest : string) :
  (i < 12)%nat ->
  strptime_loop (Lit " " :: Pb :: fmt) (mk_parsed y mo d h mi s)
    (String " " (nth i MONTH_ABBR "" ++ rest))
  = strptime_loop fmt (mk_parsed y (1 + Z.of_nat i) d h mi s) rest.
Proof.
  intros H.
  do 12 (destruct i as [|i]; [reflexivity|]). lia.
Qed.

Lemma read_day (fmt : list directive) (y mo d h mi s n : Z) (rest : string) :
  1 <= n <= 31 ->
  strptime_loop (Lit " " :: Pd :: fmt) (mk_parsed y mo d h mi s)
    (String " " (two_digits n ++ rest))
  = strptime_loop fmt (mk_parsed y mo n h mi s) rest.
Proof.
  intros H. destruct (two_digits_space n rest) as (c & r & E & Hc); [lia|].
  rewrite E, space_then by exact Hc. rewrite <- E.
  cbn [strptime_loop strptime1 first_match].
  rewrite !match_two_digits by lia. unfold in_class. cbn [fst snd].
  destruct ((3 <=? n / 10) && (n / 10 <=? 3) && ((0 <=? n mod 10) && (n mod 10 <=? 1)))
    eqn:E1; [reflexivity|].
  destruct ((1 <=? n / 10) && (n / 10 <=? 2) && ((0 <=? n mod 10) && (n mod 10 <=? 9)))
    eqn:E2; [reflexivity|].
  destruct ((0 <=? n / 10) && (n / 10 <=? 0) && ((1 <=? n mod 10) && (n mod 10 <=? 9)))
    eqn:E3; [reflexivity|].
  exfalso.
  rewrite !Bool.andb_false_iff, !Z.leb_gt in E1, E2, E3. divmod.
Qed.

Lemma read_hour (fmt : list directive) (y mo d h mi s n : Z) (rest : string) :
  0 <= n <= 23 ->
  strptime_loop (Lit " " :: PH :: fmt) (mk_parsed y mo d h mi s)
    (String " " (two_digits n ++ rest))
  = strptime_loop fmt (mk_parsed y mo d n mi s) rest.
Proof.
  intros H. destruct (two_digits_space n rest) as (c & r & E & Hc); [lia|].
  rewrite E, space_then by exact Hc. rewrite <- E.
  cbn [strptime_loop strptime1 first_match].
  rewrite !match_two_digits by lia. unfold in_class. cbn [fst snd].
  destruct ((2 <=? n / 10) && (n / 10 <=? 2) && ((0 <=? n mod 10) && (n mod 10 <=? 3)))
    eqn:E1; [reflexivity|].
  destruct ((0 <=? n / 10) && (n / 10 <=? 1) && ((0 <=? n mod 10) && (n mod 10 <=? 9)))
    eqn:E2; [reflexivity|].
  exfalso.
  rewrite !Bool.andb_false_iff, !Z.leb_gt in E1, E2. divmod.
Qed.

Lemma read_colon (p : directive) (fmt : list directive) (acc : parsed) (rest : string) :
  strptime_loop (Lit ":" :: p :: fmt) acc (String ":" rest)
  = strptime_loop (p :: fmt) acc rest.
Proof. destruct acc. reflexivity. Qed.

Lemma read_minute (fmt : list directive) (y mo d h mi s n : Z) (rest : string) :
  0 <= n <= 59 ->
  strptime_loop (Lit ":" :: PM :: fmt) (mk_parsed y mo d h mi s)
    (String ":" (two_digits n ++ rest))
  = strptime_loop fmt (mk_parsed y mo d h n s) rest.
Proof.
  intros H. rewrite read_colon.
  cbn [strptime_loop strptime1 first_match].
  rewrite !match_two_digits by lia. unfold in_class. cbn [fst snd].
  destruct ((0 <=? n / 10) && (n / 10 <=? 5) && ((0 <=? n mod 10) && (n mod 10 <=? 9)))
    eqn:E1; [reflexivity|].
  exfalso.
  rewrite !Bool.andb_false_iff, !Z.leb_gt in E1. divmod.
Qed.

Lemma read_second (fmt : list directive) (y mo d h mi s n : Z) (rest : string) :
  0 <= n <= 59 ->
  strptime_loop (Lit ":" :: PS :: fmt) (mk_parsed y mo d h mi s)
    (String ":" (two_digits n ++ rest))
  = strptime_loop fmt (mk_parsed y mo d h mi n) rest.
Proof.
  intros H. rewrite read_colon.
  cbn [strptime_loop strptime1 first_match].
  rewrite !match_two_digits by lia. unfold in_class. cbn [fst snd].
  destruct ((6 <=? n / 10) && (n / 10 <=? 6) && ((0 <=? n mod 10) && (n mod 10 <=? 1)))
    eqn:E0.
  { exfalso. rewrite !Bool.andb_true_iff, !Z.leb_le in E0. divmod. }
  destruct ((0 <=? n / 10) && (n / 10 <=? 5) && ((0 <=? n mod 10) && (n mod 10 <=? 9)))
    eqn:E1; [reflexivity|].
  exfalso.
  rewrite !Bool.andb_false_iff, !Z.leb_gt in E1. divmod.
Qed.

Lemma read_year (y mo d h mi s n : Z) :
  0 <= n <= 9999 ->
  strptime_loop [Lit " "; PY] (mk_parsed y mo d h mi s) (String " " (four_digits n))
  = Some (mk_parsed n mo d h mi s).
Proof.
  intros H. unfold four_digits.
  rewrite space_then by (apply is_space_digit_char; divmod).
  unfold two_digits. cbn [strptime_loop strptime1 match_digits].
  rewrite !digit_val_char by divmod.
  assert (B : forall k, 0 <= k <= 9 -> (0 <=? k) && (k <=? 9) = true).
  { intros k Hk. apply Bool.andb_true_iff. split; apply Z.leb_le; lia. }
  rewrite !B by divmod.
  do 2 f_equal. divmod.
Qed.

Lemma year_text_four_digits (padded : bool) (y : Z) :
  padded = true \/ 1000 <= y -> 1 <= y <= 9999 -> year_text padded y = four_digits y.
Proof.
  intros Hy By. unfold year_text. destruct padded; [reflexivity|].
  destruct Hy as [Hy|Hy]; [discriminate|].
  unfold four_digits.
  assert (C : y / 1000 = 1 \/ y / 1000 = 2 \/ y / 1000 = 3 \/ y / 1000 = 4
              \/ y / 1000 = 5 \/ y / 1000 = 6 \/ y / 1000 = 7 \/ y / 1000 = 8
              \/ y / 1000 = 9) by divmod.
  repeat destruct C as [C|C]; rewrite C; reflexivity.
Qed.

(** The fields [check_fields] accepts. *)
Lemma check_fields_bounds (d : datetime) :
  check_fields d = true ->
  1 <= year d <= 9999 /\ 1 <= month d <= 12
  /\ 1 <= day d <= days_in_month (year d) (month d)
  /\ 0 <= hour d <= 23 /\ 0 <= minute d <= 59 /\ 0 <= second d <= 59.
Proof.
  unfold check_fields. rewrite !Bool.andb_true_iff, !Z.leb_le. tauto.
Qed.

Lemma days_in_month_le (y m : Z) : 1 <= m <= 12 -> days_in_month y m <= 31.
Proof.
  intros H. unfold days_in_month, days_in_month_of.
  destruct ((m =? 2) && is_leap y); [lia|].
  assert (C : m = 1 \/ m = 2 \/ m = 3 \/ m = 4 \/ m = 5 \/ m = 6 \/ m = 7 \/ m = 8
              \/ m = 9 \/ m = 10 \/ m = 11 \/ m = 12) by lia.
  repeat destruct C as [C|C]; subst m; simpl; lia.
Qed.

(** A whole-second [datetime], written and read back, is itself again,
    provided its year is written with four digits. *)
Lemma from_spec_time_to_spec_time (d : datetime) :
  check_fields d = true ->
  microsecond d = 0 ->
  pads_year pf = true \/ 1000 <= year d ->
  from_spec_time (to_spec_time d) = Ok d.
Proof.
  intros Hc Hus Hy.
  destruct (check_fields_bounds d Hc) as (By & Bm & Bd & Bh & Bmi & Bs).
  pose proof (days_in_month_le (year d) (month d) Bm) as Bd'.
  unfold from_spec_time, to_spec_time, strptime, strftime, SPEC_TIME_FORMAT, parsed0.
  cbn [map strftime1 String.concat String.append].
  rewrite (year_text_four_digits (pads_year pf) (year d) Hy By).
  rewrite read_weekday
    by (pose proof (Z.mod_pos_bound (ymd2ord (year d) (month d) (day d) + 6) 7);
        unfold weekday; lia).
  rewrite read_month by lia.
  rewrite read_day by lia.
  rewrite read_hour by lia.
  rewrite read_minute by lia.
  rewrite read_second by lia.
  rewrite read_year by lia.
  replace (1 + Z.of_nat (Z.to_nat (month d - 1))) with (month d) by lia.
  unfold new_datetime. destruct d as [y mo dd h mi s us]. cbn in Hus. subst us.
  cbn [year month day hour minute second microsecond] in *. now rewrite Hc.
Qed.

Lemma fromtimestamp_ok (v : value) (d : datetime) :
  fromtimestamp v = Ok d ->
  check_fields d = true
  /\ exists t us, timestamp_parts v = Ok (t, us) /\ microsecond d = us.
Proof.
  unfold fromtimestamp. intros H.
  destruct (timestamp_parts v) as [[t us]|] eqn:Et; [cbn [rbind] in H|discriminate H].
  destruct (negb _); [discriminate H|].
  destruct (localtime t) as [[[[[[y mo] dd] h] mi] s]|]; [cbn [rbind] in H|discriminate H].
  rinv H. unfold new_datetime in H.
  destruct (check_fields _) eqn:Ec; [|discriminate H].
  inversion H; subst d; clear H.
  split; [exact Ec|]. exists t, us. split; reflexivity.
Qed.

(** C5, as the code has it: the text written for the local time of an epoch
    second [t] reads back as that same [datetime], when the year is written
    with four digits: always for a year from 1000 on, and for an earlier one
    only where [strftime] pads it. *)
Theorem time_codec_round_trip (t : Z) (d : datetime) :
  fromtimestamp (VInt t) = Ok d ->
  pads_year pf = true \/ 1000 <= year d ->
  from_spec_time (to_spec_time d) = Ok d.
Proof.
  intros Hd Hy. apply fromtimestamp_ok in Hd.
  destruct Hd as (Hc & t' & us & Hp & Hus). cbn in Hp. inversion Hp; subst.
  now apply from_spec_time_to_spec_time.
Qed.

(** ** Running an event of the primary stream *)

Lemma file_header_step_run (s : Serializer) (name : string) (fh : list chunk) :
  _file s = Some name ->
  file_header_due s fh ->
  file_header_step s
  = (set_has_not_written_file_header false (add_chunks name fh s), Ok tt).
Proof.
  intros Hf Hfh. unfold file_header_due in Hfh.
  unfold file_header_step, _write_new_header. unfold bind at 1. unfold gets at 1.
  destruct s as [pre fl m f st bd be pd nsh nfh np nb].
  cbn [_file _has_not_written_file_header _manager _start _baseline_descriptor] in *.
  subst f. destruct nfh; cbn [when].
  - destruct Hfh as (filepath & header & Ha & Hh & ->).
    unfold bind, gets, lift, modify, write, raise.
    cbn [_manager _start _baseline_descriptor _file].
    rewrite Ha. cbn [_manager _start _baseline_descriptor _file]. rewrite Hh.
    destruct m. reflexivity.
  - subst fh. destruct m. reflexivity.
Qed.

Lemma scan_header_step_run (s : Serializer) (name : string) (sh : list chunk) :
  _file s = Some name ->
  scan_header_due s sh ->
  scan_header_step s
  = (set_has_not_written_scan_header false (add_chunks name sh s), Ok tt).
Proof.
  intros Hf Hsh. unfold scan_header_due in Hsh.
  unfold scan_header_step. unfold bind at 1. unfold gets at 1.
  destruct s as [pre fl m f st bd be pd nsh nfh np nb].
  cbn [_file _has_not_written_scan_header _manager _start _primary_descriptor
       _baseline_event] in *.
  subst f. destruct nsh; cbn [when].
  - destruct Hsh as (header & Hh & ->).
    unfold bind, gets, lift, modify, write, raise.
    cbn [_manager _start _primary_descriptor _baseline_event _file].
    rewrite Hh. destruct m. reflexivity.
  - subst sh. destruct m. reflexivity.
Qed.

Lemma data_line_step_run (doc : value) (s : Serializer) (name line : string)
    (d uid : value) :
  _file s = Some name ->
  doc.["descriptor"] = Ok d ->
  (_primary_descriptor s).["uid"] = Ok uid ->
  py_eq d uid = true ->
  to_spec_scan_data (_start s) (_primary_descriptor s) doc = Ok line ->
  data_line_step doc s
  = (add_chunks name [(DataLine, (line ++ nl)%string)]
       (set_num_events_received (_num_events_received s + 1) s), Ok tt).
Proof.
  intros Hf Hd Hu He Hl.
  unfold data_line_step. unfold bind at 1. unfold lift at 1. rewrite Hd.
  unfold bind at 1 2. unfold gets at 1. unfold lift at 1. rewrite Hu, He. cbn [negb].
  unfold bind at 1 2 3 4, gets at 1 2, modify, lift.
  cbn [_start set_num_events_received]. rewrite Hl.
  unfold bind at 1. rewrite (write_open _ _ name) by exact Hf.
  unfold when, flush. unfold bind, gets, ret.
  destruct s as [pre fl m f st bd be pd nsh nfh np nb]. cbn in Hf. subst f.
  destruct fl; reflexivity.
Qed.

Lemma event_primary_run (doc : value) (s : Serializer) (name line : string)
    (fh sh : list chunk) (d uid : value) :
  is_baseline_event doc s = (s, Ok false) ->
  _file s = Some name ->
  file_header_due s fh ->
  scan_header_due s sh ->
  doc.["descriptor"] = Ok d ->
  (_primary_descriptor s).["uid"] = Ok uid ->
  py_eq d uid = true ->
  to_spec_scan_data (_start s) (_primary_descriptor s) doc = Ok line ->
  event doc s
  = (event_done name (fh ++ sh ++ [(DataLine, (line ++ nl)%string)])%list s, Ok tt).
Proof.
  intros Hb Hf Hfh Hsh Hd Hu He Hl. rewrite event_steps, Hb.
  unfold bind at 1. rewrite (file_header_step_run s name fh Hf Hfh).
  unfold bind at 1. rewrite (scan_header_step_run _ name sh) by assumption.
  rewrite (data_line_step_run doc _ name line d uid) by assumption.
  f_equal. unfold event_done, add_chunks.
  destruct s as [pre fl m f st bd be pd nsh nfh np nb]. cbn.
  now rewrite !fold_left_app.
Qed.

(** ** The count run, end to end *)

Section CountRun.

Variables (uid descriptor_uid : string) (d : datetime).
Hypothesis Hd : fromtimestamp (VInt 1000000000) = Ok d.

Lemma count_file_header (filepath : string) :
  to_spec_file_header (start_count uid) filepath VNone
  = Ok (file_header_text (basename filepath) 1000000000 (to_spec_time d)
          (VStr "") [] []).
Proof.
  unfold to_spec_file_header.
  cbn -[fromtimestamp to_spec_time render _SPEC_FILE_HEADER_TEMPLATE basename].
  rewrite Hd. cbn [rbind].
  exact (render_file_header (basename filepath) 1000000000 (to_spec_time d)
           (VStr "") [] []).
Qed.

Lemma count_scan_header :
  to_spec_scan_header (start_count uid) (primary_det descriptor_uid) VNone
  = Ok (scan_header_text (VInt 7) "ct seq_num -1" (to_spec_time d) (VInt (-1)) []
          ["det"] (VStr "seq_num")).
Proof.
  unfold to_spec_scan_header, scan_header_md.
  cbn -[fromtimestamp to_spec_time render _SPEC_SCAN_HEADER_TEMPLATE].
  rewrite Hd. cbn [rbind].
  exact (render_scan_header (VInt 7) "ct seq_num -1" (to_spec_time d) (VInt (-1)) []
           ["det"] (VStr "seq_num")).
Qed.

Lemma count_data_line_0 :
  to_spec_scan_data (start_count uid) (primary_det descriptor_uid)
    (event_det descriptor_uid 0 float_1_5 1000000001)
  = Ok (nl ++ "0  1000000001 -1 1.5").
Proof. vm_compute. reflexivity. Qed.

Lemma count_data_line_1 :
  to_spec_scan_data (start_count uid) (primary_det descriptor_uid)
    (event_det descriptor_uid 1 float_2_5 1000000002)
  = Ok (nl ++ "1  1000000002 -1 2.5").
Proof. vm_compute. reflexivity. Qed.

Lemma is_absolute_spec : is_absolute uid = false -> is_absolute (uid ++ ".spec") = false.
Proof. destruct uid as [|c u]; [reflexivity|exact (fun H => H)]. Qed.

(** C1, as the code has it: the count run writes the file header, the scan
    header whose command is ["ct seq_num -1"] (the SPEC name of the plan),
    one chunk per event holding its data line between two newlines, and a
    trailer that is a single newline. *)
Theorem count_run_output :
  is_absolute uid = false ->
  exists s,
    feed (count_run uid descriptor_uid) fresh = (s, Ok tt)
    /\ _file s = Some (uid ++ ".spec")
    /\ written s
       = [(FileHeader,
           file_header_text (basename (uid ++ ".spec")) 1000000000 (to_spec_time d)
             (VStr "") [] []);
          (ScanHeader,
           scan_header_text (VInt 7) "ct seq_num -1" (to_spec_time d) (VInt (-1)) []
             ["det"] (VStr "seq_num"));
          (DataLine, nl ++ "0  1000000001 -1 1.5" ++ nl);
          (DataLine, nl ++ "1  1000000002 -1 2.5" ++ nl);
          (Trailer, nl)].
Proof.
  intros Hrel. apply is_absolute_spec in Hrel.
  set (name := uid ++ ".spec") in *.
  set (m' := mk_manager true [(name, [])] [name]).
  assert (Hopen : manager_open name (MultiFileManager []) = Ok m').
  { unfold manager_open. cbn [MultiFileManager allows_append negb artifacts existsb disk
                              find_file app].
    rewrite Hrel. reflexivity. }
  set (s1 := started (start_count uid) name m' fresh).
  set (s2 := set_primary_descriptor (primary_det descriptor_uid) s1).
  set (c1 := [(FileHeader,
               file_header_text (basename name) 1000000000 (to_spec_time d)
                 (VStr "") [] []);
              (ScanHeader,
               scan_header_text (VInt 7) "ct seq_num -1" (to_spec_time d) (VInt (-1)) []
                 ["det"] (VStr "seq_num"));
              (DataLine, nl ++ "0  1000000001 -1 1.5" ++ nl)]).
  set (s3 := event_done name c1 s2).
  set (c2 := [(DataLine, nl ++ "1  1000000002 -1 2.5" ++ nl)]).
  set (s4 := event_done name c2 s3).
  assert (Hflag : _has_not_written_file_header s2 = true).
  { cbn. unfold tell, file_text. cbn. now rewrite String.eqb_refl. }
  assert (E1 : event (event_det descriptor_uid 0 float_1_5 1000000001) s2 = (s3, Ok tt)).
  { apply (event_primary_run _ s2 name (nl ++ "0  1000000001 -1 1.5")
             [(FileHeader,
               file_header_text (basename name) 1000000000 (to_spec_time d)
                 (VStr "") [] [])]
             [(ScanHeader,
               scan_header_text (VInt 7) "ct seq_num -1" (to_spec_time d) (VInt (-1)) []
                 ["det"] (VStr "seq_num"))]
             (VStr descriptor_uid) (VStr descriptor_uid));
      [reflexivity|reflexivity| | |reflexivity|reflexivity|apply String.eqb_refl
      |apply count_data_line_0].
    - unfold file_header_due. rewrite Hflag.
      exists name, (file_header_text (basename name) 1000000000 (to_spec_time d)
                      (VStr "") [] []).
      split; [reflexivity|]. split; [apply count_file_header|reflexivity].
    - unfold scan_header_due. change (_has_not_written_scan_header s2) with true.
      cbv iota. eexists. split; [apply count_scan_header|reflexivity]. }
  assert (E2 : event (event_det descriptor_uid 1 float_2_5 1000000002) s3 = (s4, Ok tt)).
  { apply (event_primary_run _ s3 name (nl ++ "1  1000000002 -1 2.5") [] []
             (VStr descriptor_uid) (VStr descriptor_uid));
      [reflexivity|reflexivity|reflexivity|reflexivity|reflexivity|reflexivity
      |apply String.eqb_refl|apply count_data_line_1]. }
  exists (after_write name (Trailer, nl) s4).
  split; [|split; [reflexivity|]].
  - unfold count_run. cbn [feed call]. unfold bind at 1.
    rewrite (start_opens (start_count uid) fresh uid m' eq_refl Hopen).
    fold name. fold s1. unfold bind at 1.
    change (descriptor (primary_det descriptor_uid) s1) with (s2, Ok tt).
    cbv iota. unfold bind at 1. rewrite E1. unfold bind at 1. rewrite E2.
    unfold bind at 1. reflexivity.
  - rewrite written_after_write by reflexivity.
    unfold s4. rewrite written_event_done by reflexivity.
    unfold s3. rewrite written_event_done by reflexivity.
    assert (W : written s2 = []).
    { unfold written, chunks_of. cbn. now rewrite String.eqb_refl. }
    rewrite W. reflexivity.
Qed.

End CountRun.

(** * Further properties of the formatters and of the serializer *)

(** ** The names of the plans *)

(** [get_name] reads the table of the SPEC scan names backwards: the plan
    name a SPEC name stands for gives that SPEC name back, every other
    string (and every other hashable value) gives ["Other"], and a value
    that cannot be a key of a dict raises [TypeError]. *)
Theorem get_name_inverts_the_scan_names (v : value) :
  (forall s spec, v = VStr s -> assoc spec _SPEC_SCAN_NAMES = Some s ->
                  get_name v = Ok spec)
  /\ (forall s, v = VStr s -> (forall spec, assoc spec _SPEC_SCAN_NAMES <> Some s) ->
                get_name v = Ok "Other")
  /\ ((forall s, v <> VStr s) -> is_hashable v = true -> get_name v = Ok "Other")
  /\ (is_hashable v = false -> get_name v = Raise TypeError).
Proof.
  split; [|split; [|split]].
  - intros s spec -> H. cbn in H.
    destruct (String.eqb spec "ct") eqn:E1;
      [apply String.eqb_eq in E1; subst spec; inversion H; reflexivity|].
    destruct (String.eqb spec "ascan") eqn:E2;
      [apply String.eqb_eq in E2; subst spec; inversion H; reflexivity|].
    destruct (String.eqb spec "dscan") eqn:E3;
      [apply String.eqb_eq in E3; subst spec; inversion H; reflexivity|].
    discriminate H.
  - intros s -> H. unfold get_name. cbn.
    destruct (String.eqb s "count") eqn:E1.
    { apply String.eqb_eq in E1. subst s. now destruct (H "ct"). }
    destruct (String.eqb s "scan") eqn:E2.
    { apply String.eqb_eq in E2. subst s. now destruct (H "ascan"). }
    destruct (String.eqb s "rel_scan") eqn:E3.
    { apply String.eqb_eq in E3. subst s. now destruct (H "dscan"). }
    reflexivity.
  - intros H Hh. destruct v; try reflexivity; try discriminate Hh.
    now destruct (H s).
  - intros Hh. destruct v; try discriminate Hh; reflexivity.
Qed.

(** ** The first column of a data line *)

(** The position column: the sequence number of the event for every plan
    but [scan] and [rel_scan], whatever [motors] holds; for these two, with
    one motor, the reading of that motor in the event, except that a motor
    called [seq_num] gives the sequence number again. *)
Theorem motor_position_by_plan (start event : value) :
  (forall p, start.["plan_name"] = Ok (VStr p) -> p <> "scan" -> p <> "rel_scan" ->
             _get_motor_position start event = event.["seq_num"])
  /\ (forall m, scans_a_motor start -> start.["motors"] = Ok (VList [m]) ->
                _get_motor_position start event
                = if py_eq m (VStr "seq_num") then event.["seq_num"]
                  else (data <- event.["data"] ;; getitem data m)).
Proof.
  split.
  - intros p Hp H1 H2. unfold _get_motor_position, _get_plan_name. rewrite Hp.
    cbn [rbind get_name]. cbn [_BLUESKY_PLAN_NAMES _SPEC_SCAN_NAMES _SCANS_WITHOUT_MOTORS
                                _SCANS_WITH_MOTORS map app fst snd assoc].
    destruct (String.eqb p "count") eqn:E1; [reflexivity|].
    destruct (String.eqb p "scan") eqn:E2; [apply String.eqb_eq in E2; contradiction|].
    destruct (String.eqb p "rel_scan") eqn:E3; [apply String.eqb_eq in E3; contradiction|].
    reflexivity.
  - intros m Hplan Hm.
    destruct (scans_a_motor_plan_name start Hplan) as (p & Hp & Hc).
    unfold _get_motor_position, _get_motor_name. rewrite Hp. cbn [rbind].
    rewrite Hc, Hm. reflexivity.
Qed.

(** ** The columns of the scan header and of the data lines *)

Lemma render_data_line (motor_position : value) (unix_time : Z) (acq_time : value)
    (values : list value) :
  render _SPEC_EVENT_TEMPLATE
    [("unix_time", VInt unix_time);
     ("acq_time", acq_time);
     ("motor_position", motor_position);
     ("values", VList values)]
  = Ok (data_line_text motor_position unix_time acq_time values).
Proof.
  unfold render, data_line_text. cbn -[py_str str_of_Z]. reflexivity.
Qed.

Lemma rmap_Forall2 {A B} (f : A -> result B) (l : list A) (r : list B) :
  rmap f l = Ok r -> Forall2 (fun a b => f a = Ok b) l r.
Proof.
  revert r. induction l as [|a l IH]; simpl; intros r H.
  - inversion H. constructor.
  - destruct (f a) as [b|] eqn:Ea; [cbn [rbind] in H|discriminate H].
    destruct (rmap f l) as [r'|]; [cbn [rbind] in H|discriminate H].
    inversion H; subst. constructor; [exact Ea|now apply IH].
Qed.

(** What a data line that was rendered is made of. *)
Lemma to_spec_scan_data_ok (st pd ev : value) (line : string) :
  to_spec_scan_data st pd ev = Ok line ->
  exists unix_time acq_time position cols values,
    (t <- ev.["time"] ;; py_int t) = Ok unix_time
    /\ _get_acq_time st = Ok acq_time
    /\ _get_motor_position st ev = Ok position
    /\ _get_scan_data_column_names st pd = Ok cols
    /\ Forall2 (fun k v => reading ev k = Ok v) cols values
    /\ line = data_line_text position unix_time acq_time values.
Proof.
  unfold to_spec_scan_data. intros H. rinv H.
  rewrite render_data_line in H. inversion H; subst; clear H.
  exists a0, a1, a2, a3, a4. cbn [rbind].
  repeat split; try assumption.
  now apply rmap_Forall2.
Qed.

(** The scan header and every data line of the run have the same columns:
    the header announces three more than the names it lists after the motor
    and the two times, a data line holds the position, the time, the
    acquisition time and one reading of the event per name, in the order of
    the names; and both show the same acquisition time. *)
Theorem data_line_has_the_columns_of_the_header (st pd be ev : value)
    (header line : string) :
  to_spec_scan_header st pd be = Ok header ->
  to_spec_scan_data st pd ev = Ok line ->
  exists scan_id command readable_time acq_time positions cols motor
         position unix_time values,
    header = scan_header_text scan_id command readable_time acq_time positions cols motor
    /\ line = data_line_text position unix_time acq_time values
    /\ Forall2 (fun k v => reading ev k = Ok v) cols values
    /\ List.length values = List.length cols
    /\ _get_scan_data_column_names st pd = Ok cols.
Proof.
  intros Hh Hl.
  destruct (to_spec_scan_header_ok _ _ _ _ Hh)
    as (scan_id & plan & args & dt & acq & positions & cols & motor
        & _ & _ & _ & Hacq & _ & Hcols & _ & ->).
  destruct (to_spec_scan_data_ok _ _ _ _ Hl)
    as (unix_time & acq' & position & cols' & values & _ & Hacq' & _ & Hcols' & Hv & ->).
  assert (acq' = acq) by congruence. assert (cols' = cols) by congruence. subst acq' cols'.
  eexists scan_id, _, _, acq, positions, cols, motor, position, unix_time, values.
  repeat split; try assumption.
  symmetry. apply (Forall2_length Hv).
Qed.

(** ** The time codec beyond whole seconds *)

Lemma to_spec_time_replace_microsecond (d : datetime) (us : Z) :
  to_spec_time (replace_microsecond d us) = to_spec_time d.
Proof. reflexivity. Qed.

Lemma check_fields_replace_microsecond (d : datetime) :
  check_fields d = true -> check_fields (replace_microsecond d 0) = true.
Proof.
  unfold check_fields. cbn [replace_microsecond year month day hour minute second microsecond].
  rewrite !Bool.andb_true_iff. intros H. repeat split; try tauto.
Qed.

(** The text has a resolution of one second: a [datetime] the constructor
    accepts, written and read back, is itself with its microseconds cleared
    (when its year is written with four digits). *)
Theorem spec_time_drops_the_microseconds (d : datetime) :
  check_fields d = true ->
  pads_year pf = true \/ 1000 <= year d ->
  from_spec_time (to_spec_time d) = Ok (replace_microsecond d 0).
Proof.
  intros Hc Hy. rewrite <- (to_spec_time_replace_microsecond d 0).
  apply from_spec_time_to_spec_time.
  - now apply check_fields_replace_microsecond.
  - reflexivity.
  - exact Hy.
Qed.

Lemma strptime_ok (s : string) (fmt : list directive) (d : datetime) :
  strptime s fmt = Ok d -> check_fields d = true /\ microsecond d = 0.
Proof.
  unfold strptime. destruct (strptime_loop fmt parsed0 s) as [[y mo dd h mi se]|];
    [|discriminate].
  unfold new_datetime. destruct (check_fields _) eqn:Ec; [|discriminate].
  intros H. inversion H; subst d. split; [exact Ec|reflexivity].
Qed.

(** Whatever text [from_spec_time] accepts, the [datetime] it gives is one
    of whole seconds, and writing it gives a text that reads as the same
    [datetime] again: reading brings every accepted spelling (case of the
    names, one-digit numbers, more blanks) to the one [to_spec_time]
    writes. *)
Theorem from_spec_time_then_to_spec_time (s : string) (d : datetime) :
  from_spec_time s = Ok d ->
  pads_year pf = true \/ 1000 <= year d ->
  microsecond d = 0 /\ from_spec_time (to_spec_time d) = Ok d.
Proof.
  intros H Hy. apply strptime_ok in H. destruct H as [Hc Hus].
  split; [exact Hus|]. now apply from_spec_time_to_spec_time.
Qed.

(** The day of the week is read and dropped: it is not checked against the
    date, so a text with any other day name reads the same. *)
Theorem from_spec_time_ignores_the_day_name (i j : nat) (rest : string) :
  (i < 7)%nat -> (j < 7)%nat ->
  from_spec_time (nth i DAY_ABBR "" ++ rest) = from_spec_time (nth j DAY_ABBR "" ++ rest).
Proof.
  intros Hi Hj. unfold from_spec_time, strptime, SPEC_TIME_FORMAT.
  now rewrite !read_weekday.
Qed.

(** ** The time of the run in the two headers *)

Lemma fromtimestamp_seconds (v : value) (z us : Z) (d : datetime) :
  timestamp_parts v = Ok (z, us) ->
  fromtimestamp v = Ok d ->
  fromtimestamp (VInt z) = Ok (replace_microsecond d 0).
Proof.
  intros Hp. unfold fromtimestamp. rewrite Hp. cbn [timestamp_parts rbind].
  destruct (negb _); [discriminate|].
  destruct (localtime z) as [[[[[[y mo] dd] h] mi] s]|]; [cbn [rbind]|discriminate].
  destruct (utc_to_seconds _); [cbn [rbind]|discriminate].
  destruct (local _); [cbn [rbind]|discriminate].
  destruct (if _ <? 0 then _ else _); [cbn [rbind]|discriminate].
  unfold new_datetime. destruct (check_fields (mk_datetime y mo dd h mi s us)) eqn:Ec;
    [|discriminate].
  intros H. inversion H; subst d; clear H.
  apply check_fields_replace_microsecond in Ec.
  unfold replace_microsecond in Ec |- *.
  cbn [year month day hour minute second] in Ec |- *.
  now rewrite Ec.
Qed.

(** The file header takes the time of the start document through [int],
    the scan header through [fromtimestamp] alone.  When the two read the
    same second (as they do of an integer, and of a float whose fraction
    neither is negative nor rounds up to a full second), both headers show
    the same [#D] text, that of the second on the [#E] line. *)
Theorem headers_show_the_same_time (st bd pd be t : value) (filepath : string)
    (z us : Z) (file_header scan_header : string) :
  st.["time"] = Ok t ->
  py_int t = Ok z ->
  timestamp_parts t = Ok (z, us) ->
  to_spec_file_header st filepath bd = Ok file_header ->
  to_spec_scan_header st pd be = Ok scan_header ->
  exists readable_time owner sources names scan_id command acq_time positions cols motor,
    file_header
    = file_header_text (basename filepath) z readable_time owner sources names
    /\ scan_header
       = scan_header_text scan_id command readable_time acq_time positions cols motor.
Proof.
  intros Ht Hz Hp Hf Hs.
  destruct (to_spec_file_header_ok _ _ _ _ Hf)
    as (unix_time & dt & owner & sources & names & Hu & Hdt & _ & ->).
  destruct (to_spec_scan_header_ok _ _ _ _ Hs)
    as (scan_id & plan & args & dt' & acq & positions & cols & motor
        & _ & _ & _ & _ & Hdt' & _ & _ & ->).
  rewrite Ht in Hu, Hdt'. cbn [rbind] in Hu, Hdt'.
  assert (unix_time = z) by congruence. subst unix_time.
  pose proof (fromtimestamp_seconds t z us dt' Hp Hdt') as Hd.
  assert (dt = replace_microsecond dt' 0) by congruence. subst dt.
  rewrite to_spec_time_replace_microsecond.
  eexists _, owner, sources, names, scan_id, _, acq, positions, cols, motor.
  split; reflexivity.
Qed.

(** ** What a method that raises leaves behind *)


(** [stop] does all or nothing: when it raises, the instance and the
    resources are as they were.  It raises [KeyError] for a document without
    [exit_status], and [AttributeError] when no [start] has opened a
    resource. *)
Theorem stop_raises_and_leaves_no_trace (doc : value) (s : Serializer) :
  (forall s' e, stop doc s = (s', Raise e) -> s' = s)
  /\ (forall d, doc = VDict d -> lookup "exit_status" d = None ->
                stop doc s = (s, Raise KeyError))
  /\ (forall msg, stop_message doc = Ok msg -> _file s = None ->
                  stop doc s = (s, Raise AttributeError)).
Proof.
  split; [|split].
  - intros s' e. unfold stop. unfold bind at 1. unfold lift.
    destruct (stop_message doc) as [msg|e0]; [|intros H; now inversion H].
    unfold bind at 1. unfold write at 1. unfold bind at 1. unfold gets at 1.
    destruct (_file s) as [name|] eqn:Ef; [|unfold raise; intros H; now inversion H].
    unfold modify, when, flush, bind, gets, ret, raise.
    cbn [_flush set_manager].
    destruct (_flush s); cbn [_file set_manager]; try rewrite Ef; discriminate.
  - intros d -> Hn. unfold stop. unfold bind at 1. unfold lift.
    assert (E : stop_message (VDict d) = Raise KeyError).
    { unfold stop_message, setdefault. cbn [dict_items rbind].
      destruct (lookup "reason" d) eqn:Er; cbn [getitem].
      - now rewrite Hn.
      - rewrite lookup_dict_set.
        change (String.eqb "exit_status" "reason") with false. cbv iota.
        now rewrite Hn. }
    rewrite E. reflexivity.
  - intros msg Hm Hf. unfold stop. unfold bind at 1. unfold lift. rewrite Hm.
    unfold bind at 1. unfold write, bind, gets, raise. now rewrite Hf.
Qed.

(** [start] stashes the document before it does anything else: when it
    raises, the document is the one thing assigned and no resource has been
    opened.  A prefix that cannot be formatted from the document raises
    the error of the formatting ([KeyError] for a key the document lacks),
    and a manager that does not allow the append mode, whose [ModeError] is
    caught, raises [ValueError]. *)
Theorem start_raises_before_it_opens (doc : value) (s : Serializer) :
  (forall s' e, start doc s = (s', Raise e) -> s' = set_start doc s)
  /\ (forall e, format_prefix (_file_prefix s) doc = Raise e ->
                start doc s = (set_start doc s, Raise e))
  /\ (forall name, format_prefix (_file_prefix s) doc = Ok name ->
                   allows_append (_manager s) = false ->
                   start doc s = (set_start doc s, Raise ValueError)).
Proof.
  split; [|split].
  - intros s' e. unfold start. unfold bind at 1. unfold modify at 1.
    unfold bind at 1 2 3. unfold gets, lift.
    cbn [_file_prefix _manager set_start].
    destruct (format_prefix (_file_prefix s) doc) as [name|e0];
      [|intros H; now inversion H].
    destruct (manager_open (name ++ ".spec") (_manager s)) as [m'|e0].
    + unfold bind, modify. discriminate.
    + destruct e0; unfold raise; intros H; now inversion H.
  - intros e He. unfold start. unfold bind at 1. unfold modify at 1.
    unfold bind at 1 2. unfold gets, lift.
    cbn [_file_prefix set_start]. now rewrite He.
  - intros name Hn Ha. unfold start. unfold bind at 1. unfold modify at 1.
    unfold bind at 1 2 3. unfold gets, lift.
    cbn [_file_prefix _manager set_start]. rewrite Hn.
    unfold manager_open. rewrite Ha. reflexivity.
Qed.

(** [start] resets nothing: the descriptors, the retained baseline event,
    the flag of the scan header and the two counters of an instance are
    after [start] what they were before, whether it returns or raises.  So
    an instance that holds the primary descriptor of one run raises
    [NotImplementedError] at the primary descriptor of the next. *)
Theorem start_does_not_reset (doc : value) (s : Serializer) :
  let s' := fst (start doc s) in
  _primary_descriptor s' = _primary_descriptor s
  /\ _baseline_descriptor s' = _baseline_descriptor s
  /\ _baseline_event s' = _baseline_event s
  /\ _has_not_written_scan_header s' = _has_not_written_scan_header s
  /\ _num_events_received s' = _num_events_received s
  /\ _num_baseline_events_received s' = _num_baseline_events_received s
  /\ (forall d, truthy (_primary_descriptor s) = true -> not_baseline d ->
                descriptor d s' = (s', Raise NotImplementedError)).
Proof.
  cbv zeta.
  assert (H : _primary_descriptor (fst (start doc s)) = _primary_descriptor s
              /\ _baseline_descriptor (fst (start doc s)) = _baseline_descriptor s
              /\ _baseline_event (fst (start doc s)) = _baseline_event s
              /\ _has_not_written_scan_header (fst (start doc s))
                 = _has_not_written_scan_header s
              /\ _num_events_received (fst (start doc s)) = _num_events_received s
              /\ _num_baseline_events_received (fst (start doc s))
                 = _num_baseline_events_received s).
  { unfold start. run.
    destruct (format_prefix (_file_prefix s) doc) as [name|e0]; simpl; [|repeat split].
    destruct (manager_open (name ++ ".spec") (_manager s)) as [m'|e0];
      [simpl; repeat split|].
    destruct e0; repeat split. }
  destruct H as (H1 & H2 & H3 & H4 & H5 & H6).
  repeat split; try assumption.
  intros d T (n & N & B). unfold descriptor, bind, lift, gets.
  rewrite N, B, H1, T. reflexivity.
Qed.

(** ** An event that raises *)

Lemma write_raise (st : site) (text : string) (s s' : Serializer) (e : exn) :
  write st text s = (s', Raise e) -> s' = s.
Proof. unfold write. run. destruct (_file s); intros H; now inversion H. Qed.

Lemma data_lines_after_write (name text : string) (st : site) (s : Serializer) :
  st <> DataLine -> data_lines (after_write name (st, text) s) = data_lines s.
Proof.
  intros H.
  change (disk_count DataLine (append_chunk name (st, text) (disk (_manager s)))
          = disk_count DataLine (disk (_manager s))).
  rewrite disk_count_append. destruct st; try contradiction; apply Nat.add_0_r.
Qed.

Lemma file_header_step_lines (s s1 : Serializer) (r : result unit) :
  file_header_step s = (s1, r) -> no_line_between s s1.
Proof.
  unfold file_header_step, _write_new_header. unfold bind at 1. unfold gets at 1.
  destruct (_has_not_written_file_header s); cbn [when];
    [|intros H; inversion H; repeat split].
  unfold bind at 1 2. unfold gets at 1.
  destruct (artifacts (_manager s)) as [|filepath [|]];
    try (intros H; inversion H; repeat split; fail).
  unfold bind at 1 2 3, gets, lift.
  destruct (to_spec_file_header _ _ _) as [header|e];
    [|intros H; inversion H; repeat split].
  destruct (write FileHeader header s) as [s2 [[]|e]] eqn:Ew.
  - apply write_ok in Ew. destruct Ew as (name & Hf & ->).
    unfold modify. intros H. inversion H; subst. split; [|split; reflexivity].
    now apply (data_lines_after_write name header FileHeader s).
  - apply write_raise in Ew. subst s2. intros H. inversion H. repeat split.
Qed.

Lemma scan_header_step_lines (s s1 : Serializer) (r : result unit) :
  scan_header_step s = (s1, r) -> no_line_between s s1.
Proof.
  unfold scan_header_step. unfold bind at 1. unfold gets at 1.
  destruct (_has_not_written_scan_header s); cbn [when];
    [|intros H; inversion H; repeat split].
  unfold bind at 1 2 3 4 5, gets, lift.
  destruct (to_spec_scan_header _ _ _) as [header|e];
    [|intros H; inversion H; repeat split].
  destruct (write ScanHeader header s) as [s2 [[]|e]] eqn:Ew.
  - apply write_ok in Ew. destruct Ew as (name & Hf & ->).
    unfold modify. intros H. inversion H; subst. split; [|split; reflexivity].
    now apply (data_lines_after_write name header ScanHeader s).
  - apply write_raise in Ew. subst s2. intros H. inversion H. repeat split.
Qed.

Lemma data_line_step_raise (doc : value) (s s' : Serializer) (e : exn) :
  data_line_step doc s = (s', Raise e) ->
  data_lines s' = data_lines s
  /\ _num_events_received s <= _num_events_received s' <= _num_events_received s + 1
  /\ _num_baseline_events_received s' = _num_baseline_events_received s.
Proof.
  unfold data_line_step. unfold bind at 1. unfold lift at 1.
  destruct (doc.["descriptor"]) as [d|e0];
    [|intros H; inversion H; subst; split; [reflexivity|split; [lia|reflexivity]]].
  unfold bind at 1 2. unfold gets at 1. unfold lift at 1.
  destruct ((_primary_descriptor s).["uid"]) as [uid|e0];
    [|intros H; inversion H; subst; split; [reflexivity|split; [lia|reflexivity]]].
  destruct (py_eq d uid); cbn [negb];
    [|unfold raise; intros H; inversion H; subst; split; [reflexivity|split; [lia|reflexivity]]].
  unfold bind at 1 2 3 4, gets at 1 2, modify, lift.
  cbn [_start set_num_events_received].
  destruct (to_spec_scan_data _ _ _) as [line|e0];
    [|intros H; inversion H; subst; cbn; split; [reflexivity|split; [lia|reflexivity]]].
  unfold bind at 1.
  destruct (write DataLine (line ++ nl) _) as [s1 [[]|e0]] eqn:Ew.
  - apply write_ok in Ew. destruct Ew as (name & Hf & ->).
    cbn [_file set_num_events_received] in Hf.
    intros H. exfalso. unfold when, flush in H. unfold bind, gets, ret in H.
    cbn [_flush after_write set_manager set_num_events_received _file] in H.
    destruct (_flush s); cbv beta in H;
      [change (_file (after_write name (DataLine, line ++ nl)
                 (set_num_events_received (_num_events_received s + 1) s)))
         with (_file s) in H; rewrite Hf in H|]; discriminate H.
  - apply write_raise in Ew. subst s1.
    intros H; inversion H; subst; cbn; split; [reflexivity|split; [lia|reflexivity]].
Qed.

Lemma event_raise_lines (doc : value) (s s' : Serializer) (e : exn) :
  event doc s = (s', Raise e) ->
  data_lines s' = data_lines s
  /\ _num_events_received s <= _num_events_received s' <= _num_events_received s + 1
  /\ _num_baseline_events_received s' = _num_baseline_events_received s.
Proof.
  rewrite event_steps. pose proof (is_baseline_event_pure doc s) as Hs.
  destruct (is_baseline_event doc s) as [s0 [[|]|e0]]; simpl in Hs; subst s0.
  - discriminate.
  - unfold bind at 1.
    destruct (file_header_step s) as [s1 [[]|e1]] eqn:E1;
      apply file_header_step_lines in E1; destruct E1 as (L1 & N1 & B1).
    + unfold bind at 1.
      destruct (scan_header_step s1) as [s2 [[]|e2]] eqn:E2;
        apply scan_header_step_lines in E2; destruct E2 as (L2 & N2 & B2).
      * intros H. apply data_line_step_raise in H. destruct H as (L3 & N3 & B3).
        split; [congruence|]. split; [lia|congruence].
      * intros H. inversion H; subst. split; [congruence|]. split; [lia|congruence].
    + intros H. inversion H; subst. split; [congruence|]. split; [lia|congruence].
  - intros H. inversion H; subst. split; [reflexivity|]. split; [lia|reflexivity].
Qed.

(** The data line is the last thing an event writes: an event that raises,
    at whatever step, has added no data line to any resource, though it may
    have written the headers and, when the line could not be formatted,
    counted itself. *)
Theorem event_that_raises_writes_no_data_line (doc : value) (s s' : Serializer)
    (e : exn) :
  event doc s = (s', Raise e) ->
  data_lines s' = data_lines s
  /\ _num_events_received s <= _num_events_received s' <= _num_events_received s + 1
  /\ _num_baseline_events_received s' = _num_baseline_events_received s.
Proof. apply event_raise_lines. Qed.

Lemma written_add_chunks (name : string) (cs : list chunk) (s : Serializer) :
  _file s = Some name -> written (add_chunks name cs s) = (written s ++ cs)%list.
Proof.
  intros H. unfold written, chunks_of. cbn [_file _manager add_chunks set_manager disk].
  rewrite H. apply chunks_fold.
Qed.

(** An event that is neither of the baseline nor of the primary stream
    raises [NotImplementedError], but only after the headers that were due
    have been written and marked as written; it is not counted and no data
    line is written for it. *)
Theorem event_of_another_stream (doc : value) (s : Serializer) (name : string)
    (fh sh : list chunk) (d uid : value) :
  is_baseline_event doc s = (s, Ok false) ->
  _file s = Some name ->
  file_header_due s fh ->
  scan_header_due s sh ->
  doc.["descriptor"] = Ok d ->
  (_primary_descriptor s).["uid"] = Ok uid ->
  py_eq d uid = false ->
  exists s',
    event doc s = (s', Raise NotImplementedError)
    /\ written s' = (written s ++ fh ++ sh)%list
    /\ _has_not_written_file_header s' = false
    /\ _has_not_written_scan_header s' = false
    /\ _num_events_received s' = _num_events_received s.
Proof.
  intros Hb Hf Hfh Hsh Hd Hu He.
  exists (set_has_not_written_scan_header false
            (add_chunks name sh
               (set_has_not_written_file_header false (add_chunks name fh s)))).
  split; [|split; [|repeat split]].
  - rewrite event_steps, Hb.
    unfold bind at 1. rewrite (file_header_step_run s name fh Hf Hfh).
    unfold bind at 1. rewrite (scan_header_step_run _ name sh) by assumption.
    unfold data_line_step. unfold bind at 1. unfold lift at 1. rewrite Hd.
    unfold bind at 1 2. unfold gets at 1. unfold lift at 1.
    cbn [_primary_descriptor set_has_not_written_scan_header add_chunks set_manager
         set_has_not_written_file_header].
    rewrite Hu, He. reflexivity.
  - change (written (add_chunks name sh
                       (set_has_not_written_file_header false (add_chunks name fh s)))
            = (written s ++ fh ++ sh)%list).
    rewrite written_add_chunks by exact Hf.
    change (written (set_has_not_written_file_header false (add_chunks name fh s)))
      with (written (add_chunks name fh s)).
    rewrite written_add_chunks by exact Hf. now rewrite app_assoc.
Qed.

(** Without a stored primary descriptor (none yet, or an empty document),
    an event is accepted only as an event of the baseline, which writes
    nothing; any other event raises, and no data line is written. *)
Theorem event_needs_the_primary_descriptor (doc : value) (s s' : Serializer)
    (r : result unit) :
  truthy (_primary_descriptor s) = false ->
  event doc s = (s', r) ->
  (r = Ok tt /\ is_baseline_event doc s = (s, Ok true) /\ _manager s' = _manager s)
  \/ (exists e, r = Raise e /\ data_lines s' = data_lines s).
Proof.
  intros T H. destruct r as [[]|e].
  - left. split; [reflexivity|].
    destruct (event_ok_cases doc s s' H) as [Hb|Hb].
    + split; [exact Hb|]. rewrite (event_baseline_ok doc s Hb) in H. now inversion H.
    + pose proof (event_primary_uid doc s s' Hb H). congruence.
  - right. exists e. split; [reflexivity|]. now apply (event_raise_lines doc s s' e).
Qed.

(** ** The order of what a run writes *)





(** ** The events of the primary stream *)














(** ** The positioners: names, sources and positions *)

Lemma ascii_compare_N (a b : ascii) : Ascii.compare a b = (N_of_ascii a ?= N_of_ascii b)%N.
Proof. reflexivity. Qed.

Lemma string_compare_trans (a b c : string) :
  String.compare a b <> Gt -> String.compare b c <> Gt -> String.compare a c <> Gt.
Proof.
  revert b c. induction a as [|x a IH]; intros [|y b] [|z c]; cbn [String.compare];
    try congruence.
  rewrite !ascii_compare_N.
  destruct (N.compare_spec (N_of_ascii x) (N_of_ascii y)) as [Exy|Lxy|Gxy];
    destruct (N.compare_spec (N_of_ascii y) (N_of_ascii z)) as [Eyz|Lyz|Gyz];
    try congruence.
  - rewrite Exy, Eyz, N.compare_refl. apply IH.
  - intros _ _. rewrite Exy. apply N.compare_lt_iff in Lyz. now rewrite Lyz.
  - intros _ _. rewrite <- Eyz. apply N.compare_lt_iff in Lxy. now rewrite Lxy.
  - intros _ _.
    assert (L : (N_of_ascii x < N_of_ascii z)%N) by lia.
    apply N.compare_lt_iff in L. now rewrite L.
Qed.

Lemma string_le_trans (a b c : string) : string_le a b -> string_le b c -> string_le a c.
Proof.
  unfold string_le, String.leb. intros H1 H2.
  pose proof (string_compare_trans a b c) as T.
  destruct (String.compare a b); try discriminate H1;
    destruct (String.compare b c); try discriminate H2;
    destruct (String.compare a c); try reflexivity;
    exfalso; apply T; congruence.
Qed.

(** Two sorted lists of the same strings are the same list. *)
Lemma sorted_unique (l1 l2 : list string) :
  Sorted string_le l1 -> Sorted string_le l2 -> Permutation l1 l2 -> l1 = l2.
Proof.
  intros S1 S2.
  apply Sorted_StronglySorted in S1; [|exact string_le_trans].
  apply Sorted_StronglySorted in S2; [|exact string_le_trans].
  revert l2 S2. induction S1 as [|a l1 S1 IH F1]; intros l2 S2 P.
  - apply Permutation_nil in P. now subst.
  - destruct l2 as [|b l2]; [apply Permutation_sym, Permutation_nil in P; discriminate|].
    apply StronglySorted_inv in S2. destruct S2 as [S2 F2].
    assert (a = b).
    { assert (Hab : string_le a b).
      { assert (I : In b (a :: l1)) by (apply (Permutation_in _ (Permutation_sym P)); now left).
        destruct I as [->|I]; [destruct (String.leb_total b b); assumption|].
        rewrite Forall_forall in F1. now apply F1. }
      assert (Hba : string_le b a).
      { assert (I : In a (b :: l2)) by (apply (Permutation_in _ P); now left).
        destruct I as [->|I]; [destruct (String.leb_total a a); assumption|].
        rewrite Forall_forall in F2. now apply F2. }
      now apply String.leb_antisym. }
    subst b. f_equal. apply IH; [exact S2|]. now apply Permutation_cons_inv in P.
Qed.

Lemma insert_sorted_fst (x : string * value) (l : dict) :
  map fst (insert_sorted (fun a b => String.leb (fst a) (fst b)) x l)
  = insert_sorted String.leb (fst x) (map fst l).
Proof.
  induction l as [|y l IH]; cbn [insert_sorted map]; [reflexivity|].
  destruct (String.leb (fst x) (fst y)); cbn [map]; [reflexivity|now rewrite IH].
Qed.

Lemma sorted_items_keys (d : dict) : keys (sorted_items d) = sorted (keys d).
Proof.
  unfold keys, sorted_items, sorted, sort_by.
  induction d as [|x d IH]; cbn [fold_right map]; [reflexivity|].
  now rewrite insert_sorted_fst, IH.
Qed.

Lemma Forall2_fst_snd {A B} (P : A -> B -> Prop) (l : list (A * B)) :
  (forall x, In x l -> P (fst x) (snd x)) -> Forall2 P (map fst l) (map snd l).
Proof.
  induction l as [|x l IH]; intros H; cbn [map]; constructor.
  - apply H. now left.
  - apply IH. intros y Hy. apply H. now right.
Qed.

(** The names and the sources a file header that was rendered lists. *)
Lemma to_spec_file_header_positioners (st : value) (filepath : string) (bd : value)
    (dk : dict) (header : string) :
  bd.["data_keys"] = Ok (VDict dk) ->
  to_spec_file_header st filepath bd = Ok header ->
  exists unix_time dt owner sources,
    Forall2 (fun name source => exists f, lookup name dk = Some f /\ f.["source"] = Ok source)
      (sorted (keys dk)) sources
    /\ header = file_header_text (basename filepath) unix_time (to_spec_time dt)
                  owner sources (sorted (keys dk)).
Proof.
  intros Hdk. unfold to_spec_file_header.
  replace (match bd with VNone => _DEFAULT_POSITIONERS | _ => bd end) with bd
    by (destruct bd; try reflexivity; discriminate Hdk).
  rewrite Hdk. cbn [rbind dict_keys].
  intros H. rinv H.
  rewrite render_file_header in H. inversion H; subst; clear H.
  eexists _, _, _, _. split; [|reflexivity].
  apply rmap_Forall2 in E0.
  eapply Forall2_impl; [|exact E0].
  intros name source. cbn [rbind getitem].
  destruct (lookup name dk) as [f|]; [|discriminate].
  intros Hs. now exists f.
Qed.

(** The positions a scan header that was rendered lists. *)
Lemma to_spec_scan_header_positions (st pd be : value) (data : dict) (header : string) :
  be.["data"] = Ok (VDict data) ->
  to_spec_scan_header st pd be = Ok header ->
  exists scan_id command readable_time acq_time cols motor,
    header = scan_header_text scan_id command readable_time acq_time
               (map snd (sorted_items data)) cols motor.
Proof.
  intros Hd. unfold to_spec_scan_header. intros H.
  destruct (scan_header_md st pd be) as [md|] eqn:Emd; [cbn [rbind] in H|discriminate H].
  unfold scan_header_md in Emd.
  replace (match be with
           | VNone =>
               dk <- _DEFAULT_POSITIONERS.["data_keys"] ;;
               ks <- iterate dk ;;
               Ok (VDict [("data", VDict (map (fun k => (py_str k, VInt (-1))) ks))])
           | _ => Ok be
           end) with (Ok be) in Emd
    by (destruct be; try reflexivity; discriminate Hd).
  cbn [rbind] in Emd. rinv Emd.
  match goal with
  | Hx : be.["data"] = Ok ?v |- _ =>
      is_var v; assert (v = VDict data) by congruence; subst v
  end.
  match goal with
  | Hx : dict_items (VDict data) = Ok _ |- _ => cbn [dict_items] in Hx; inversion Hx; subst
  end.
  inversion Emd; subst md; clear Emd.
  rewrite render_scan_header in H. inversion H; subst; clear H.
  eexists _, _, _, _, _, _. reflexivity.
Qed.

(** The names on the [#o0] line of the file header are the keys of the
    baseline descriptor in order, its [#O0] line has the source of each
    name in the same place, and when the baseline event reads the same keys
    the [#P0] line of the scan header has, in the same place again, the
    position the event holds for the name. *)
Theorem positions_line_up_with_the_names (st pd bd be : value) (filepath : string)
    (dk data : dict) (file_header scan_header : string) :
  bd.["data_keys"] = Ok (VDict dk) ->
  be.["data"] = Ok (VDict data) ->
  dict_wf data ->
  Permutation (keys dk) (keys data) ->
  to_spec_file_header st filepath bd = Ok file_header ->
  to_spec_scan_header st pd be = Ok scan_header ->
  exists names sources positions unix_time readable_time owner
         scan_id command scan_time acq_time cols motor,
    file_header
    = file_header_text (basename filepath) unix_time readable_time owner sources names
    /\ scan_header
       = scan_header_text scan_id command scan_time acq_time positions cols motor
    /\ Sorted string_le names
    /\ Permutation names (keys dk)
    /\ Forall2 (fun name source =>
                  exists f, lookup name dk = Some f /\ f.["source"] = Ok source)
         names sources
    /\ Forall2 (fun name position => lookup name data = Some position) names positions.
Proof.
  intros Hdk Hdata Hwf Hperm Hf Hs.
  destruct (to_spec_file_header_positioners _ _ _ dk _ Hdk Hf)
    as (unix_time & dt & owner & sources & Hsrc & ->).
  destruct (to_spec_scan_header_positions _ _ _ data _ Hdata Hs)
    as (scan_id & command & scan_time & acq & cols & motor & ->).
  exists (sorted (keys dk)), sources, (map snd (sorted_items data)), unix_time,
    (to_spec_time dt), owner, scan_id, command, scan_time, acq, cols, motor.
  split; [reflexivity|]. split; [reflexivity|].
  split; [apply sort_by_sorted, String.leb_total|].
  split; [apply sort_by_perm|]. split; [exact Hsrc|].
  assert (E : sorted (keys dk) = map fst (sorted_items data)).
  { change (map fst (sorted_items data)) with (keys (sorted_items data)).
    rewrite sorted_items_keys. apply sorted_unique.
    - apply sort_by_sorted, String.leb_total.
    - apply sort_by_sorted, String.leb_total.
    - apply perm_trans with (keys dk); [apply sort_by_perm|].
      apply perm_trans with (keys data); [exact Hperm|].
      apply Permutation_sym, sort_by_perm. }
  rewrite E. apply Forall2_fst_snd. intros [k v] Hin. cbn [fst snd].
  apply lookup_in; [exact Hwf|].
  apply (Permutation_in _ (sort_by_perm _ (fun a b => String.leb (fst a) (fst b)) data)).
  exact Hin.
Qed.

(** ** Reading back what the headers hold *)

Lemma digits_value_acc (d : Decimal.uint) (acc : positive) :
  digits_value (Zpos acc) true (list_ascii_of_string (NilEmpty.string_of_uint d))
  = Some (Zpos (Pos.of_uint_acc d acc)).
Proof.
  revert acc.
  induction d; intros acc;
    cbn [NilEmpty.string_of_uint list_ascii_of_string digits_value Pos.of_uint_acc];
    try reflexivity;
    match goal with
    | |- context [digit_val ?c] =>
        let v := eval vm_compute in (digit_val c) in change (digit_val c) with v
    end;
    cbv iota; rewrite <- IHd; f_equal; lia.
Qed.

Lemma digits_value_uint (d : Decimal.uint) (b : bool) :
  d <> Decimal.Nil \/ b = true ->
  digits_value 0 b (list_ascii_of_string (NilEmpty.string_of_uint d)) = Some (Z.of_uint d).
Proof.
  revert b. unfold Z.of_uint.
  induction d; intros b H;
    cbn [NilEmpty.string_of_uint list_ascii_of_string digits_value Pos.of_uint];
    try (match goal with
         | |- context [digit_val ?c] =>
             let v := eval vm_compute in (digit_val c) in change (digit_val c) with v
         end; cbv iota).
  - destruct H as [H | ->]; [now destruct H|reflexivity].
  - apply IHd. now right.
  - apply (digits_value_acc d 1).
  - apply (digits_value_acc d 2).
  - apply (digits_value_acc d 3).
  - apply (digits_value_acc d 4).
  - apply (digits_value_acc d 5).
  - apply (digits_value_acc d 6).
  - apply (digits_value_acc d 7).
  - apply (digits_value_acc d 8).
  - apply (digits_value_acc d 9).
Qed.

Lemma lstrip_head (c : ascii) (l : list ascii) :
  c_isspace c = false -> lstrip (c :: l) = c :: l.
Proof. intros H. cbn [lstrip]. now rewrite H. Qed.

Lemma strip_no_space (l : list ascii) :
  Forall (fun c => c_isspace c = false) l -> strip l = l.
Proof.
  intros H. unfold strip.
  assert (L : forall l', Forall (fun c => c_isspace c = false) l' -> lstrip l' = l').
  { intros [|c l'] F; [reflexivity|]. inversion F; subst. now apply lstrip_head. }
  rewrite (L l H), (L (rev l) (Forall_rev H)). apply rev_involutive.
Qed.

(** What the characters of a number are not. *)
Lemma uint_chars (d : Decimal.uint) :
  Forall (fun c => c_isspace c = false /\ c <> "-"%char /\ c <> "+"%char
                   /\ c <> "_"%char /\ Ascii.eqb " " c = false /\ is_digit c = true)
    (list_ascii_of_string (NilEmpty.string_of_uint d)).
Proof.
  induction d; cbn [NilEmpty.string_of_uint list_ascii_of_string]; constructor;
    try assumption; repeat split; discriminate.
Qed.

Lemma int_of_str_str_of_Z (z : Z) : int_of_str (str_of_Z z) = Some z.
Proof.
  unfold str_of_Z, int_of_str. destruct z as [|p|p]; [reflexivity| |].
  - cbn [Z.to_int NilZero.string_of_int]. unfold NilZero.string_of_uint.
    pose proof (Unsigned.to_uint_nonnil p) as Hn.
    pose proof (uint_chars (Pos.to_uint p)) as Hc.
    pose proof (digits_value_uint (Pos.to_uint p) false (or_introl Hn)) as Hv.
    unfold Z.of_uint in Hv. rewrite Unsigned.of_to in Hv.
    destruct (Pos.to_uint p) eqn:E; try (now destruct Hn);
      (rewrite strip_no_space; [|eapply Forall_impl; [|exact Hc]; cbv beta; tauto]);
      exact Hv.
  - cbn [Z.to_int NilZero.string_of_int]. unfold NilZero.string_of_uint.
    pose proof (Unsigned.to_uint_nonnil p) as Hn.
    pose proof (uint_chars (Pos.to_uint p)) as Hc.
    pose proof (digits_value_uint (Pos.to_uint p) false (or_introl Hn)) as Hv.
    unfold Z.of_uint in Hv. rewrite Unsigned.of_to in Hv.
    destruct (Pos.to_uint p) eqn:E; try (now destruct Hn);
      cbn [list_ascii_of_string];
      (rewrite strip_no_space;
       [|constructor; [reflexivity|eapply Forall_impl; [|exact Hc]; cbv beta; tauto]]);
      rewrite Hv; reflexivity.
Qed.

(** [int] reads back what [str] wrote of an integer. *)
Lemma py_int_str_of_Z (z : Z) : py_int (VStr (str_of_Z z)) = Ok z.
Proof. cbn [py_int]. now rewrite int_of_str_str_of_Z. Qed.

(** The [#E] and [#D] lines of a file header, read by their entries of
    [spec_line_parser], give one and the same [datetime]: the local time of
    the second on the [#E] line (the [#D] line when its year is written with
    four digits). *)
Theorem the_file_header_reads_back (st bd : value) (filepath header : string) :
  to_spec_file_header st filepath bd = Ok header ->
  exists unix_time readable_time owner sources names dt,
    header
    = file_header_text (basename filepath) unix_time readable_time owner sources names
    /\ fromtimestamp (VInt unix_time) = Ok dt
    /\ parse_time (str_of_Z unix_time) = Ok dt
    /\ parse_filename (basename filepath) = basename filepath
    /\ (pads_year pf = true \/ 1000 <= year dt -> parse_time_from_date readable_time = Ok dt).
Proof.
  intros H.
  destruct (to_spec_file_header_ok _ _ _ _ H)
    as (unix_time & dt & owner & sources & names & _ & Hdt & _ & ->).
  exists unix_time, (to_spec_time dt), owner, sources, names, dt.
  split; [reflexivity|]. split; [exact Hdt|]. split; [|split; [reflexivity|]].
  - unfold parse_time. rewrite py_int_str_of_Z. exact Hdt.
  - intros Hy. unfold parse_time_from_date.
    destruct (fromtimestamp_ok _ _ Hdt) as (Hc & t & us & Hp & Hus).
    cbn in Hp. inversion Hp; subst.
    now apply from_spec_time_to_spec_time.
Qed.

(** The [#N] line of a scan header, read by its entry of
    [spec_line_parser], gives the number of columns back: three more than
    the names the [#L] line lists after the two times; and the [#D] line
    reads as the local time of the start document, to the second. *)
Theorem the_scan_header_reads_back (st pd be : value) (header : string) :
  to_spec_scan_header st pd be = Ok header ->
  exists scan_id command readable_time acq_time positions cols motor t dt,
    header = scan_header_text scan_id command readable_time acq_time positions cols motor
    /\ parse_num_intervals (str_of_Z (3 + Z.of_nat (List.length cols)))
       = Ok (3 + Z.of_nat (List.length cols))
    /\ st.["time"] = Ok t
    /\ fromtimestamp t = Ok dt
    /\ (pads_year pf = true \/ 1000 <= year dt ->
        parse_time_from_date readable_time = Ok (replace_microsecond dt 0)).
Proof.
  intros H.
  destruct (to_spec_scan_header_ok _ _ _ _ H)
    as (scan_id & plan & args & dt & acq & positions & cols & motor
        & _ & _ & _ & _ & Hdt & _ & _ & ->).
  destruct (st.["time"]) as [t|] eqn:Et; [cbn [rbind] in Hdt|discriminate Hdt].
  eexists scan_id, _, (to_spec_time dt), acq, positions, cols, motor, t, dt.
  split; [reflexivity|]. split; [apply py_int_str_of_Z|].
  split; [reflexivity|]. split; [exact Hdt|].
  intros Hy. unfold parse_time_from_date.
  destruct (fromtimestamp_ok _ _ Hdt) as (Hc & _).
  rewrite <- (to_spec_time_replace_microsecond dt 0).
  apply from_spec_time_to_spec_time.
  - now apply check_fields_replace_microsecond.
  - reflexivity.
  - exact Hy.
Qed.

(** ** Reading numbers back *)

(** [str] of an integer: a minus sign when it is negative, then its digits,
    of which there is one at least. *)
Lemma str_of_Z_text (z : Z) :
  exists d, d <> Decimal.Nil /\ Z.of_uint d = Z.abs z
            /\ str_of_Z z = (if z <? 0 then "-" else "") ++ NilEmpty.string_of_uint d.
Proof.
  unfold str_of_Z. destruct z as [|p|p].
  - exists (Decimal.D0 Decimal.Nil). repeat split. discriminate.
  - exists (Pos.to_uint p). pose proof (Unsigned.to_uint_nonnil p) as Hn.
    split; [exact Hn|]. split; [unfold Z.of_uint; now rewrite Unsigned.of_to|].
    cbn [Z.to_int NilZero.string_of_int Z.ltb Z.compare String.append].
    unfold NilZero.string_of_uint. destruct (Pos.to_uint p); try reflexivity. now destruct Hn.
  - exists (Pos.to_uint p). pose proof (Unsigned.to_uint_nonnil p) as Hn.
    split; [exact Hn|]. split; [unfold Z.of_uint; now rewrite Unsigned.of_to|].
    cbn [Z.to_int NilZero.string_of_int Z.ltb Z.compare String.append].
    unfold NilZero.string_of_uint. destruct (Pos.to_uint p); try reflexivity. now destruct Hn.
Qed.

Lemma list_ascii_of_string_app (a b : string) :
  list_ascii_of_string (a ++ b) = (list_ascii_of_string a ++ list_ascii_of_string b)%list.
Proof. induction a as [|c a IH]; cbn; [reflexivity|now rewrite IH]. Qed.

(** A text of digits is read whole, to the number [int] makes of it. *)
Lemma read_digits_all (l : list ascii) (acc n v : Z) :
  Forall (fun c => is_digit c = true) l ->
  digits_value acc true l = Some v ->
  read_digits acc n l = (v, n + Z.of_nat (List.length l), []).
Proof.
  revert acc n. induction l as [|c l IH]; intros acc n F H.
  - cbn in *. inversion H. do 2 f_equal. lia.
  - inversion F as [|? ? Hc F']; subst. unfold is_digit in Hc.
    cbn [digits_value read_digits] in *. destruct (digit_val c); [|discriminate].
    rewrite (IH _ (n + 1) F' H). cbn [List.length]. do 2 f_equal. lia.
Qed.

Lemma drop_underscores_none (l : list ascii) (prev : ascii) :
  Forall (fun c => c <> "_"%char) l -> prev <> "_"%char ->
  drop_underscores prev l = Some l.
Proof.
  revert prev. induction l as [|c l IH]; intros prev F Hp; cbn [drop_underscores].
  - apply Ascii.eqb_neq in Hp. now rewrite Hp.
  - inversion F as [|? ? Hc F']; subst.
    apply Ascii.eqb_neq in Hc, Hp. rewrite Hc, Hp. cbn [andb].
    apply Ascii.eqb_neq in Hc. now rewrite (IH c F' Hc).
Qed.

(** ** The double nearest to an integer *)

Lemma digits2_pos_lower (p : positive) : 2 ^ (Zpos (digits2_pos p) - 1) <= Zpos p.
Proof.
  induction p as [p IH|p IH|]; cbn [digits2_pos]; [| |cbn; lia];
    rewrite Pos2Z.inj_succ;
    replace (Z.succ (Z.pos (digits2_pos p)) - 1) with (Z.succ (Z.pos (digits2_pos p) - 1))
      by lia;
    rewrite Z.pow_succ_r by lia; lia.
Qed.

Lemma iter_xO (p k : positive) :
  digits2_pos (Pos.iter xO p k) = (digits2_pos p + k)%positive
  /\ Zpos (Pos.iter xO p k) = Zpos p * 2 ^ Zpos k.
Proof.
  induction k as [|k IH] using Pos.peano_ind.
  - cbn [Pos.iter digits2_pos]. split; [lia|]. change (2 ^ 1) with 2. lia.
  - rewrite Pos.iter_succ. cbn [digits2_pos]. destruct IH as [IH1 IH2]. split.
    + rewrite IH1. lia.
    + rewrite Pos2Z.inj_xO, IH2, Pos2Z.inj_succ, Z.pow_succ_r by lia. lia.
Qed.

(** An integer of at most 53 bits is a binary64: rounding only moves its
    bits to the top of the mantissa. *)
Lemma binary_round_exact (s : bool) (p : positive) :
  Zpos p < 2 ^ 53 ->
  exists m e, binary_round 53 1024 s p 0 = S754_finite s m e
              /\ e <= 0 /\ Zpos m = Zpos p * 2 ^ (- e).
Proof.
  intros Hp.
  assert (Hd : Zpos (digits2_pos p) <= 53).
  { pose proof (digits2_pos_lower p) as L.
    destruct (Z_le_gt_dec (Zpos (digits2_pos p)) 53) as [|G]; [assumption|].
    assert (2 ^ 53 <= 2 ^ (Zpos (digits2_pos p) - 1)) by (apply Z.pow_le_mono_r; lia).
    lia. }
  assert (A : forall m e, Zpos (digits2_pos m) = 53 -> -52 <= e <= 0 ->
              binary_round_aux 53 1024 s (Zpos m) e loc_Exact = S754_finite s m e).
  { intros m e Hm He. unfold binary_round_aux, shr_fexp, fexp, emin.
    cbn [Zdigits2 shr_record_of_loc]. rewrite Hm.
    replace (Z.max (53 + e - 53) (3 - 1024 - 53) - e) with 0 by lia.
    cbn [shr shr_m loc_of_shr_record round_nearest_even Zdigits2]. rewrite Hm.
    replace (Z.max (53 + e - 53) (3 - 1024 - 53) - e) with 0 by lia.
    cbn [shr shr_m]. destruct (e <=? 1024 - 53) eqn:E; [reflexivity|lia]. }
  unfold binary_round, shl_align, fexp, emin.
  replace (Z.max (Z.pos (digits2_pos p) + 0 - 53) (3 - 1024 - 53) - 0)
    with (Z.pos (digits2_pos p) - 53) by lia.
  replace (Z.max (Z.pos (digits2_pos p) + 0 - 53) (3 - 1024 - 53))
    with (Z.pos (digits2_pos p) - 53) by lia.
  destruct (Z.pos (digits2_pos p) - 53) as [|k|k] eqn:Ek; [| lia |].
  - exists p, 0. split; [apply A; lia|]. split; [lia|]. cbn. lia.
  - destruct (iter_xO p k) as [Hdig Hval].
    exists (Pos.iter xO p k), (Zneg k). split; [|split; [lia|]].
    + rewrite <- Ek. apply A; [rewrite Hdig|]; lia.
    + rewrite Hval. reflexivity.
Qed.

Lemma nearest_double_exact (z : Z) :
  Z.abs z < 2 ^ 53 -> float_eq_Z (nearest_double z) z = true.
Proof.
  intros Hz. unfold nearest_double, binary_normalize.
  destruct z as [|p|p]; [reflexivity| |].
  - destruct (binary_round_exact false p Hz) as (m & e & -> & He & Hm).
    unfold float_eq_Z, cmp_scaled, signed. cbv zeta.
    rewrite Z.min_l by lia.
    replace (Z.pos m * 2 ^ (e - e)) with (Z.pos p * 2 ^ (0 - e))
      by (rewrite Z.sub_diag, Z.sub_0_l, Z.pow_0_r; lia).
    rewrite Z.compare_refl. reflexivity.
  - destruct (binary_round_exact true p Hz) as (m & e & -> & He & Hm).
    unfold float_eq_Z, cmp_scaled, signed. cbv zeta.
    rewrite Z.min_l by lia.
    replace (- Z.pos m * 2 ^ (e - e)) with (Z.neg p * 2 ^ (0 - e))
      by (rewrite Z.sub_diag, Z.sub_0_l, Z.pow_0_r; lia).
    rewrite Z.compare_refl. reflexivity.
Qed.

(** [float] reads what [str] wrote of an integer as the double nearest to
    the integer. *)
Lemma float_of_text_str_of_Z (z : Z) : float_of_text (str_of_Z z) = Some (nearest_double z).
Proof.
  destruct (str_of_Z_text z) as (d & Hn & Hv & ->).
  pose proof (uint_chars d) as Hc.
  pose proof (digits_value_uint d true (or_intror eq_refl)) as Hd. rewrite Hv in Hd.
  assert (Hl : (0 < List.length (list_ascii_of_string (NilEmpty.string_of_uint d)))%nat).
  { destruct d; cbn; try lia. now destruct Hn. }
  assert (Hr : read_number (z <? 0) (list_ascii_of_string (NilEmpty.string_of_uint d))
               = Some (nearest_double z)).
  { unfold read_number.
    rewrite (read_digits_all _ 0 0 (Z.abs z));
      [|eapply Forall_impl; [|exact Hc]; cbv beta; tauto|exact Hd].
    destruct (0 + Z.of_nat _ + 0 =? 0) eqn:E; [lia|].
    cbn [read_exponent]. unfold float_of_decimal. rewrite Z.sub_0_r. cbn [Z.leb Z.compare].
    rewrite Z.pow_0_r, Z.mul_1_r. unfold nearest_double, signed.
    destruct z; reflexivity. }
  unfold float_of_text. rewrite list_ascii_of_string_app.
  rewrite strip_no_space.
  2:{ apply Forall_app. split; [|eapply Forall_impl; [|exact Hc]; cbv beta; tauto].
      destruct (z <? 0); repeat constructor. }
  rewrite drop_underscores_none.
  2:{ apply Forall_app. split; [|eapply Forall_impl; [|exact Hc]; cbv beta; tauto].
      destruct (z <? 0); repeat constructor. discriminate. }
  2:{ discriminate. }
  destruct (z <? 0) eqn:Ez; cbn [list_ascii_of_string app].
  - cbn [read_sign]. now rewrite Hr.
  - destruct (list_ascii_of_string (NilEmpty.string_of_uint d)) as [|c l] eqn:El;
      [cbn in Hl; lia|].
    inversion Hc as [|? ? (_ & Hm & Hp & _) _]; subst.
    assert (Hs : read_sign (c :: l) = (false, c :: l)).
    { destruct c as [[] [] [] [] [] [] [] []]; try reflexivity; congruence. }
    rewrite Hs. now rewrite Hr.
Qed.

(** ** [str.split] *)

Lemma split_loop_piece (a : ascii) (sep d x cur : string) :
  contains_char a d = false ->
  split_loop (String a sep) 0 cur (d ++ x) = split_loop (String a sep) 0 (cur ++ d) x.
Proof.
  revert cur. induction d as [|c d IH]; intros cur H.
  - now rewrite append_nil_r.
  - cbn [contains_char] in H. apply orb_false_elim in H. destruct H as [Hc Hd].
    cbn [String.append split_loop String.prefix].
    destruct (Ascii.ascii_dec a c) as [->|_]; [now rewrite Ascii.eqb_refl in Hc|].
    rewrite (IH _ Hd), append_assoc. reflexivity.
Qed.

Lemma split_loop_blank (cur x : string) :
  split_loop " " 0 cur (String " " x) = cur :: split_loop " " 0 "" x.
Proof.
  cbn [split_loop String.prefix String.length Nat.sub].
  destruct (Ascii.ascii_dec " " " ") as [_|N]; [|now destruct N].
  destruct x; reflexivity.
Qed.

Lemma split_loop_other (c : ascii) (cur x : string) :
  c <> " "%char ->
  split_loop " " 0 cur (String c x) = split_loop " " 0 (cur ++ String c "") x.
Proof.
  intros H. cbn [split_loop String.prefix].
  destruct (Ascii.ascii_dec " " c) as [E|_]; [now destruct H|reflexivity].
Qed.

(** Joining pieces that hold no blank with one blank, then splitting at
    the blanks, gives the pieces back. *)
Lemma split_concat (x : string) (xs : list string) (cur : string) :
  Forall (fun s => contains_char " " s = false) (x :: xs) ->
  split_loop " " 0 cur (String.concat " " (x :: xs)) = (cur ++ x) :: xs.
Proof.
  revert x cur. induction xs as [|y ys IH]; intros x cur F;
    inversion F as [|? ? Hx F']; subst.
  - cbn [String.concat]. rewrite <- (append_nil_r x) at 1.
    now rewrite split_loop_piece.
  - change (String.concat " " (x :: y :: ys))
      with (x ++ " " ++ String.concat " " (y :: ys)).
    rewrite split_loop_piece by assumption.
    cbn [String.append]. rewrite split_loop_blank, (IH y "" F'). reflexivity.
Qed.

Lemma str_of_Z_no_blank (z : Z) : contains_char " " (str_of_Z z) = false.
Proof.
  destruct (str_of_Z_text z) as (d & _ & _ & ->).
  assert (H : forall s, Forall (fun c => Ascii.eqb " " c = false) (list_ascii_of_string s) ->
                        contains_char " " s = false).
  { induction s as [|c s IH]; intros F; [reflexivity|]. cbn [list_ascii_of_string] in F.
    inversion F as [|? ? Hc F']; subst. cbn [contains_char]. now rewrite Hc, (IH F'). }
  apply H. rewrite list_ascii_of_string_app. apply Forall_app. split.
  - destruct (z <? 0); repeat constructor.
  - eapply Forall_impl; [|exact (uint_chars d)]. cbv beta. tauto.
Qed.

(** An empty piece comes of two blanks in a row, and of a blank at either
    end. *)
Lemma split_loop_empty_piece (a b cur : string) :
  In "" (split_loop " " 0 cur (a ++ "  " ++ b)).
Proof.
  revert cur. induction a as [|c a IH]; intros cur.
  - cbn [String.append]. rewrite !split_loop_blank. right. now left.
  - cbn [String.append]. destruct (Ascii.ascii_dec c " ") as [->|N].
    + rewrite split_loop_blank. right. apply IH.
    + rewrite split_loop_other by assumption. apply IH.
Qed.

Lemma split_loop_blank_last (a cur : string) : In "" (split_loop " " 0 cur (a ++ " ")).
Proof.
  revert cur. induction a as [|c a IH]; intros cur.
  - cbn [String.append]. rewrite split_loop_blank. right. now left.
  - cbn [String.append]. destruct (Ascii.ascii_dec c " ") as [->|N].
    + rewrite split_loop_blank. right. apply IH.
    + rewrite split_loop_other by assumption. apply IH.
Qed.

Lemma rmap_value_error {A B} (f : A -> option B) (l : list A) (a : A) :
  In a l -> f a = None -> rmap (fun x => value_error (f x)) l = Raise ValueError.
Proof.
  intros Hin Ha. induction l as [|x l IH]; [destruct Hin|].
  cbn [rmap]. destruct (f x) as [y|] eqn:Ex; cbn [value_error rbind]; [|reflexivity].
  destruct Hin as [->|Hin]; [congruence|]. now rewrite (IH Hin).
Qed.

(** The [#T] line of a scan header shows the acquisition time of the start
    document, [-1] when it has none.  When that is an integer, the line,
    read by its entry of [spec_line_parser], gives the double nearest to
    it, which is the integer itself when it has no more than 53 bits. *)
Theorem the_exposure_time_reads_back (st pd be : value) (header : string) :
  to_spec_scan_header st pd be = Ok header ->
  exists scan_id command readable_time acq_time positions cols motor,
    header = scan_header_text scan_id command readable_time acq_time positions cols motor
    /\ _get_acq_time st = Ok acq_time
    /\ (forall d, st = VDict d ->
          lookup "count_time" d = None \/ lookup "count_time" d = Some VNone ->
          acq_time = VInt (-1))
    /\ (forall z, acq_time = VInt z ->
          parse_exposure_time (py_str acq_time ++ "  (Seconds)") = Ok (nearest_double z)
          /\ (Z.abs z < 2 ^ 53 -> float_eq_Z (nearest_double z) z = true)).
Proof.
  intros H.
  destruct (to_spec_scan_header_ok _ _ _ _ H)
    as (scan_id & plan & args & dt & acq & positions & cols & motor
        & _ & _ & _ & Hacq & _ & _ & _ & ->).
  eexists scan_id, _, _, acq, positions, cols, motor.
  split; [reflexivity|]. split; [exact Hacq|]. split.
  - intros d -> Hd. unfold _get_acq_time in Hacq. cbn [get rbind] in Hacq.
    destruct Hd as [Hd|Hd]; rewrite Hd in Hacq; congruence.
  - intros z ->. split; [|apply nearest_double_exact].
    cbn [py_str py_repr]. unfold parse_exposure_time, str_split.
    rewrite (split_loop_piece " " " " (str_of_Z z)) by apply str_of_Z_no_blank.
    change (split_loop "  " 0 ("" ++ str_of_Z z) "  (Seconds)")
      with [str_of_Z z; "(Seconds)"].
    cbv beta iota. now rewrite float_of_text_str_of_Z.
Qed.

Lemma rmap_float_of_text (zs : list Z) :
  rmap (fun s => value_error (float_of_text s)) (map str_of_Z zs)
  = Ok (map nearest_double zs).
Proof.
  induction zs as [|z zs IH]; [reflexivity|].
  cbn [map rmap]. rewrite float_of_text_str_of_Z, IH. reflexivity.
Qed.

(** An [hkl] line is read between single blanks: integers joined by one
    blank each read as the doubles nearest to them, in order; two blanks in
    a row, a blank at either end, and a line of nothing raise
    [ValueError]. *)
Theorem hkl_is_read_between_single_blanks :
  (forall zs, zs <> [] ->
     parse_hkl (String.concat " " (map str_of_Z zs)) = Ok (map nearest_double zs))
  /\ (forall a b, parse_hkl (a ++ "  " ++ b) = Raise ValueError)
  /\ (forall a, parse_hkl (" " ++ a) = Raise ValueError)
  /\ (forall a, parse_hkl (a ++ " ") = Raise ValueError)
  /\ parse_hkl "" = Raise ValueError.
Proof.
  assert (E : forall x, In "" (str_split " " x) -> parse_hkl x = Raise ValueError).
  { intros x Hin. unfold parse_hkl. now apply (rmap_value_error float_of_text _ ""). }
  split; [|split; [|split; [|split]]].
  - intros [|z zs] Hz; [now destruct Hz|].
    unfold parse_hkl, str_split. cbn [map]. rewrite split_concat.
    + change ("" ++ str_of_Z z) with (str_of_Z z).
      exact (rmap_float_of_text (z :: zs)).
    + constructor; [apply str_of_Z_no_blank|].
      apply Forall_forall. intros s Hs. apply in_map_iff in Hs.
      destruct Hs as (y & <- & _). apply str_of_Z_no_blank.
  - intros a b. apply E, split_loop_empty_piece.
  - intros a. apply E. unfold str_split. cbn [String.append].
    rewrite split_loop_blank. now left.
  - intros a. apply E, split_loop_blank_last.
  - reflexivity.
Qed.

(** ** The first line of each header *)

Lemma basename_from_no_slash (acc s : string) :
  contains_char "/" s = false -> basename_from acc s = acc.
Proof.
  revert acc. induction s as [|c s IH]; intros acc H; cbn [basename_from]; [reflexivity|].
  cbn [contains_char] in H. rewrite Ascii.eqb_sym in H.
  destruct (Ascii.eqb c "/"); [discriminate H|]. now apply IH.
Qed.

Lemma basename_from_slash (acc s : string) :
  contains_char "/" s = true ->
  contains_char "/" (basename_from acc s) = false
  /\ exists dir, s = dir ++ "/" ++ basename_from acc s.
Proof.
  revert acc. induction s as [|c s IH]; intros acc H; [discriminate H|].
  cbn [basename_from]. cbn [contains_char] in H. rewrite Ascii.eqb_sym in H.
  destruct (Ascii.eqb c "/") eqn:Ec.
  - apply Ascii.eqb_eq in Ec. subst c.
    destruct (contains_char "/" s) eqn:Es.
    + destruct (IH s eq_refl) as (N & dir & E). split; [exact N|].
      exists (String "/" dir). rewrite E at 1. reflexivity.
    + rewrite (basename_from_no_slash s s Es). split; [exact Es|]. now exists "".
  - cbn [orb] in H. destruct (IH acc H) as (N & dir & E). split; [exact N|].
    exists (String c dir). rewrite E at 1. reflexivity.
Qed.

(** The [#F] line of the file header names the file without its directory:
    what follows the last slash of the path it was given, the whole path
    when it has none. *)
Theorem file_header_names_the_file (st bd : value) (filepath header : string) :
  to_spec_file_header st filepath bd = Ok header ->
  exists name unix_time readable_time owner sources names,
    header = file_header_text name unix_time readable_time owner sources names
    /\ contains_char "/" name = false
    /\ (filepath = name \/ exists dir, filepath = dir ++ "/" ++ name).
Proof.
  intros H.
  destruct (to_spec_file_header_ok _ _ _ _ H)
    as (unix_time & dt & owner & sources & names & _ & _ & _ & ->).
  exists (basename filepath), unix_time, (to_spec_time dt), owner, sources, names.
  split; [reflexivity|]. unfold basename.
  destruct (contains_char "/" filepath) eqn:E.
  - destruct (basename_from_slash filepath filepath E) as (N & dir & Hd).
    split; [exact N|]. right. now exists dir.
  - rewrite (basename_from_no_slash filepath filepath E). split; [exact E|now left].
Qed.

Lemma get_name_cases (v : value) (plan : string) :
  get_name v = Ok plan ->
  plan = "ct" \/ plan = "ascan" \/ plan = "dscan" \/ plan = "Other".
Proof.
  unfold get_name. destruct v; cbn [is_hashable];
    try (intros H; inversion H; tauto); try discriminate.
  cbn. destruct (String.eqb s "count"); [intros H; inversion H; tauto|].
  destruct (String.eqb s "scan"); [intros H; inversion H; tauto|].
  destruct (String.eqb s "rel_scan"); intros H; inversion H; tauto.
Qed.

(** The command on the [#S] line: for [count] and for a plan without a
    SPEC name, the name, [seq_num] and the acquisition time; for [scan] and
    [rel_scan], the name, the motor, the last two of the plan's positional
    arguments as the start and the stop, the number of points and the
    acquisition time. *)
Theorem scan_command_by_plan (st pd be : value) (header : string) :
  to_spec_scan_header st pd be = Ok header ->
  exists scan_id command readable_time acq_time positions cols motor plan,
    header = scan_header_text scan_id command readable_time acq_time positions cols motor
    /\ _get_plan_name st = Ok plan
    /\ _get_acq_time st = Ok acq_time
    /\ ((plan = "ct" \/ plan = "Other") /\ motor = VStr "seq_num"
        /\ command = plan ++ " seq_num " ++ py_str acq_time
        \/ (plan = "ascan" \/ plan = "dscan")
           /\ exists plan_args args start_val stop_val num,
                st.["plan_args"] = Ok plan_args
                /\ plan_args.["args"] = Ok args
                /\ getitem args (VInt (-2)) = Ok start_val
                /\ getitem args (VInt (-1)) = Ok stop_val
                /\ plan_args.["num"] = Ok num
                /\ command = plan ++ " " ++ py_str motor ++ " " ++ py_str start_val
                             ++ " " ++ py_str stop_val ++ " " ++ py_str num
                             ++ " " ++ py_str acq_time).
Proof.
  unfold to_spec_scan_header. intros H.
  destruct (scan_header_md st pd be) as [md|] eqn:Emd; [cbn [rbind] in H|discriminate H].
  unfold scan_header_md in Emd. rinv Emd.
  inversion Emd; subst md; clear Emd.
  rewrite render_scan_header in H. inversion H; subst; clear H.
  match goal with Hp : _get_plan_name st = Ok ?p |- _ => rename Hp into Hplan; rename p into plan end.
  match goal with Hp : _get_motor_name st = Ok ?p |- _ => rename Hp into Hmotor; rename p into motor end.
  match goal with Hp : _get_acq_time st = Ok ?p |- _ => rename Hp into Hacq; rename p into acq end.
  match goal with
  | Hp : (if _ then _ else _) = Ok ?p |- _ => rename Hp into Hargs; rename p into args
  end.
  eexists _, _, _, acq, _, _, motor, plan.
  split; [reflexivity|]. split; [reflexivity|]. split; [reflexivity|].
  assert (Hc : plan = "ct" \/ plan = "ascan" \/ plan = "dscan" \/ plan = "Other").
  { unfold _get_plan_name in Hplan.
    destruct (st.["plan_name"]); [cbn [rbind] in Hplan|discriminate Hplan].
    now apply get_name_cases in Hplan. }
  assert (Hm : plan = "ct" \/ plan = "Other" -> motor = VStr "seq_num").
  { intros Hp. unfold _get_motor_name in Hmotor. rewrite Hplan in Hmotor.
    cbn [rbind] in Hmotor. destruct Hp; subst plan; cbn in Hmotor; congruence. }
  destruct Hc as [Hc|[Hc|[Hc|Hc]]]; subst plan.
  - left. cbn in Hargs. inversion Hargs; subst args.
    rewrite (Hm (or_introl eq_refl)). split; [now left|]. split; reflexivity.
  - right. split; [now left|]. cbn [mem assoc negb orb] in Hargs.
    change (negb (mem "ascan" _SPEC_SCAN_NAMES) || mem "ascan" _SCANS_WITHOUT_MOTORS)
      with false in Hargs. cbv iota in Hargs. rinv Hargs.
    inversion Hargs; subst args.
    eexists _, _, _, _, _.
    repeat split; first [reflexivity | eassumption | congruence].
  - right. split; [now right|].
    change (negb (mem "dscan" _SPEC_SCAN_NAMES) || mem "dscan" _SCANS_WITHOUT_MOTORS)
      with false in Hargs. cbv iota in Hargs. rinv Hargs.
    inversion Hargs; subst args.
    eexists _, _, _, _, _.
    repeat split; first [reflexivity | eassumption | congruence].
  - left. cbn in Hargs. inversion Hargs; subst args.
    rewrite (Hm (or_intror eq_refl)). split; [now right|]. split; reflexivity.
Qed.

End Platform.

(** * The theorems at work on example runs

    The platform is UTC with the [strftime] of glibc. *)

Lemma count_run_output_witness :
  exists s,
    feed utc_glibc (count_run "abc" "d1") fresh = (s, Ok tt)
    /\ _file s = Some "abc.spec"
    /\ written s
       = [(FileHeader,
           file_header_text "abc.spec" 1000000000 "Sun Sep 09 01:46:40 2001"
             (VStr "") [] []);
          (ScanHeader,
           scan_header_text (VInt 7) "ct seq_num -1" "Sun Sep 09 01:46:40 2001"
             (VInt (-1)) [] ["det"] (VStr "seq_num"));
          (DataLine, nl ++ "0  1000000001 -1 1.5" ++ nl);
          (DataLine, nl ++ "1  1000000002 -1 2.5" ++ nl);
          (Trailer, nl)].
Proof.
  apply (count_run_output utc_glibc "abc" "d1" start_2001).
  - vm_compute. reflexivity.
  - reflexivity.
Defined.

(** C1 as stated fails: the command of the scan header of the count run is
    ["ct seq_num -1"], not ["count seq_num -1"]. *)
Lemma count_run_command_is_ct :
  exists md,
    scan_header_md utc_glibc (start_count "abc") (primary_det "d1") VNone = Ok md
    /\ lookup "command" md = Some (VStr "ct seq_num -1")
    /\ lookup "command" md <> Some (VStr "count seq_num -1").
Proof.
  eexists. split; [vm_compute; reflexivity|]. split; [reflexivity|discriminate].
Qed.

Lemma no_baseline_event_no_positions_witness :
  let s := fst (feed utc_glibc baseline_run fresh) in
  let s' := fst (event utc_glibc first_event s) in
  exists fh line scan_id command readable_time acq_time cols motor,
    file_header_due utc_glibc s fh
    /\ to_spec_scan_header utc_glibc (_start s) (_primary_descriptor s) VNone
       = Ok (scan_header_text scan_id command readable_time acq_time [] cols motor)
    /\ scan_header_text scan_id command readable_time acq_time [] cols motor
       = scan_header_top scan_id command readable_time acq_time
         ++ nl ++ "#P0 " ++ nl ++ scan_header_bottom cols motor
    /\ written s'
       = (written s ++ fh
          ++ [(ScanHeader,
               scan_header_text scan_id command readable_time acq_time [] cols motor);
              (DataLine, (line ++ nl)%string)])%list.
Proof.
  intros s s'.
  apply (no_baseline_event_no_positions utc_glibc (MultiFileManager [])
           default_file_prefix false baseline_run first_event s s');
    vm_compute; reflexivity.
Defined.

(** C2 as stated fails: a baseline descriptor declared four fields, no
    baseline event came, and the scan header written at the first primary
    event has the positions line ["#P0 "], with no [-1] on it. *)
Lemma four_baseline_fields_no_sentinels :
  let s := fst (feed utc_glibc (baseline_run ++ [(KEvent, first_event)]) fresh) in
  _baseline_descriptor s = baseline_four "b"
  /\ _num_baseline_events_received s = 0
  /\ nth_error (written s) 1
     = Some (ScanHeader,
             nl ++ nl ++ "#S 7 ct seq_num -1"
             ++ nl ++ "#D Sun Sep 09 01:46:40 2001"
             ++ nl ++ "#T -1  (Seconds)"
             ++ nl ++ "#P0 "
             ++ nl ++ "#N 4"
             ++ nl ++ "#L seq_num  Epoch  Seconds  det").
Proof. vm_compute. repeat split. Qed.

Lemma file_header_only_on_empty_resource_witness :
  let s := fst (feed utc_glibc baseline_run fresh) in
  let s' := fst (event utc_glibc first_event s) in
  exists scan_header line,
    to_spec_scan_header utc_glibc (start_count "abc") (_primary_descriptor s)
      (_baseline_event s) = Ok scan_header
    /\ to_spec_scan_data (start_count "abc") (_primary_descriptor s) first_event = Ok line
    /\ _has_not_written_file_header s' = false
    /\ _has_not_written_scan_header s' = false
    /\ (forall later s'',
          forallb not_start later = true ->
          feed utc_glibc later s' = (s'', Ok tt) ->
          count_site FileHeader (written s'') = count_site FileHeader (written s'))
    /\ exists filepath unix_time dt owner sources names,
         ["abc.spec"] = [filepath]
         /\ to_spec_file_header utc_glibc (start_count "abc") filepath
              (_baseline_descriptor s)
            = Ok (file_header_text (basename filepath) unix_time
                    (to_spec_time utc_glibc dt) owner sources names)
         /\ written s'
            = [(FileHeader,
                file_header_text (basename filepath) unix_time
                  (to_spec_time utc_glibc dt) owner sources names);
               (ScanHeader, scan_header);
               (DataLine, (line ++ nl)%string)].
Proof.
  intros s s'.
  exact (file_header_only_on_empty_resource utc_glibc (MultiFileManager [])
           (mk_manager true [("abc.spec", [])] ["abc.spec"])
           default_file_prefix false (start_count "abc") "abc"
           (tl baseline_run) first_event s s'
           ltac:(reflexivity) ltac:(reflexivity) ltac:(reflexivity)
           ltac:(vm_compute; reflexivity) ltac:(vm_compute; reflexivity)
           ltac:(vm_compute; reflexivity) ltac:(vm_compute; reflexivity)).
Defined.

(** A second run appended to the resource of a first one: no file header
    again, a scan header of its own. *)
Example second_run_on_the_same_resource :
  let first := fst (feed utc_glibc (count_run "abc" "d1") fresh) in
  let second :=
    fst (feed utc_glibc (count_run "abc" "d2")
           (init (MultiFileManager (disk (_manager first))) default_file_prefix false)) in
  map fst (written second)
  = [FileHeader; ScanHeader; DataLine; DataLine; Trailer;
     ScanHeader; DataLine; DataLine; Trailer].
Proof. vm_compute. reflexivity. Qed.

(** Where [strftime] pads the year, the year 385 is read back. *)
Example year_385_is_read_back_when_padded :
  from_spec_time (to_spec_time utc_padded (mk_datetime 385 7 25 7 6 40 0))
  = Ok (mk_datetime 385 7 25 7 6 40 0).
Proof. vm_compute. reflexivity. Qed.

Lemma time_codec_round_trip_witness :
  fromtimestamp utc_glibc (VInt 1000000000) = Ok start_2001
  /\ to_spec_time utc_glibc start_2001 = "Sun Sep 09 01:46:40 2001"
  /\ from_spec_time (to_spec_time utc_glibc start_2001) = Ok start_2001.
Proof.
  split; [vm_compute; reflexivity|]. split; [vm_compute; reflexivity|].
  apply (time_codec_round_trip utc_glibc 1000000000 start_2001).
  - vm_compute. reflexivity.
  - right. simpl. lia.
Defined.

(** C5 as stated fails: with the [strftime] of glibc, the epoch second
    -50000000000 lies in the year 385, is written with a three-digit year,
    and that text is not read back. *)
Lemma year_385_is_not_read_back :
  fromtimestamp utc_glibc (VInt (-50000000000)) = Ok (mk_datetime 385 7 25 7 6 40 0)
  /\ to_spec_time utc_glibc (mk_datetime 385 7 25 7 6 40 0) = "Thu Jul 25 07:06:40 385"
  /\ from_spec_time (to_spec_time utc_glibc (mk_datetime 385 7 25 7 6 40 0))
     = Raise ValueError.
Proof. vm_compute. repeat split. Qed.

Lemma scan_data_column_names_spec_witness :
  _get_scan_data_column_names (start_scan [VStr "th"]) (primary_th "d1")
  = Ok ["Zed"; "det_a"; "det_b"]
  /\ exists motor_name,
       [VStr "th"] = [motor_name]
       /\ Sorted string_le ["Zed"; "det_a"; "det_b"]
       /\ NoDup ["Zed"; "det_a"; "det_b"]
       /\ (forall k, In k ["Zed"; "det_a"; "det_b"] <->
                     exists v, lookup k data_keys_th = Some v /\ read_field motor_name v).
Proof.
  assert (E : _get_scan_data_column_names (start_scan [VStr "th"]) (primary_th "d1")
              = Ok ["Zed"; "det_a"; "det_b"]) by (vm_compute; reflexivity).
  split; [exact E|].
  destruct (scan_data_column_names_spec utc_glibc (start_scan [VStr "th"]) (primary_th "d1")
              data_keys_th ["Zed"; "det_a"; "det_b"])
    as (motor_name & _ & _ & Hmotors & Hsorted & Hnodup & Hin & _).
  - reflexivity.
  - unfold dict_wf. cbn.
    repeat (constructor; [cbn; intuition discriminate|]). constructor.
  - exact E.
  - exists motor_name. split; [|split; [exact Hsorted|split; [exact Hnodup|exact Hin]]].
    apply Hmotors; [left|]; reflexivity.
Defined.




Lemma multi_motor_not_supported_witness :
  _get_motor_name (start_scan [VStr "th"; VStr "phi"]) = Raise NotImplementedError
  /\ to_spec_scan_header utc_glibc (start_scan [VStr "th"; VStr "phi"])
       (primary_det "d1") VNone = Raise NotImplementedError
  /\ _get_motor_name (start_scan [VStr "th"]) <> Raise NotImplementedError.
Proof.
  destruct (multi_motor_not_supported utc_glibc (start_scan [VStr "th"; VStr "phi"])
              [VStr "th"; VStr "phi"]) as [Many _];
    [left; reflexivity|reflexivity|].
  destruct (multi_motor_not_supported utc_glibc (start_scan [VStr "th"]) [VStr "th"])
    as [_ Few]; [left; reflexivity|reflexivity|].
  destruct Many as (M1 & _ & M3); [simpl; lia|].
  destruct Few as (F1 & _); [simpl; lia|].
  split; [exact M1|]. split; [|exact F1].
  apply (M3 (primary_det "d1") VNone (VInt 8)). reflexivity.
Defined.

Lemma start_then_stop_witness :
  exists s,
    feed utc_glibc [(KStart, start_count "abc"); (KStop, stop_abort)] fresh = (s, Ok tt)
    /\ _file s = Some "abc.spec"
    /\ written s
       = [(Trailer, nl ++ "#C Run exited with status: abort. Reason: No reason recorded.")]
    /\ count_site FileHeader (written s) = 0%nat
    /\ count_site ScanHeader (written s) = 0%nat.
Proof.
  exact (start_then_stop utc_glibc (MultiFileManager [])
           (mk_manager true [("abc.spec", [])] ["abc.spec"])
           default_file_prefix false (start_count "abc")
           [("exit_status", VStr "abort")] "abc" (VStr "abort")
           eq_refl eq_refl eq_refl).
Defined.

(** * The further properties at work *)

Lemma get_name_inverts_the_scan_names_witness :
  get_name (VStr "rel_scan") = Ok "dscan"
  /\ get_name (VStr "fly") = Ok "Other"
  /\ get_name (VList []) = Raise TypeError.
Proof.
  split; [|split].
  - destruct (get_name_inverts_the_scan_names (VStr "rel_scan")) as (A & _).
    apply (A "rel_scan" "dscan"); reflexivity.
  - destruct (get_name_inverts_the_scan_names (VStr "fly")) as (_ & B & _).
    apply (B "fly"); [reflexivity|].
    intros spec. cbn.
    destruct (String.eqb spec "ct"); [discriminate|].
    destruct (String.eqb spec "ascan"); [discriminate|].
    destruct (String.eqb spec "dscan"); discriminate.
  - destruct (get_name_inverts_the_scan_names (VList [])) as (_ & _ & _ & D).
    apply D. reflexivity.
Defined.

Lemma motor_position_by_plan_witness :
  _get_motor_position (start_count "abc") event_th = Ok (VInt 3)
  /\ _get_motor_position (start_scan [VStr "th"]) event_th = Ok float_1_5.
Proof.
  split.
  - destruct (motor_position_by_plan (start_count "abc") event_th) as (A & _).
    apply (A "count"); [reflexivity|discriminate|discriminate].
  - destruct (motor_position_by_plan (start_scan [VStr "th"]) event_th) as (_ & B).
    apply (B (VStr "th")); [left; reflexivity|reflexivity].
Defined.

Lemma data_line_has_the_columns_of_the_header_witness :
  exists header line,
    to_spec_scan_header utc_glibc (start_count "abc") (primary_det "d1") VNone = Ok header
    /\ to_spec_scan_data (start_count "abc") (primary_det "d1") first_event = Ok line
    /\ exists scan_id command readable_time acq_time positions cols motor
              position unix_time values,
         header
         = scan_header_text scan_id command readable_time acq_time positions cols motor
         /\ line = data_line_text position unix_time acq_time values
         /\ Forall2 (fun k v => reading first_event k = Ok v) cols values
         /\ List.length values = List.length cols
         /\ _get_scan_data_column_names (start_count "abc") (primary_det "d1") = Ok cols.
Proof.
  eexists _, _. split; [vm_compute; reflexivity|]. split; [vm_compute; reflexivity|].
  apply (data_line_has_the_columns_of_the_header utc_glibc (start_count "abc")
           (primary_det "d1") VNone first_event); vm_compute; reflexivity.
Defined.

Lemma spec_time_drops_the_microseconds_witness :
  from_spec_time (to_spec_time utc_glibc (mk_datetime 2001 9 9 1 46 40 250000))
  = Ok (mk_datetime 2001 9 9 1 46 40 0).
Proof.
  apply (spec_time_drops_the_microseconds utc_glibc (mk_datetime 2001 9 9 1 46 40 250000)).
  - reflexivity.
  - right. simpl. lia.
Defined.

Lemma from_spec_time_then_to_spec_time_witness :
  from_spec_time "sun SEP 9 1:46:40 2001" = Ok start_2001
  /\ to_spec_time utc_glibc start_2001 = "Sun Sep 09 01:46:40 2001"
  /\ microsecond start_2001 = 0
  /\ from_spec_time (to_spec_time utc_glibc start_2001) = Ok start_2001.
Proof.
  split; [vm_compute; reflexivity|]. split; [vm_compute; reflexivity|].
  apply (from_spec_time_then_to_spec_time utc_glibc "sun SEP 9 1:46:40 2001" start_2001).
  - vm_compute. reflexivity.
  - right. simpl. lia.
Defined.

Lemma from_spec_time_ignores_the_day_name_witness :
  from_spec_time "Mon Sep 09 01:46:40 2001" = from_spec_time "Sun Sep 09 01:46:40 2001".
Proof.
  apply (from_spec_time_ignores_the_day_name 0 6 " Sep 09 01:46:40 2001"); lia.
Defined.

Lemma headers_show_the_same_time_witness :
  exists file_header scan_header,
    to_spec_file_header utc_glibc start_half "abc.spec" VNone = Ok file_header
    /\ to_spec_scan_header utc_glibc start_half (primary_det "d1") VNone = Ok scan_header
    /\ exists readable_time owner sources names scan_id command acq_time positions
              cols motor,
         file_header
         = file_header_text (basename "abc.spec") 1000000000 readable_time owner
             sources names
         /\ scan_header
            = scan_header_text scan_id command readable_time acq_time positions cols motor.
Proof.
  eexists _, _. split; [vm_compute; reflexivity|]. split; [vm_compute; reflexivity|].
  apply (headers_show_the_same_time utc_glibc start_half VNone (primary_det "d1") VNone
           (VFloat (S754_finite false 8388608004194304 (-23))) "abc.spec"
           1000000000 500000); vm_compute; reflexivity.
Defined.

Lemma stop_raises_and_leaves_no_trace_witness :
  stop (VDict [("reason", VStr "beam dump")]) fresh = (fresh, Raise KeyError)
  /\ stop stop_success fresh = (fresh, Raise AttributeError).
Proof.
  split.
  - destruct (stop_raises_and_leaves_no_trace (VDict [("reason", VStr "beam dump")]) fresh)
      as (_ & B & _).
    apply (B [("reason", VStr "beam dump")]); reflexivity.
  - destruct (stop_raises_and_leaves_no_trace stop_success fresh) as (_ & _ & C).
    apply (C nl); reflexivity.
Defined.

Lemma start_raises_before_it_opens_witness :
  let s := init exclusive_manager default_file_prefix false in
  start (start_count "abc") s = (set_start (start_count "abc") s, Raise ValueError)
  /\ start (VDict []) fresh = (set_start (VDict []) fresh, Raise KeyError).
Proof.
  intros s. split.
  - destruct (start_raises_before_it_opens (start_count "abc") s) as (_ & _ & C).
    apply (C "abc"); reflexivity.
  - destruct (start_raises_before_it_opens (VDict []) fresh) as (_ & B & _).
    apply B. reflexivity.
Defined.

Lemma start_does_not_reset_witness :
  let s := fst (feed utc_glibc (count_run "abc" "d1") fresh) in
  let s' := fst (start (start_count "xyz") s) in
  _primary_descriptor s' = primary_det "d1"
  /\ _has_not_written_scan_header s' = false
  /\ _num_events_received s' = 2
  /\ descriptor (primary_det "d2") s' = (s', Raise NotImplementedError).
Proof.
  intros s s'.
  destruct (start_does_not_reset (start_count "xyz") s) as (A & _ & _ & B & C & _ & D).
  fold s' in A, B, C, D.
  split; [rewrite A; vm_compute; reflexivity|].
  split; [rewrite B; vm_compute; reflexivity|].
  split; [rewrite C; vm_compute; reflexivity|].
  apply D; [vm_compute; reflexivity|].
  exists (VStr "primary"). split; reflexivity.
Defined.

Lemma event_that_raises_writes_no_data_line_witness :
  let s := fst (feed utc_glibc baseline_run fresh) in
  let s' := fst (event utc_glibc event_without_reading s) in
  event utc_glibc event_without_reading s = (s', Raise KeyError)
  /\ data_lines s' = data_lines s
  /\ _num_events_received s <= _num_events_received s' <= _num_events_received s + 1
  /\ _num_baseline_events_received s' = _num_baseline_events_received s.
Proof.
  intros s s'.
  assert (E : event utc_glibc event_without_reading s = (s', Raise KeyError))
    by (vm_compute; reflexivity).
  split; [exact E|].
  exact (event_that_raises_writes_no_data_line utc_glibc event_without_reading s s'
           KeyError E).
Defined.

Lemma event_of_another_stream_witness :
  let s := fst (feed utc_glibc baseline_run fresh) in
  exists fh sh s',
    file_header_due utc_glibc s fh
    /\ scan_header_due utc_glibc s sh
    /\ event utc_glibc (event_det "d2" 0 float_1_5 1000000001) s
       = (s', Raise NotImplementedError)
    /\ written s' = (written s ++ fh ++ sh)%list
    /\ _has_not_written_file_header s' = false
    /\ _has_not_written_scan_header s' = false
    /\ _num_events_received s' = _num_events_received s.
Proof.
  intros s.
  assert (Hfh : exists fh, file_header_due utc_glibc s fh).
  { eexists. vm_compute. eexists _, _. repeat split. }
  assert (Hsh : exists sh, scan_header_due utc_glibc s sh).
  { eexists. vm_compute. eexists. repeat split. }
  destruct Hfh as (fh & Hfh). destruct Hsh as (sh & Hsh).
  destruct (event_of_another_stream utc_glibc (event_det "d2" 0 float_1_5 1000000001) s
              "abc.spec" fh sh (VStr "d2") (VStr "d1"))
    as (s' & H); try assumption; try (vm_compute; reflexivity).
  exists fh, sh, s'. auto.
Defined.

Lemma event_needs_the_primary_descriptor_witness :
  let s := fst (feed utc_glibc [(KStart, start_count "abc")] fresh) in
  let s' := fst (event utc_glibc first_event s) in
  exists e, snd (event utc_glibc first_event s) = Raise e /\ data_lines s' = data_lines s.
Proof.
  intros s s'.
  destruct (event_needs_the_primary_descriptor utc_glibc first_event s s'
              (snd (event utc_glibc first_event s)))
    as [(R & _)|H].
  - reflexivity.
  - unfold s'. now destruct (event utc_glibc first_event s).
  - vm_compute in R. discriminate R.
  - exact H.
Defined.


Lemma positions_line_up_with_the_names_witness :
  exists file_header scan_header,
    to_spec_file_header utc_glibc (start_count "abc") "abc.spec" (baseline_four "b")
    = Ok file_header
    /\ to_spec_scan_header utc_glibc (start_count "abc") (primary_det "d1")
         baseline_event_four = Ok scan_header
    /\ exists names sources positions unix_time readable_time owner
              scan_id command scan_time acq_time cols motor,
         file_header
         = file_header_text (basename "abc.spec") unix_time readable_time owner
             sources names
         /\ scan_header
            = scan_header_text scan_id command scan_time acq_time positions cols motor
         /\ Sorted string_le names
         /\ Permutation names ["m1"; "m2"; "m3"; "m4"]
         /\ Forall2 (fun name source =>
                       exists f, lookup name
                                   [("m1", scalar_field "m1" "PV:m1");
                                    ("m2", scalar_field "m2" "PV:m2");
                                    ("m3", scalar_field "m3" "PV:m3");
                                    ("m4", scalar_field "m4" "PV:m4")] = Some f
                                 /\ f.["source"] = Ok source)
              names sources
         /\ Forall2 (fun name position =>
                       lookup name [("m2", VInt 20); ("m1", VInt 10); ("m3", VInt 30);
                                    ("m4", VInt 40)] = Some position)
              names positions.
Proof.
  eexists _, _. split; [vm_compute; reflexivity|]. split; [vm_compute; reflexivity|].
  apply (positions_line_up_with_the_names utc_glibc (start_count "abc") (primary_det "d1")
           (baseline_four "b") baseline_event_four "abc.spec"
           [("m1", scalar_field "m1" "PV:m1"); ("m2", scalar_field "m2" "PV:m2");
            ("m3", scalar_field "m3" "PV:m3"); ("m4", scalar_field "m4" "PV:m4")]
           [("m2", VInt 20); ("m1", VInt 10); ("m3", VInt 30); ("m4", VInt 40)]).
  - reflexivity.
  - reflexivity.
  - unfold dict_wf. cbn. repeat constructor; cbn; intuition discriminate.
  - apply perm_swap.
  - vm_compute. reflexivity.
  - vm_compute. reflexivity.
Defined.

Lemma the_file_header_reads_back_witness :
  exists header,
    to_spec_file_header utc_glibc (start_count "abc") "abc.spec" VNone = Ok header
    /\ exists unix_time readable_time owner sources names dt,
         header
         = file_header_text (basename "abc.spec") unix_time readable_time owner
             sources names
         /\ fromtimestamp utc_glibc (VInt unix_time) = Ok dt
         /\ parse_time utc_glibc (str_of_Z unix_time) = Ok dt
         /\ parse_filename (basename "abc.spec") = basename "abc.spec"
         /\ (pads_year utc_glibc = true \/ 1000 <= year dt ->
             parse_time_from_date readable_time = Ok dt).
Proof.
  eexists. split; [vm_compute; reflexivity|].
  apply (the_file_header_reads_back utc_glibc (start_count "abc") VNone "abc.spec").
  vm_compute. reflexivity.
Defined.

Lemma the_scan_header_reads_back_witness :
  exists header,
    to_spec_scan_header utc_glibc (start_count "abc") (primary_det "d1") VNone = Ok header
    /\ exists scan_id command readable_time acq_time positions cols motor t dt,
         header
         = scan_header_text scan_id command readable_time acq_time positions cols motor
         /\ parse_num_intervals (str_of_Z (3 + Z.of_nat (List.length cols)))
            = Ok (3 + Z.of_nat (List.length cols))
         /\ (start_count "abc").["time"] = Ok t
         /\ fromtimestamp utc_glibc t = Ok dt
         /\ (pads_year utc_glibc = true \/ 1000 <= year dt ->
             parse_time_from_date readable_time = Ok (replace_microsecond dt 0)).
Proof.
  eexists. split; [vm_compute; reflexivity|].
  apply (the_scan_header_reads_back utc_glibc (start_count "abc") (primary_det "d1") VNone).
  vm_compute. reflexivity.
Defined.

Lemma file_header_names_the_file_witness :
  exists header,
    to_spec_file_header utc_glibc (start_count "abc") "scans/2001/abc.spec" VNone
    = Ok header
    /\ exists name unix_time readable_time owner sources names,
         header = file_header_text name unix_time readable_time owner sources names
         /\ contains_char "/" name = false
         /\ ("scans/2001/abc.spec" = name
             \/ exists dir, "scans/2001/abc.spec" = dir ++ "/" ++ name).
Proof.
  eexists. split; [vm_compute; reflexivity|].
  apply (file_header_names_the_file utc_glibc (start_count "abc") VNone
           "scans/2001/abc.spec").
  vm_compute. reflexivity.
Defined.

Lemma scan_command_by_plan_witness :
  exists header,
    to_spec_scan_header utc_glibc (start_scan [VStr "th"]) (primary_det "d1") VNone
    = Ok header
    /\ exists scan_id command readable_time acq_time positions cols motor plan,
         header
         = scan_header_text scan_id command readable_time acq_time positions cols motor
         /\ _get_plan_name (start_scan [VStr "th"]) = Ok plan
         /\ _get_acq_time (start_scan [VStr "th"]) = Ok acq_time
         /\ ((plan = "ct" \/ plan = "Other") /\ motor = VStr "seq_num"
             /\ command = plan ++ " seq_num " ++ py_str acq_time
             \/ (plan = "ascan" \/ plan = "dscan")
                /\ exists plan_args args start_val stop_val num,
                     (start_scan [VStr "th"]).["plan_args"] = Ok plan_args
                     /\ plan_args.["args"] = Ok args
                     /\ getitem args (VInt (-2)) = Ok start_val
                     /\ getitem args (VInt (-1)) = Ok stop_val
                     /\ plan_args.["num"] = Ok num
                     /\ command = plan ++ " " ++ py_str motor ++ " " ++ py_str start_val
                                  ++ " " ++ py_str stop_val ++ " " ++ py_str num
                                  ++ " " ++ py_str acq_time).
Proof.
  eexists. split; [vm_compute; reflexivity|].
  apply (scan_command_by_plan utc_glibc (start_scan [VStr "th"]) (primary_det "d1") VNone).
  vm_compute. reflexivity.
Defined.

Lemma the_exposure_time_reads_back_witness :
  exists header,
    to_spec_scan_header utc_glibc (start_count "abc") (primary_det "d1") VNone = Ok header
    /\ parse_exposure_time "-1  (Seconds)" = Ok (S754_finite true 4503599627370496 (-52)).
Proof.
  destruct (to_spec_scan_header utc_glibc (start_count "abc") (primary_det "d1") VNone) as [header|] eqn:E;
    [|vm_compute in E; discriminate E].
  exists header. split; [reflexivity|].
  destruct (the_exposure_time_reads_back utc_glibc _ _ _ _ E)
    as (scan_id & command & readable_time & acq_time & positions & cols & motor
        & _ & _ & Hd & Hz).
  assert (Ha : acq_time = VInt (-1)) by (apply (Hd _ eq_refl); left; reflexivity).
  destruct (Hz (-1) Ha) as [Hr _]. rewrite Ha in Hr. exact Hr.
Defined.

Lemma hkl_is_read_between_single_blanks_witness :
  parse_hkl "1 0 -2"
  = Ok [S754_finite false 4503599627370496 (-52); S754_zero false;
        S754_finite true 4503599627370496 (-51)]
  /\ parse_hkl "1  0" = Raise ValueError.
Proof.
  split.
  - exact (proj1 hkl_is_read_between_single_blanks [1; 0; -2] ltac:(discriminate)).
  - exact (proj1 (proj2 hkl_is_read_between_single_blanks) "1" "0").
Defined.
